(** * Takanami dialog: a shallow embedding of
      [eqpickertool/gui/views/takanamidialog.py]

    The file embeds the two classes of the module:

    - [TakanamiTask]: one cancellable execution of Takanami's AR picking
      method over a piece of a seismic signal;
    - [TakanamiDialog]: the dialog that owns the analysis window
      ([_start], [_end]), the current estimate ([event_time]) and the two
      time spin boxes, and that commits the estimate to the document.

    Numbers.  Sample indices produced by [int(...)] are [Z].  Python floats
    (the sampling rate [fs], times in seconds, [0.5 * fs]) are embedded as
    exact rationals [Q]: rounding of floating point arithmetic is not part of
    the model.  A field that the code assigns both ints and floats
    ([_start], [_end], the task's [start] and [end]) is a [Q]; an int is
    injected with [inject_Z] and compared by value, as Python does.  Results
    that are numbers are therefore stated up to [==], the equality of
    rationals by value.  Where the code's rounded product or quotient falls
    on the other side of an integer or of a threshold, the code's value
    differs from the model's: [int((8200 / 1000.0) * 100.0)] is 819, the
    exact product is 820.  Statements about a sample index are relative to
    the index computed; statements that compare indices with times leave
    room for that rounding.

    Errors.  A call that can raise returns a [Py.result]: the [ValueError]s
    of the module, the [ZeroDivisionError] of a division by [fs = 0], and
    whatever the estimation algorithm raises.

    Concurrency.  [abort()] may be called from another thread at any moment
    of a run: a run of [TakanamiTask.run] is a sequence of steps, one per
    statement, interleaved with [abort()] calls by a schedule.

    Widgets.  A [QTimeEdit] is embedded as the three values the module reads
    and writes (time, minimum, maximum).  The toolkit's own reactions to a
    setter (clamping the displayed time, emitting [timeChanged]) are outside
    the module and outside the model: a handler is a function of the value
    it is called with. *)

From Stdlib Require Import ZArith QArith Qminmax Qround Lqa Lia List String Bool.
Import ListNotations.

Set Implicit Arguments.

(* ================================================================== *)
(** * Part I: definitions *)
(* ================================================================== *)

(** ** Python builtins used by the module *)

Module Py.

Open Scope Q_scope.

(** [a < b] on numbers, as a boolean. *)
Definition Qltb (a b : Q) : bool := negb (Qle_bool b a).

(** [max(a, b)]: the first argument is kept unless the second is strictly
    greater. *)
Definition max (a b : Q) : Q := if Qltb a b then b else a.

(** [min(a, b)]: the first argument is kept unless the second is strictly
    smaller. *)
Definition min (a b : Q) : Q := if Qltb b a then b else a.

(** [int(x)] on a float: truncation toward zero. *)
Definition int (x : Q) : Z := (Qnum x ÷ Zpos (Qden x))%Z.

(** Exceptions raised by, or passing through, the module. *)
Inductive exn : Type :=
| ValueError (msg : string)
| ZeroDivisionError
| AlgorithmError (msg : string).

(** A call either raises or returns. *)
Definition result (A : Type) : Type := (exn + A)%type.

Definition ret {A} (a : A) : result A := inr a.

Definition raise {A} (e : exn) : result A := inl e.

Definition bind {A B} (m : result A) (k : A -> result B) : result B :=
  match m with
  | inl e => inl e
  | inr a => k a
  end.

(** [a / b] on floats: raises when the divisor is zero. *)
Definition div (a b : Q) : result Q :=
  if Qeq_bool b 0 then raise ZeroDivisionError else ret (a / b).

End Py.

Declare Scope py_scope.
Delimit Scope py_scope with py.
Notation "x <- m ;; k" := (Py.bind m (fun x => k))
  (at level 61, m at next level, right associativity) : py_scope.

(** ** Qt values: [QTime] and [QTimeEdit] *)

Module QtCore.

Open Scope Z_scope.

(** A [QTime] is the number of milliseconds since midnight. *)
Definition QTime : Type := Z.

Definition MSECS_PER_DAY : Z := 86400000.

(** [QTime()]: the null time, which counts as midnight in the two
    operations below (Qt 4, the version PySide binds). *)
Definition QTime_ : QTime := 0.

(** [t.addMSecs(ms)]: wraps around midnight. *)
Definition addMSecs (t : QTime) (ms : Z) : QTime := (t + ms) mod MSECS_PER_DAY.

(** [t.msecsTo(u)]. *)
Definition msecsTo (t u : QTime) : Z := u - t.

End QtCore.

Module QtGui.

(** The three properties of a time spin box that the module touches. *)
Record QTimeEdit : Type := mkQTimeEdit {
  time : QtCore.QTime;
  minimumTime : QtCore.QTime;
  maximumTime : QtCore.QTime
}.

Definition setTime (w : QTimeEdit) (t : QtCore.QTime) : QTimeEdit :=
  mkQTimeEdit t (minimumTime w) (maximumTime w).

Definition setMinimumTime (w : QTimeEdit) (t : QtCore.QTime) : QTimeEdit :=
  mkQTimeEdit (time w) t (maximumTime w).

Definition setMaximumTime (w : QTimeEdit) (t : QtCore.QTime) : QTimeEdit :=
  mkQTimeEdit (time w) (minimumTime w) t.

(** The standard buttons of the dialog's button box. *)
Inductive StandardButton : Type := Ok | Apply | Cancel.

End QtGui.

(** ** The seismic record ([eqpickertool.picking.record], imported as [rc]) *)

Module rc.

(** Modelled from the spec: the record module is imported, not part of the
    file.  The dialog reads two things of a record: its sample rate [fs] and
    the length of its [signal]. *)
Record Record_ : Type := mkRecord {
  fs : Q;
  signal : list Q
}.

(** Modelled from the spec: the tags an event carries.  The dialog only
    names [method_takanami], [mode_automatic] and [status_reported]. *)
Inductive method : Type := method_other | method_takanami.

Inductive mode : Type := mode_manual | mode_automatic.

Inductive status : Type := status_preliminary | status_reported.

(** A seismic event: the dialog reads its [time], a sample index. *)
Record Event : Type := mkEvent {
  time : Z;
  event_method : method;
  event_mode : mode;
  event_status : status
}.

End rc.

(** [len(record.signal)]. *)
Definition len (r : rc.Record_) : Z := Z.of_nat (List.length (rc.signal r)).

(** ** The document *)

Module Document.

(** The two writes the dialog can ask of the document. *)
Inductive call : Type :=
| editEvent (event : rc.Event) (time : Z)
            (method : rc.method) (mode : rc.mode) (status : rc.status)
| createEvent (time : Z)
              (method : rc.method) (mode : rc.mode) (status : rc.status).

(** Modelled from the spec: the document class is not part of the file.  A
    document holds the record and, for the model, the writes it received, in
    order. *)
Record t : Type := mk {
  record : rc.Record_;
  calls : list call
}.

Definition receive (c : call) (d : t) : t := mk (record d) (calls d ++ [c]).

End Document.

(** ** [TakanamiTask] *)

Module TakanamiTask.

Open Scope Q_scope.

(** What the algorithm returns: [(et, aic, n0_aic)]. *)
Definition Estimation : Type := (Z * list Q * Z)%type.

(** The arguments of [algorithm.run]:
    [(signal, fs, start_time_in_secs, end_time_in_secs)]. *)
Definition Arguments_ : Type := (list Q * Q * Q * Q)%type.

(** [takanami.Takanami().run]: opaque to the module; it returns an
    estimation or raises. *)
Definition Algorithm : Type := Arguments_ -> Py.result Estimation.

(** The two signals of the class. *)
Inductive Signal : Type :=
| position_estimated (et : Z) (aic : list Q) (n0_aic : Z)
| finished.

Record t : Type := mk {
  record : rc.Record_;
  start : Q;
  end_ : Q;
  algorithm : Algorithm;
  _abort : bool
}.

(** [__init__(self, record, start, end)]; the algorithm object the
    constructor creates is a parameter. *)
Definition __init__ (Takanami : Algorithm) (record : rc.Record_) (start end_ : Q) : t :=
  mk record start end_ Takanami false.

(** [abort(self)]. *)
Definition abort (self : t) : t :=
  mk (record self) (start self) (end_ self) (algorithm self) true.

Definition clear_abort (self : t) : t :=
  mk (record self) (start self) (end_ self) (algorithm self) false.

(** The program points of [run], one per statement (source lines 69 to 82),
    with the local variables that are live there.  The two assignments of
    lines 70 to 72 are one point: they neither read nor write the flag. *)
Inductive location : Type :=
| at_reset                                  (* 69: self._abort = False *)
| at_times                                  (* 70-72: the two times *)
| at_checkpoint1 (start_time_in_secs end_time_in_secs : Q)   (* 73 *)
| at_algorithm (start_time_in_secs end_time_in_secs : Q)     (* 75-78 *)
| at_checkpoint2 (r : Estimation)           (* 79 *)
| at_emit_position (r : Estimation)         (* 81 *)
| at_emit_finished                          (* 82 *)
| returned
| raised (e : Py.exn).

(** An activation of [run]: the task, the program point, the signals
    emitted so far and the calls made to the algorithm so far. *)
Record frame : Type := mkFrame {
  self : t;
  pc : location;
  emitted : list Signal;
  invoked : list Arguments_
}.

(** [run] has been called and has executed nothing yet. *)
Definition call_run (self : t) : frame := mkFrame self at_reset [] [].

Definition emit_position (r : Estimation) : Signal :=
  let '(et, aic, n0_aic) := r in position_estimated et aic n0_aic.

(** Lines 70 to 72: the two times handed to the algorithm, as values (the
    divisions themselves raise when [fs] is zero, see [step]). *)
Definition start_time_in_secs (self : t) : Q :=
  Py.max 0 (start self) / rc.fs (record self).

Definition end_time_in_secs (self : t) : Q :=
  Py.min (inject_Z (len (record self))) (end_ self) / rc.fs (record self).

(** Lines 70 to 72 as executed. *)
Definition times (self : t) : Py.result (Q * Q) :=
  (start_time_in_secs <- Py.div (Py.max 0 (start self)) (rc.fs (record self)) ;;
   end_time_in_secs <- Py.div (Py.min (inject_Z (len (record self))) (end_ self))
                              (rc.fs (record self)) ;;
   Py.ret (start_time_in_secs, end_time_in_secs))%py.

(** One statement of [run]. *)
Definition step (f : frame) : frame :=
  let s := self f in
  match pc f with
  | at_reset =>
      mkFrame (clear_abort s) at_times (emitted f) (invoked f)
  | at_times =>
      match times s with
      | inl e => mkFrame s (raised e) (emitted f) (invoked f)
      | inr (ts, te) => mkFrame s (at_checkpoint1 ts te) (emitted f) (invoked f)
      end
  | at_checkpoint1 ts te =>
      if _abort s
      then mkFrame s returned (emitted f) (invoked f)
      else mkFrame s (at_algorithm ts te) (emitted f) (invoked f)
  | at_algorithm ts te =>
      let args := (rc.signal (record s), rc.fs (record s), ts, te) in
      match algorithm s args with
      | inl e => mkFrame s (raised e) (emitted f) (invoked f ++ [args])
      | inr r => mkFrame s (at_checkpoint2 r) (emitted f) (invoked f ++ [args])
      end
  | at_checkpoint2 r =>
      if _abort s
      then mkFrame s returned (emitted f) (invoked f)
      else mkFrame s (at_emit_position r) (emitted f) (invoked f)
  | at_emit_position r =>
      mkFrame s at_emit_finished (emitted f ++ [emit_position r]) (invoked f)
  | at_emit_finished =>
      mkFrame s returned (emitted f ++ [finished]) (invoked f)
  | returned => f
  | raised _ => f
  end.

(** What can happen next to an activation: [run] executes its next
    statement, or somebody calls [abort()] on the task. *)
Inductive action : Type := Step | Abort.

Definition perform (f : frame) (a : action) : frame :=
  match a with
  | Step => step f
  | Abort => mkFrame (abort (self f)) (pc f) (emitted f) (invoked f)
  end.

(** A schedule interleaves the statements of [run] with calls of [abort]. *)
Definition exec (sch : list action) (f : frame) : frame :=
  fold_left perform sch f.

(** [run(self)] left alone: its seven statements, nothing in between. *)
Definition run (self : t) : frame := exec (repeat Step 7) (call_run self).

(** The arguments with which lines 75 to 78 call the algorithm. *)
Definition run_arguments (self : t) : Arguments_ :=
  (rc.signal (record self), rc.fs (record self),
   start_time_in_secs self, end_time_in_secs self).

(** The number of statements a schedule lets [run] execute. *)
Fixpoint steps (sch : list action) : nat :=
  match sch with
  | [] => O
  | Step :: sch' => S (steps sch')
  | Abort :: sch' => steps sch'
  end.

(** [abort_before n sch]: [abort()] is called before the [n]-th statement
    that [sch] executes. *)
Fixpoint abort_before (n : nat) (sch : list action) : bool :=
  match n, sch with
  | O, _ => false
  | S _, [] => false
  | S _, Abort :: _ => true
  | S n', Step :: sch' => abort_before n' sch'
  end.

(** The schedule that remains once the first statement has executed. *)
Fixpoint after_first_step (sch : list action) : list action :=
  match sch with
  | [] => []
  | Step :: sch' => sch'
  | Abort :: sch' => after_first_step sch'
  end.

(** [abort()] is called after line 69 has cleared the flag and before the
    second checkpoint (the fifth statement) reads it. *)
Definition abort_observed (sch : list action) : bool :=
  abort_before 4 (after_first_step sch).

(** The signals of a run whose algorithm returned [r]: none when a
    checkpoint saw the flag, both otherwise. *)
Definition outcome (aborted : bool) (r : Estimation) : list Signal :=
  if aborted then [] else [emit_position r; finished].

(** Invariants of an activation of [run] on the task [s0]. *)

(** Only [_abort] ever changes. *)
Definition same_task (s0 s : t) : Prop :=
  record s = record s0 /\ start s = start s0 /\ end_ s = end_ s0 /\
  algorithm s = algorithm s0.

(** The live locals hold the two times of lines 70 to 72. *)
Definition locals_ok (s0 : t) (l : location) : Prop :=
  match l with
  | at_checkpoint1 ts te | at_algorithm ts te =>
      ts = start_time_in_secs s0 /\ te = end_time_in_secs s0
  | _ => True
  end.

(** Every call of the algorithm so far was made with [run_arguments]. *)
Definition args_inv (s0 : t) (f : frame) : Prop :=
  same_task s0 (self f) /\ locals_ok s0 (pc f) /\
  Forall (eq (run_arguments s0)) (invoked f).

(** When the algorithm raises [e]: nothing is emitted, and once the
    algorithm has been called the activation has ended by raising [e]. *)
Definition raise_inv (s0 : t) (e : Py.exn) (f : frame) : Prop :=
  same_task s0 (self f) /\ locals_ok s0 (pc f) /\ emitted f = [] /\
  match pc f with
  | at_checkpoint2 _ | at_emit_position _ | at_emit_finished => False
  | raised e' => invoked f = [] \/ e' = e
  | _ => invoked f = []
  end.

End TakanamiTask.

(** ** [TakanamiDialog] *)

Module TakanamiDialog.

Open Scope Q_scope.

Definition MINIMUM_MARGIN_IN_SECS : Q := 1 # 2.

(** The persistent settings: what is stored under
    [takanami_settings/takanami_margin], if anything. *)
Record QSettings : Type := mkQSettings {
  takanami_margin : option Q
}.

(** [settings.value('takanami_margin', default)], read as a float. *)
Definition value (settings : QSettings) (default : Q) : Q :=
  match takanami_margin settings with
  | Some v => v
  | None => default
  end.

(** The attributes of a dialog that the module's logic reads or writes.
    [record] is [document.record].  [position_label] is the time the label
    shows, [plotted] the estimations handed to the plot, [wait_dialog] the
    tasks handed to [wait_dialog.run], in order. *)
Record t : Type := mk {
  document : Document.t;
  _start : Q;
  _end : Q;
  seismic_event : option rc.Event;
  event_time : Z;
  start_point_spinbox : QtGui.QTimeEdit;
  end_point_spinbox : QtGui.QTimeEdit;
  position_label : QtCore.QTime;
  plotted : list TakanamiTask.Estimation;
  _task : option TakanamiTask.t;
  wait_dialog : list TakanamiTask.t
}.

Definition record (self : t) : rc.Record_ := Document.record (document self).

(** Attribute assignments. *)
Definition set_document (v : Document.t) (d : t) : t :=
  mk v (_start d) (_end d) (seismic_event d) (event_time d)
     (start_point_spinbox d) (end_point_spinbox d) (position_label d)
     (plotted d) (_task d) (wait_dialog d).

Definition set__start (v : Q) (d : t) : t :=
  mk (document d) v (_end d) (seismic_event d) (event_time d)
     (start_point_spinbox d) (end_point_spinbox d) (position_label d)
     (plotted d) (_task d) (wait_dialog d).

Definition set__end (v : Q) (d : t) : t :=
  mk (document d) (_start d) v (seismic_event d) (event_time d)
     (start_point_spinbox d) (end_point_spinbox d) (position_label d)
     (plotted d) (_task d) (wait_dialog d).

Definition set_event_time (v : Z) (d : t) : t :=
  mk (document d) (_start d) (_end d) (seismic_event d) v
     (start_point_spinbox d) (end_point_spinbox d) (position_label d)
     (plotted d) (_task d) (wait_dialog d).

Definition set_start_point_spinbox (v : QtGui.QTimeEdit) (d : t) : t :=
  mk (document d) (_start d) (_end d) (seismic_event d) (event_time d)
     v (end_point_spinbox d) (position_label d)
     (plotted d) (_task d) (wait_dialog d).

Definition set_end_point_spinbox (v : QtGui.QTimeEdit) (d : t) : t :=
  mk (document d) (_start d) (_end d) (seismic_event d) (event_time d)
     (start_point_spinbox d) v (position_label d)
     (plotted d) (_task d) (wait_dialog d).

Definition set_position_label (v : QtCore.QTime) (d : t) : t :=
  mk (document d) (_start d) (_end d) (seismic_event d) (event_time d)
     (start_point_spinbox d) (end_point_spinbox d) v
     (plotted d) (_task d) (wait_dialog d).

Definition plot (r : TakanamiTask.Estimation) (d : t) : t :=
  mk (document d) (_start d) (_end d) (seismic_event d) (event_time d)
     (start_point_spinbox d) (end_point_spinbox d) (position_label d)
     (plotted d ++ [r]) (_task d) (wait_dialog d).

Definition set__task (v : TakanamiTask.t) (d : t) : t :=
  mk (document d) (_start d) (_end d) (seismic_event d) (event_time d)
     (start_point_spinbox d) (end_point_spinbox d) (position_label d)
     (plotted d) (Some v) (wait_dialog d).

(** Modelled from the spec: [processingdialog.ProcessingDialog] is not part
    of the file.  [wait_dialog.run(task)] starts the task on a worker; what
    the task then does is [TakanamiTask.exec], and its result comes back
    through [on_position_estimated]. *)
Definition wait_dialog_run (task : TakanamiTask.t) (d : t) : t :=
  mk (document d) (_start d) (_end d) (seismic_event d) (event_time d)
     (start_point_spinbox d) (end_point_spinbox d) (position_label d)
     (plotted d) (_task d) (wait_dialog d ++ [task]).

(** A time spin box as Qt creates it. *)
Definition fresh_QTimeEdit : QtGui.QTimeEdit :=
  QtGui.mkQTimeEdit 0%Z 0%Z (QtCore.MSECS_PER_DAY - 1)%Z.

(** The milliseconds of [MINIMUM_MARGIN_IN_SECS * 1000]. *)
Definition margin_msecs : Q := MINIMUM_MARGIN_IN_SECS * 1000.

(** [_init_ui]: the part that sets the spin boxes' initial values and
    limits (lines 181 to 188); the result is the pair
    [(start_point_spinbox, end_point_spinbox)]. *)
Definition _init_ui (record : rc.Record_)
    : Py.result (QtGui.QTimeEdit * QtGui.QTimeEdit) :=
  (time_in_msecs <- Py.div (inject_Z (len record) * 1000) (rc.fs record) ;;
  let time_in_msecs := Py.int time_in_msecs in
  let s := fresh_QTimeEdit in
  let e := fresh_QTimeEdit in
  let s := QtGui.setTime s (QtCore.addMSecs QtCore.QTime_ 0) in
  let e := QtGui.setTime e (QtCore.addMSecs QtCore.QTime_ time_in_msecs) in
  let s := QtGui.setMinimumTime s (QtCore.addMSecs QtCore.QTime_ 0) in
  let e := QtGui.setMinimumTime e
             (QtCore.addMSecs QtCore.QTime_ (Py.int margin_msecs)) in
  let s := QtGui.setMaximumTime s
             (QtCore.addMSecs QtCore.QTime_
                (Py.int (inject_Z time_in_msecs - margin_msecs))) in
  let e := QtGui.setMaximumTime e (QtCore.addMSecs QtCore.QTime_ time_in_msecs) in
  Py.ret (s, e))%py.

(** [set_margin(self, margin)].  When it raises, no dialog is returned: the
    caller, [__init__] through [load_settings], abandons the object. *)
Definition set_margin (margin : Q) (self : t) : Py.result t :=
  if Qle_bool margin 0
  then Py.raise (Py.ValueError "margin must be a positive value")
  else
    let fs := rc.fs (record self) in
    let margin := Py.max (MINIMUM_MARGIN_IN_SECS * fs) margin in
    let self := set__start (Py.max 0 (inject_Z (event_time self) - margin)) self in
    let self := set__end (Py.min (inject_Z (len (record self)))
                                 (inject_Z (event_time self) + margin)) self in
    (start_msecs <- Py.div (_start self * 1000) fs ;;
     let self := set_start_point_spinbox
                   (QtGui.setTime (start_point_spinbox self)
                      (QtCore.addMSecs QtCore.QTime_ (Py.int start_msecs))) self in
     end_msecs <- Py.div (_end self * 1000) fs ;;
     let self := set_end_point_spinbox
                   (QtGui.setTime (end_point_spinbox self)
                      (QtCore.addMSecs QtCore.QTime_ (Py.int end_msecs))) self in
     Py.ret self)%py.

(** [load_settings(self)]. *)
Definition load_settings (settings : QSettings) (self : t) : Py.result t :=
  let default_margin := Py.int (value settings 5 * rc.fs (record self)) in
  set_margin (inject_Z default_margin) self.

(** The sample index [t_start] that [on_start_point_changed] computes
    (lines 199 to 201). *)
Definition t_start (value : QtCore.QTime) (self : t) : Z :=
  let time_in_msecs := QtCore.msecsTo QtCore.QTime_ value in
  Py.int (Py.max 0 ((inject_Z time_in_msecs / 1000) * rc.fs (record self))).

(** [on_start_point_changed(self, value)]. *)
Definition on_start_point_changed (value : QtCore.QTime) (self : t) : t :=
  let time_in_msecs := QtCore.msecsTo QtCore.QTime_ value in
  let t_start := t_start value self in
  if negb (Qeq_bool (_start self) (inject_Z t_start))
  then
    let self := set__start (inject_Z t_start) self in
    set_end_point_spinbox
      (QtGui.setMinimumTime (end_point_spinbox self)
         (QtCore.addMSecs QtCore.QTime_
            (Py.int (inject_Z time_in_msecs + margin_msecs)))) self
  else self.

(** The sample index [t_end] that [on_end_point_changed] computes (lines
    208 to 211). *)
Definition t_end (value : QtCore.QTime) (self : t) : Z :=
  let time_in_msecs := QtCore.msecsTo QtCore.QTime_ value in
  Py.int (Py.min (inject_Z (len (record self)))
                 ((inject_Z time_in_msecs / 1000) * rc.fs (record self))).

(** [on_end_point_changed(self, value)]. *)
Definition on_end_point_changed (value : QtCore.QTime) (self : t) : t :=
  let time_in_msecs := QtCore.msecsTo QtCore.QTime_ value in
  let t_end := t_end value self in
  if negb (Qeq_bool (_end self) (inject_Z t_end))
  then
    let self := set__end (inject_Z t_end) self in
    set_start_point_spinbox
      (QtGui.setMaximumTime (start_point_spinbox self)
         (QtCore.addMSecs QtCore.QTime_
            (Py.int (inject_Z time_in_msecs - margin_msecs)))) self
  else self.

(** [on_position_estimated(self, time, aic, n0_aic)]. *)
Definition on_position_estimated (time : Z) (aic : list Q) (n0_aic : Z)
    (self : t) : Py.result t :=
  let self := set_event_time time self in
  (msecs <- Py.div (inject_Z (event_time self) * 1000) (rc.fs (record self)) ;;
   let time_in_msecs := QtCore.addMSecs QtCore.QTime_ (Py.int msecs) in
   let self := set_position_label time_in_msecs self in
   Py.ret (plot (time, aic, n0_aic) self))%py.

(** [save_event(self)]. *)
Definition save_event (self : t) : t :=
  match seismic_event self with
  | Some ev =>
      if negb (rc.time ev =? event_time self)%Z
      then set_document
             (Document.receive
                (Document.editEvent ev (event_time self) rc.method_takanami
                   rc.mode_automatic rc.status_reported)
                (document self)) self
      else self
  | None =>
      set_document
        (Document.receive
           (Document.createEvent (event_time self) rc.method_takanami
              rc.mode_automatic rc.status_reported)
           (document self)) self
  end.

Section WithAlgorithm.

(** [takanami.Takanami()], the algorithm object every new task gets. *)
Variable Takanami : TakanamiTask.Algorithm.

(** Lines 132 to 138 and 194 to 196: a new task over the current window,
    handed to the wait dialog. *)
Definition submit_task (self : t) : t :=
  let task := TakanamiTask.__init__ Takanami (record self) (_start self) (_end self) in
  wait_dialog_run task (set__task task self).

(** [on_click(self, button)]. *)
Definition on_click (button : QtGui.StandardButton) (self : t) : t :=
  let self := match button with QtGui.Ok => save_event self | _ => self end in
  match button with QtGui.Apply => submit_task self | _ => self end.

(** The midpoint [int((end - start) / 2)]. *)
Definition half (width : Z) : Z := Py.int (inject_Z width / 2).

(** [__init__(self, document, t_start, t_end, seismic_event=None)].  The
    settings store that [load_settings] opens is a parameter. *)
Definition __init__ (settings : QSettings) (document : Document.t)
    (t_start t_end : Q) (seismic_event : option rc.Event) : Py.result t :=
  let record := Document.record document in
  let _start := Py.int (t_start * rc.fs record) in
  let _end := Py.int (t_end * rc.fs record) in
  if negb ((0 <=? _start)%Z && (_start <? len record)%Z)
  then Py.raise (Py.ValueError "Invalid t_start value")
  else if negb ((0 <=? _end)%Z && (_end <? len record)%Z)
  then Py.raise (Py.ValueError "Invalid t_end value")
  else if Py.Qltb (inject_Z (_end - _start)) (MINIMUM_MARGIN_IN_SECS * rc.fs record)
  then Py.raise (Py.ValueError
         "Distance between t_start and t_end must be at least of 0.5 seconds")
  else
    let event_time :=
      match seismic_event with
      | None => (_start + half (_end - _start))%Z
      | Some ev => rc.time ev
      end in
    if negb ((_start <? event_time)%Z && (event_time <? _end)%Z)
    then Py.raise (Py.ValueError
           "Event time must be a value between t-start and t_end")
    else
      (spinboxes <- _init_ui record ;;
       let self :=
         mk document (inject_Z _start) (inject_Z _end) seismic_event event_time
            (fst spinboxes) (snd spinboxes) (QtCore.addMSecs QtCore.QTime_ 0)
            [] None [] in
       self <- load_settings settings self ;;
       Py.ret (submit_task self))%py.

End WithAlgorithm.

(** The four checks of [__init__] (lines 107 to 121), on the sample indices
    [start] and [end_] and the event time. *)
Definition valid (record : rc.Record_) (start end_ eventTime : Z) : Prop :=
  (0 <= start < end_)%Z /\ (end_ < len record)%Z /\
  MINIMUM_MARGIN_IN_SECS * rc.fs record <= inject_Z (end_ - start) /\
  (start < eventTime < end_)%Z.

(** The event time [__init__] starts from. *)
Definition initial_event_time (start end_ : Z) (seismic_event : option rc.Event) : Z :=
  match seismic_event with
  | None => (start + half (end_ - start))%Z
  | Some ev => rc.time ev
  end.

(** The dialog as [__init__] has it once the checks have passed and
    [_init_ui] has run (line 123). *)
Definition after_init_ui (document : Document.t) (start end_ : Z)
    (seismic_event : option rc.Event)
    (spinboxes : QtGui.QTimeEdit * QtGui.QTimeEdit) : t :=
  mk document (inject_Z start) (inject_Z end_) seismic_event
     (initial_event_time start end_ seismic_event)
     (fst spinboxes) (snd spinboxes)
     (QtCore.addMSecs QtCore.QTime_ 0) [] None [].

(** The window the code keeps: inside [[0, N]], at least the minimum margin
    wide. *)
Definition window_ok (d : t) : Prop :=
  0 <= _start d /\ _start d < _end d /\ _end d <= inject_Z (len (record d)) /\
  MINIMUM_MARGIN_IN_SECS * rc.fs (record d) <= _end d - _start d.

(** A number that is an integer by value. *)
Definition is_integer (q : Q) : Prop := inject_Z (Qfloor q) == q.

(** The SignalWindow invariant, in the specification's words: integer
    bounds, [0 <= start < N], [0 <= end < N], [end > start] and
    [(end - start) / fs >= 0.5]. *)
Definition SignalWindow_invariant (d : t) : Prop :=
  is_integer (_start d) /\ is_integer (_end d) /\
  (0 <= _start d /\ _start d < inject_Z (len (record d))) /\
  (0 <= _end d /\ _end d < inject_Z (len (record d))) /\
  _start d < _end d /\
  MINIMUM_MARGIN_IN_SECS <= (_end d - _start d) / rc.fs (record d).

(** A time that a spin box lets the user enter. *)
Definition within_limits (value : QtCore.QTime) (w : QtGui.QTimeEdit) : Prop :=
  (QtGui.minimumTime w <= value <= QtGui.maximumTime w)%Z.

(** The EventTime invariant: [start < event_time < end]. *)
Definition EventTime_invariant (d : t) : Prop :=
  _start d < inject_Z (event_time d) /\ inject_Z (event_time d) < _end d.

End TakanamiDialog.

(** ** Concrete inputs *)

Module Examples.

Open Scope Q_scope.

(** A record of 10000 samples at 100 Hz. *)
Definition record_100Hz : rc.Record_ := rc.mkRecord 100 (repeat 0 10000).

(** An algorithm object that returns sample 500, and one that raises. *)
Definition returns_500 : TakanamiTask.Algorithm :=
  fun _ => inr (500%Z, [], 0%Z).

Definition raises : TakanamiTask.Algorithm :=
  fun _ => inl (Py.AlgorithmError "singular matrix").

Definition task_ok : TakanamiTask.t :=
  TakanamiTask.__init__ returns_500 record_100Hz 400 600.

Definition task_raises : TakanamiTask.t :=
  TakanamiTask.__init__ raises record_100Hz 400 600.

(** A task whose stored start lies beyond the end of the signal. *)
Definition task_beyond : TakanamiTask.t :=
  TakanamiTask.__init__ returns_500 record_100Hz 10100 10200.

(** [abort()] first, then [run()] from its first statement to its last. *)
Definition abort_then_run : list TakanamiTask.action :=
  TakanamiTask.Abort :: repeat TakanamiTask.Step 7.

(** [abort()] while the algorithm is computing. *)
Definition abort_during_algorithm : list TakanamiTask.action :=
  repeat TakanamiTask.Step 4 ++ TakanamiTask.Abort :: repeat TakanamiTask.Step 3.

Definition document_100Hz : Document.t := Document.mk record_100Hz [].

(** No stored margin (the default of 5 seconds applies), and a stored
    margin of 1 second. *)
Definition no_settings : TakanamiDialog.QSettings :=
  TakanamiDialog.mkQSettings None.

Definition settings_1s : TakanamiDialog.QSettings :=
  TakanamiDialog.mkQSettings (Some 1).

(** The dialog that [__init__] builds on [document_100Hz] for the window
    from 4 s to 6 s with a stored margin of 1 s: the window is samples 400
    to 600 and the estimate is 500. *)
Definition dialog_1s : TakanamiDialog.t :=
  TakanamiDialog.mk document_100Hz 400 600 None 500
    (QtGui.mkQTimeEdit 4000%Z 0%Z 99500%Z)
    (QtGui.mkQTimeEdit 6000%Z 500%Z 100000%Z)
    0%Z [] (Some task_ok) [task_ok].

(** The same, refining an existing event picked at sample 480. *)
Definition event_480 : rc.Event :=
  rc.mkEvent 480 rc.method_other rc.mode_manual rc.status_preliminary.

Definition dialog_refining : TakanamiDialog.t :=
  TakanamiDialog.mk document_100Hz 400 600 (Some event_480) 500
    (QtGui.mkQTimeEdit 4000%Z 0%Z 99500%Z)
    (QtGui.mkQTimeEdit 6000%Z 500%Z 100000%Z)
    0%Z [] (Some task_ok) [task_ok].

(** Refining an event whose time is already the estimate. *)
Definition event_500 : rc.Event :=
  rc.mkEvent 500 rc.method_takanami rc.mode_automatic rc.status_reported.

Definition dialog_unchanged : TakanamiDialog.t :=
  TakanamiDialog.mk document_100Hz 400 600 (Some event_500) 500
    (QtGui.mkQTimeEdit 4000%Z 0%Z 99500%Z)
    (QtGui.mkQTimeEdit 6000%Z 500%Z 100000%Z)
    0%Z [] (Some task_ok) [task_ok].

(** [dialog_1s] after [set_margin(50)]: the window is samples 450 to 550,
    held as the floats [500 - 0.5 * 100] and [500 + 0.5 * 100]. *)
Definition dialog_50 : TakanamiDialog.t :=
  TakanamiDialog.mk document_100Hz (900 # 2) (1100 # 2) None 500
    (QtGui.mkQTimeEdit 4500%Z 0%Z 99500%Z)
    (QtGui.mkQTimeEdit 5500%Z 500%Z 100000%Z)
    0%Z [] (Some task_ok) [task_ok].

(** [dialog_1s] after a result with time 520, and after one with time
    700. *)
Definition dialog_520 : TakanamiDialog.t :=
  TakanamiDialog.mk document_100Hz 400 600 None 520
    (QtGui.mkQTimeEdit 4000%Z 0%Z 99500%Z)
    (QtGui.mkQTimeEdit 6000%Z 500%Z 100000%Z)
    5200%Z [(520%Z, [], 0%Z)] (Some task_ok) [task_ok].

Definition dialog_700 : TakanamiDialog.t :=
  TakanamiDialog.mk document_100Hz 400 600 None 700
    (QtGui.mkQTimeEdit 4000%Z 0%Z 99500%Z)
    (QtGui.mkQTimeEdit 6000%Z 500%Z 100000%Z)
    7000%Z [(700%Z, [], 0%Z)] (Some task_ok) [task_ok].

(** The dialog that [__init__] builds for the window from 98 s to 99.9 s
    (samples 9800 to 9990, midpoint 9895) with no stored margin. *)
Definition task_at_end : TakanamiTask.t :=
  TakanamiTask.__init__ returns_500 record_100Hz 9395 10000.

Definition dialog_at_end : TakanamiDialog.t :=
  TakanamiDialog.mk document_100Hz 9395 10000 None 9895
    (QtGui.mkQTimeEdit 93950%Z 0%Z 99500%Z)
    (QtGui.mkQTimeEdit 100000%Z 500%Z 100000%Z)
    0%Z [] (Some task_at_end) [task_at_end].

(** A record of 1000 samples at 25 Hz: half a second is 12.5 samples. *)
Definition record_25Hz : rc.Record_ := rc.mkRecord 25 (repeat 0 1000).

Definition document_25Hz : Document.t := Document.mk record_25Hz [].

(** A stored margin of 0.2 s: 5 samples at 25 Hz. *)
Definition settings_200ms : TakanamiDialog.QSettings :=
  TakanamiDialog.mkQSettings (Some (2 # 10)).

(** The dialog that [__init__] builds on [document_25Hz] for the window
    from 4 s to 6 s (samples 100 to 150, midpoint 125) with that margin. *)
Definition task_25Hz : TakanamiTask.t :=
  TakanamiTask.__init__ returns_500 record_25Hz (225 # 2) (275 # 2).

Definition dialog_25Hz : TakanamiDialog.t :=
  TakanamiDialog.mk document_25Hz (225 # 2) (275 # 2) None 125
    (QtGui.mkQTimeEdit 4500%Z 0%Z 39500%Z)
    (QtGui.mkQTimeEdit 5500%Z 500%Z 40000%Z)
    0%Z [] (Some task_25Hz) [task_25Hz].

End Examples.

(** ** More about an activation of [run] *)

Module Activation.

Import TakanamiTask.

(** Where an activation of [run] on the task [s0] can be, with what it has
    emitted and what it has asked of the algorithm by then. *)
Definition progress_inv (s0 : t) (f : frame) : Prop :=
  same_task s0 (self f) /\ locals_ok s0 (pc f) /\
  match pc f with
  | at_reset | at_times | at_checkpoint1 _ _ | at_algorithm _ _ =>
      emitted f = [] /\ invoked f = []
  | at_checkpoint2 r | at_emit_position r =>
      emitted f = [] /\ invoked f = [run_arguments s0] /\
      algorithm s0 (run_arguments s0) = inr r
  | at_emit_finished =>
      invoked f = [run_arguments s0] /\
      exists r, algorithm s0 (run_arguments s0) = inr r /\
                emitted f = [emit_position r]
  | returned =>
      (emitted f = [] /\ (invoked f = [] \/ invoked f = [run_arguments s0])) \/
      (invoked f = [run_arguments s0] /\
       exists r, algorithm s0 (run_arguments s0) = inr r /\
                 emitted f = [emit_position r; finished])
  | raised e =>
      emitted f = [] /\
      ((invoked f = [] /\ e = Py.ZeroDivisionError) \/
       (invoked f = [run_arguments s0] /\
        algorithm s0 (run_arguments s0) = inl e))
  end.

(** The task object as an activation leaves it. *)
Definition task_after (sch : list action) (s : t) : t :=
  self (exec sch (call_run s)).

End Activation.

(** ** The dialog's connections *)

Module Session.

Import TakanamiDialog.

(** What the dialog is connected to (lines 128 to 133 and 195): the button
    box's [clicked], the two spin boxes' [timeChanged], and each task's
    [position_estimated].  A task's [finished] is not connected to any
    method of the dialog. *)
Inductive operation : Type :=
| clicked (button : QtGui.StandardButton)
| start_point_changed (value : QtCore.QTime)
| end_point_changed (value : QtCore.QTime)
| position_estimated (time : Z) (aic : list Q) (n0_aic : Z).

Section WithAlgorithm.

Variable Takanami : TakanamiTask.Algorithm.

(** The slot that an operation runs. *)
Definition handle (op : operation) (d : t) : Py.result t :=
  match op with
  | clicked button => Py.ret (on_click Takanami button d)
  | start_point_changed value => Py.ret (on_start_point_changed value d)
  | end_point_changed value => Py.ret (on_end_point_changed value d)
  | position_estimated time aic n0_aic => on_position_estimated time aic n0_aic d
  end.

(** The slots run one after the other, until one raises. *)
Fixpoint handle_all (ops : list operation) (d : t) : Py.result t :=
  match ops with
  | [] => Py.ret d
  | op :: ops' => (d' <- handle op d ;; handle_all ops' d')%py
  end.

End WithAlgorithm.

(** A signal of a task, as the dialog receives it. *)
Definition deliver (sig : TakanamiTask.Signal) (d : t) : Py.result t :=
  match sig with
  | TakanamiTask.position_estimated et aic n0_aic =>
      on_position_estimated et aic n0_aic d
  | TakanamiTask.finished => Py.ret d
  end.

Fixpoint deliver_all (sigs : list TakanamiTask.Signal) (d : t) : Py.result t :=
  match sigs with
  | [] => Py.ret d
  | sig :: sigs' => (d' <- deliver sig d ;; deliver_all sigs' d')%py
  end.

(** The part of the window's bounds that every operation of a session
    keeps: the start is not below 0 and the end is not above [N].  Each
    bound is held on one side only; nothing here says that the start is
    below [N], or below the end. *)
Definition outer_bounds (d : t) : Prop :=
  0 <= _start d /\ _end d <= inject_Z (len (record d)).

(** The same of a task, which moreover works on the record [r]. *)
Definition task_outer_bounds (r : rc.Record_) (task : TakanamiTask.t) : Prop :=
  TakanamiTask.record task = r /\
  0 <= TakanamiTask.start task /\
  TakanamiTask.end_ task <= inject_Z (len r).

(** The clicks of the button [b] among some operations. *)
Definition is_click (b : QtGui.StandardButton) (op : operation) : bool :=
  match op, b with
  | clicked QtGui.Ok, QtGui.Ok => true
  | clicked QtGui.Apply, QtGui.Apply => true
  | clicked QtGui.Cancel, QtGui.Cancel => true
  | _, _ => false
  end.

Definition clicks (b : QtGui.StandardButton) (ops : list operation) : nat :=
  List.length (filter (is_click b) ops).

End Session.

(** ** More concrete inputs *)

Module MoreExamples.

Import Examples.

Open Scope Q_scope.

(** [abort()] right after [run] has cleared the flag, before the first
    checkpoint. *)
Definition abort_before_checkpoint1 : list TakanamiTask.action :=
  TakanamiTask.Step :: TakanamiTask.Abort :: repeat TakanamiTask.Step 6.

(** An event picked at sample 700. *)
Definition event_700 : rc.Event :=
  rc.mkEvent 700 rc.method_other rc.mode_manual rc.status_preliminary.

(** A record whose sample rate is zero. *)
Definition record_0Hz : rc.Record_ := rc.mkRecord 0 [0; 0; 0; 0].

Definition task_0Hz : TakanamiTask.t :=
  TakanamiTask.__init__ returns_500 record_0Hz 1 3.

(** A session on [dialog_1s]: the user moves the start to 4.5 s, asks for a
    new estimation, the result (sample 520) arrives, and the user accepts
    it. *)
Definition session_1s : list Session.operation :=
  [Session.start_point_changed 4500%Z;
   Session.clicked QtGui.Apply;
   Session.position_estimated 520%Z [] 0%Z;
   Session.clicked QtGui.Ok].

End MoreExamples.

(* ================================================================== *)
(** * Part II: properties *)
(* ================================================================== *)

(** ** Facts about the Python builtins *)

Section PyFacts.

Open Scope Q_scope.

Lemma Qltb_lt (a b : Q) : Py.Qltb a b = true <-> a < b.
Proof.
  unfold Py.Qltb. rewrite negb_true_iff.
  split; intro H.
  - apply Qnot_le_lt. intro Hle. apply Qle_bool_iff in Hle. congruence.
  - destruct (Qle_bool b a) eqn:E; [|reflexivity].
    apply Qle_bool_iff in E. exfalso. apply (Qlt_not_le _ _ H E).
Qed.

Lemma Qltb_ge (a b : Q) : Py.Qltb a b = false <-> b <= a.
Proof.
  unfold Py.Qltb. rewrite negb_false_iff. apply Qle_bool_iff.
Qed.

Lemma max_cases (a b : Q) :
  (a < b /\ Py.max a b = b) \/ (b <= a /\ Py.max a b = a).
Proof.
  unfold Py.max. destruct (Py.Qltb a b) eqn:E.
  - left. split; [apply Qltb_lt; exact E | reflexivity].
  - right. split; [apply Qltb_ge; exact E | reflexivity].
Qed.

Lemma min_cases (a b : Q) :
  (b < a /\ Py.min a b = b) \/ (a <= b /\ Py.min a b = a).
Proof.
  unfold Py.min. destruct (Py.Qltb b a) eqn:E.
  - left. split; [apply Qltb_lt; exact E | reflexivity].
  - right. split; [apply Qltb_ge; exact E | reflexivity].
Qed.

(** The builtins agree, by value, with the library's [Qmax] and [Qmin]. *)
Lemma max_Qmax (a b : Q) : Py.max a b == Qmax a b.
Proof.
  destruct (max_cases a b) as [[H ->]|[H ->]].
  - symmetry. apply Q.max_r. apply Qlt_le_weak, H.
  - symmetry. apply Q.max_l, H.
Qed.

Lemma min_Qmin (a b : Q) : Py.min a b == Qmin a b.
Proof.
  destruct (min_cases a b) as [[H ->]|[H ->]].
  - symmetry. apply Q.min_r. apply Qlt_le_weak, H.
  - symmetry. apply Q.min_l, H.
Qed.

Lemma int_inject_Z (z : Z) : Py.int (inject_Z z) = z.
Proof. unfold Py.int. simpl. apply Z.quot_1_r. Qed.

(** On a non-negative number truncation is the floor. *)
Lemma int_floor (x : Q) : 0 <= x -> Py.int x = Qfloor x.
Proof.
  destruct x as [n d]. unfold Qle, Py.int, Qfloor. simpl. intro H.
  apply Z.quot_div_nonneg; lia.
Qed.

Lemma int_nonneg (x : Q) : 0 <= x -> (0 <= Py.int x)%Z.
Proof.
  intro H. rewrite (int_floor H).
  change 0%Z with (Qfloor 0). apply Qfloor_resp_le, H.
Qed.

Lemma int_le (x : Q) : 0 <= x -> inject_Z (Py.int x) <= x.
Proof. intro H. rewrite (int_floor H). apply Qfloor_le. Qed.

(** [int] depends on the value only, not on how the fraction is written. *)
Lemma int_comp (x y : Q) : x == y -> Py.int x = Py.int y.
Proof.
  intro H. destruct (Qlt_le_dec x 0) as [Hneg|Hpos].
  - assert (Hx : 0 <= - x) by lra.
    assert (Hy : 0 <= - y) by lra.
    assert (E : Py.int (- x) = Py.int (- y)).
    { rewrite (int_floor Hx), (int_floor Hy). apply Qfloor_comp. lra. }
    unfold Py.int in *. simpl in E.
    rewrite !Z.quot_opp_l in E by discriminate. lia.
  - assert (Hy : 0 <= y) by lra.
    rewrite (int_floor Hpos), (int_floor Hy). apply Qfloor_comp, H.
Qed.

Lemma Qeq_bool_false (a b : Q) : Qeq_bool a b = false <-> ~ a == b.
Proof.
  split.
  - intros H E. apply Qeq_bool_iff in E. congruence.
  - intro H. destruct (Qeq_bool a b) eqn:E; [|reflexivity].
    exfalso. apply H, Qeq_bool_iff, E.
Qed.

Lemma div_nonzero (a b : Q) : ~ b == 0 -> Py.div a b = inr (a / b).
Proof.
  intro H. unfold Py.div. apply Qeq_bool_false in H. rewrite H. reflexivity.
Qed.

Lemma div_zero (a b : Q) : b == 0 -> Py.div a b = inl Py.ZeroDivisionError.
Proof.
  intro H. unfold Py.div. apply Qeq_bool_iff in H. rewrite H. reflexivity.
Qed.

Lemma div_inversion (a b q : Q) : Py.div a b = inr q -> ~ b == 0 /\ q = a / b.
Proof.
  unfold Py.div. destruct (Qeq_bool b 0) eqn:E; [discriminate|].
  intro H. injection H as <-. split; [apply Qeq_bool_false, E | reflexivity].
Qed.

Lemma len_nonneg (r : rc.Record_) : 0 <= inject_Z (len r).
Proof.
  change 0 with (inject_Z 0). rewrite <- Zle_Qle. apply Nat2Z.is_nonneg.
Qed.

End PyFacts.

(** ** [TakanamiTask.run] under every schedule *)

Section TaskFacts.

Import TakanamiTask.

Open Scope Q_scope.

(** Calling [abort] or clearing the flag touches nothing else. *)
Lemma start_time_abort (s : t) : start_time_in_secs (abort s) = start_time_in_secs s.
Proof. reflexivity. Qed.

Lemma run_arguments_abort (s : t) : run_arguments (abort s) = run_arguments s.
Proof. reflexivity. Qed.

Lemma run_arguments_clear (s : t) : run_arguments (clear_abort s) = run_arguments s.
Proof. reflexivity. Qed.

(** Lines 70 to 72 return the two times unless [fs] is zero. *)
Lemma times_nonzero (s : t) :
  ~ rc.fs (record s) == 0 ->
  times s = inr (start_time_in_secs s, end_time_in_secs s).
Proof.
  intro H. unfold times. rewrite !(div_nonzero _ H). reflexivity.
Qed.

Lemma times_inversion (s : t) (ts te : Q) :
  times s = inr (ts, te) ->
  ts = start_time_in_secs s /\ te = end_time_in_secs s.
Proof.
  unfold times, Py.div.
  destruct (Qeq_bool (rc.fs (record s)) 0); [discriminate|].
  simpl. intro H. injection H as <- <-. split; reflexivity.
Qed.

(** *** Forward lemmas, one per program point, last statement first *)

Lemma exec_returned (sch : list action) :
  forall s em inv,
    emitted (exec sch (mkFrame s returned em inv)) = em.
Proof.
  induction sch as [|a sch IH]; intros s em inv; [reflexivity|].
  destruct a; simpl; apply IH.
Qed.

Lemma exec_emit_finished (sch : list action) :
  forall s em inv,
    (1 <= steps sch)%nat ->
    emitted (exec sch (mkFrame s at_emit_finished em inv)) = em ++ [finished].
Proof.
  induction sch as [|a sch IH]; intros s em inv H; [simpl in H; lia|].
  destruct a; simpl in *.
  - apply exec_returned.
  - apply IH, H.
Qed.

Lemma exec_emit_position (r : Estimation) (sch : list action) :
  forall s em inv,
    (2 <= steps sch)%nat ->
    emitted (exec sch (mkFrame s (at_emit_position r) em inv))
    = em ++ [emit_position r; finished].
Proof.
  induction sch as [|a sch IH]; intros s em inv H; [simpl in H; lia|].
  destruct a; simpl in *.
  - unfold step; simpl. rewrite exec_emit_finished by lia.
    rewrite <- app_assoc. reflexivity.
  - apply IH, H.
Qed.

Lemma exec_checkpoint2 (r : Estimation) (sch : list action) :
  forall s em inv,
    (3 <= steps sch)%nat ->
    emitted (exec sch (mkFrame s (at_checkpoint2 r) em inv))
    = em ++ outcome (_abort s || abort_before 1 sch) r.
Proof.
  induction sch as [|a sch IH]; intros s em inv H; [simpl in H; lia|].
  destruct a; simpl in *.
  - unfold step; simpl. destruct (_abort s); simpl.
    + rewrite exec_returned. symmetry. apply app_nil_r.
    + apply exec_emit_position. lia.
  - rewrite IH by exact H. simpl. rewrite orb_true_r. reflexivity.
Qed.

Lemma exec_algorithm (r : Estimation) (sch : list action) :
  forall s em inv,
    algorithm s (run_arguments s) = inr r ->
    (4 <= steps sch)%nat ->
    emitted (exec sch (mkFrame s (at_algorithm (start_time_in_secs s)
                                               (end_time_in_secs s)) em inv))
    = em ++ outcome (_abort s || abort_before 2 sch) r.
Proof.
  induction sch as [|a sch IH]; intros s em inv Hr H; [simpl in H; lia|].
  destruct a; simpl in *.
  - unfold step; simpl. unfold run_arguments in Hr. rewrite Hr.
    apply exec_checkpoint2. lia.
  - change (start_time_in_secs s) with (start_time_in_secs (abort s)).
    change (end_time_in_secs s) with (end_time_in_secs (abort s)).
    rewrite IH by assumption. simpl. rewrite orb_true_r. reflexivity.
Qed.

Lemma exec_checkpoint1 (r : Estimation) (sch : list action) :
  forall s em inv,
    algorithm s (run_arguments s) = inr r ->
    (5 <= steps sch)%nat ->
    emitted (exec sch (mkFrame s (at_checkpoint1 (start_time_in_secs s)
                                                 (end_time_in_secs s)) em inv))
    = em ++ outcome (_abort s || abort_before 3 sch) r.
Proof.
  induction sch as [|a sch IH]; intros s em inv Hr H; [simpl in H; lia|].
  destruct a; simpl in *.
  - unfold step; simpl. destruct (_abort s) eqn:E; simpl.
    + rewrite exec_returned. symmetry. apply app_nil_r.
    + rewrite exec_algorithm with (r := r) by (assumption || lia).
      rewrite E. reflexivity.
  - change (start_time_in_secs s) with (start_time_in_secs (abort s)).
    change (end_time_in_secs s) with (end_time_in_secs (abort s)).
    rewrite IH by assumption. simpl. rewrite orb_true_r. reflexivity.
Qed.

Lemma exec_times (r : Estimation) (sch : list action) :
  forall s em inv,
    ~ rc.fs (record s) == 0 ->
    algorithm s (run_arguments s) = inr r ->
    (6 <= steps sch)%nat ->
    emitted (exec sch (mkFrame s at_times em inv))
    = em ++ outcome (_abort s || abort_before 4 sch) r.
Proof.
  induction sch as [|a sch IH]; intros s em inv Hfs Hr H; [simpl in H; lia|].
  destruct a; simpl in *.
  - unfold step; simpl. rewrite (times_nonzero s Hfs).
    apply exec_checkpoint1; [assumption | lia].
  - rewrite IH by assumption. simpl. rewrite orb_true_r. reflexivity.
Qed.

Lemma exec_reset (r : Estimation) (sch : list action) :
  forall s em inv,
    ~ rc.fs (record s) == 0 ->
    algorithm s (run_arguments s) = inr r ->
    (7 <= steps sch)%nat ->
    emitted (exec sch (mkFrame s at_reset em inv))
    = em ++ outcome (abort_observed sch) r.
Proof.
  induction sch as [|a sch IH]; intros s em inv Hfs Hr H; [simpl in H; lia|].
  destruct a; simpl in *.
  - unfold step; simpl.
    rewrite exec_times with (r := r) by (assumption || lia).
    reflexivity.
  - apply IH; assumption.
Qed.

(** *** The schedule predicates, spelled out *)

Lemma steps_app (l1 l2 : list action) :
  steps (l1 ++ l2) = (steps l1 + steps l2)%nat.
Proof.
  induction l1 as [|a l1 IH]; [reflexivity|].
  destruct a; simpl; rewrite IH; reflexivity.
Qed.

Lemma abort_before_spec (n : nat) (sch : list action) :
  abort_before n sch = true <->
  exists pre post, sch = pre ++ Abort :: post /\ (steps pre < n)%nat.
Proof.
  split.
  - revert n. induction sch as [|a sch IH]; intros n H.
    + destruct n; discriminate.
    + destruct n as [|n]; [discriminate|]. destruct a; simpl in H.
      * destruct (IH n H) as (pre & post & -> & Hlt).
        exists (Step :: pre), post. split; [reflexivity | simpl; lia].
      * exists [], sch. split; [reflexivity | simpl; lia].
  - intros (pre & post & -> & Hlt). revert n Hlt.
    induction pre as [|a pre IH]; intros n Hlt.
    + destruct n; [simpl in Hlt; lia | reflexivity].
    + destruct n as [|n]; [lia|]. destruct a; simpl in *.
      * apply IH. lia.
      * reflexivity.
Qed.

Lemma split_first_step (sch : list action) :
  (1 <= steps sch)%nat ->
  exists hd, sch = hd ++ Step :: after_first_step sch /\ steps hd = O.
Proof.
  induction sch as [|a sch IH]; intro H; [simpl in H; lia|].
  destruct a; simpl in *.
  - exists []. split; reflexivity.
  - destruct (IH H) as (hd & E & Hhd).
    exists (Abort :: hd). split; [simpl; rewrite <- E; reflexivity | exact Hhd].
Qed.

Lemma after_first_step_none (sch : list action) :
  steps sch = O -> after_first_step sch = [].
Proof.
  induction sch as [|a sch IH]; intro H; [reflexivity|].
  destruct a; simpl in *; [discriminate | apply IH, H].
Qed.

(** [abort_observed]: some [abort()] lands after the first statement of
    [run] and before its fifth. *)
Lemma abort_observed_spec (sch : list action) :
  abort_observed sch = true <->
  exists pre post,
    sch = pre ++ Abort :: post /\ (1 <= steps pre <= 4)%nat.
Proof.
  unfold abort_observed. rewrite abort_before_spec. split.
  - intros (pre & post & E & Hlt).
    destruct (Nat.eq_dec (steps sch) 0) as [Hz|Hnz].
    + rewrite (after_first_step_none _ Hz) in E.
      destruct pre; discriminate.
    + destruct (@split_first_step sch ltac:(lia)) as (hd & Esch & Hhd).
      exists (hd ++ Step :: pre), post. split.
      * rewrite Esch at 1. rewrite E, <- app_assoc. reflexivity.
      * rewrite steps_app. simpl. lia.
  - intros (pre & post & -> & Hb). revert Hb.
    induction pre as [|a pre IH]; intro Hb; [simpl in Hb; lia|].
    destruct a; simpl in *.
    + exists pre, post. split; [reflexivity | lia].
    + apply IH, Hb.
Qed.

Lemma abort_before_Steps (n : nat) (sch : list action) :
  (forall a, In a sch -> a = Step) -> abort_before n sch = false.
Proof.
  revert n. induction sch as [|a sch IH]; intros n H.
  - destruct n; reflexivity.
  - destruct n; [reflexivity|].
    rewrite (H a (or_introl eq_refl)). simpl.
    apply IH. intros b Hb. apply H. right. exact Hb.
Qed.

Lemma abort_observed_Steps (sch : list action) :
  (forall a, In a sch -> a = Step) -> abort_observed sch = false.
Proof.
  intro H. unfold abort_observed. apply abort_before_Steps.
  induction sch as [|a sch IH]; [intros ? []|].
  rewrite (H a (or_introl eq_refl)). simpl.
  intros b Hb. apply H. right. exact Hb.
Qed.

(** *** Invariants of an activation *)

Lemma same_task_refl (s : t) : same_task s s.
Proof. repeat split. Qed.

Lemma same_task_times (s0 s : t) :
  same_task s0 s ->
  start_time_in_secs s = start_time_in_secs s0 /\
  end_time_in_secs s = end_time_in_secs s0.
Proof.
  intros (Hr & Hs & He & _).
  unfold start_time_in_secs, end_time_in_secs. rewrite Hr, Hs, He.
  split; reflexivity.
Qed.

(** Closes an invariant goal once the task part is known. *)
Ltac close_inv Hs := split; [exact Hs | simpl; intuition (auto; congruence)].

Lemma args_inv_perform (s0 : t) (f : frame) (a : action) :
  args_inv s0 f -> args_inv s0 (perform f a).
Proof.
  destruct f as [s l em inv]. intros (Hs & Hl & Hi). simpl in *.
  destruct a; [|close_inv Hs].
  destruct (same_task_times Hs) as [Ets Ete].
  pose proof Hs as (Hr & _).
  destruct l; unfold perform, step; simpl in *; try solve [close_inv Hs].
  - destruct (times s) as [e|[ts te]] eqn:E; [close_inv Hs|].
    destruct (times_inversion _ E) as [-> ->]. close_inv Hs.
  - destruct (_abort s); close_inv Hs.
  - destruct Hl as [-> ->].
    assert (Hi' : Forall (eq (run_arguments s0))
                    (inv ++ [(rc.signal (record s), rc.fs (record s),
                              start_time_in_secs s0, end_time_in_secs s0)])).
    { apply Forall_app. split; [assumption|].
      constructor; [|constructor]. unfold run_arguments. rewrite Hr. reflexivity. }
    destruct (algorithm s _); close_inv Hs.
  - destruct (_abort s); close_inv Hs.
Qed.

Lemma args_inv_exec (s0 : t) (sch : list action) :
  forall f, args_inv s0 f -> args_inv s0 (exec sch f).
Proof.
  induction sch as [|a sch IH]; intros f H; [exact H|].
  simpl. apply IH, args_inv_perform, H.
Qed.

Lemma raise_inv_perform (s0 : t) (e : Py.exn) (f : frame) (a : action) :
  algorithm s0 (run_arguments s0) = inl e ->
  raise_inv s0 e f -> raise_inv s0 e (perform f a).
Proof.
  intro Hraise. destruct f as [s l em inv]. intros (Hs & Hl & He & Hp).
  simpl in *.
  destruct a; [|close_inv Hs].
  destruct (same_task_times Hs) as [Ets Ete].
  pose proof Hs as (Hr & _ & _ & Ha).
  destruct l; unfold perform, step; simpl in *; try contradiction;
    try solve [close_inv Hs].
  - destruct (times s) as [e'|[ts te]] eqn:E; [close_inv Hs|].
    destruct (times_inversion _ E) as [-> ->]. close_inv Hs.
  - destruct (_abort s); close_inv Hs.
  - destruct Hl as [-> ->].
    replace (algorithm s _) with (algorithm s0 (run_arguments s0))
      by (unfold run_arguments; rewrite Ha, Hr; reflexivity).
    rewrite Hraise. close_inv Hs.
Qed.

Lemma raise_inv_exec (s0 : t) (e : Py.exn) (sch : list action) :
  algorithm s0 (run_arguments s0) = inl e ->
  forall f, raise_inv s0 e f -> raise_inv s0 e (exec sch f).
Proof.
  intro Hraise. induction sch as [|a sch IH]; intros f H; [exact H|].
  simpl. apply IH, raise_inv_perform; assumption.
Qed.

End TaskFacts.

(** ** Claims about [TakanamiTask] *)

Section TaskClaims.

Import TakanamiTask.

Open Scope Q_scope.

(** C1, as amended.  Take a run of a task (on a record with [fs <> 0])
    whose algorithm returns [r], under any interleaving of [abort()] calls
    that lets [run] execute its seven statements.  If some [abort()] is
    called after [run] has cleared the flag (line 69) and before the second
    checkpoint reads it, the run emits nothing.  Otherwise it emits
    [position_estimated] exactly once and then [finished] exactly once, in
    that order; that includes every run in which the only [abort()] calls
    came before [run] executed line 69, since that line discards them. *)
Theorem run_emits_both_or_neither (s : t) (sch : list action) (r : Estimation) :
  ~ rc.fs (record s) == 0 ->
  algorithm s (run_arguments s) = inr r ->
  (7 <= steps sch)%nat ->
  emitted (exec sch (call_run s))
  = if abort_observed sch then [] else [emit_position r; finished].
Proof.
  intros Hfs Hr Hsteps.
  unfold call_run. rewrite exec_reset with (r := r) by assumption.
  reflexivity.
Qed.

(** Solves a closed comparison by evaluation. *)
Ltac by_evaluation :=
  vm_compute; first [reflexivity | discriminate | intro; discriminate].

Lemma run_emits_both_or_neither_witness :
  emitted (exec Examples.abort_during_algorithm (call_run Examples.task_ok)) = [] /\
  emitted (run Examples.task_ok) = [position_estimated 500 [] 0; finished].
Proof.
  split.
  - apply (@run_emits_both_or_neither Examples.task_ok
             Examples.abort_during_algorithm (500%Z, [], 0%Z)).
    + by_evaluation.
    + reflexivity.
    + simpl. lia.
  - apply (@run_emits_both_or_neither Examples.task_ok
             (repeat Step 7) (500%Z, [], 0%Z)).
    + by_evaluation.
    + reflexivity.
    + simpl. lia.
Defined.

(** C1, as stated, fails: [abort()] called before [run] starts executing
    (on the activation, or on the task before [run] is called) is undone by
    line 69, and the run emits both signals. *)
Lemma abort_before_run_is_discarded :
  abort_before 1 Examples.abort_then_run = true /\
  emitted (exec Examples.abort_then_run (call_run Examples.task_ok))
  = [position_estimated 500 [] 0; finished] /\
  _abort (abort Examples.task_ok) = true /\
  emitted (run (abort Examples.task_ok))
  = [position_estimated 500 [] 0; finished].
Proof. repeat split; vm_compute; reflexivity. Qed.

(** An abort-free run is the successful one. *)
Lemma run_without_abort (s : t) (sch : list action) (r : Estimation) :
  ~ rc.fs (record s) == 0 ->
  algorithm s (run_arguments s) = inr r ->
  (7 <= steps sch)%nat ->
  (forall a, In a sch -> a = Step) ->
  emitted (exec sch (call_run s)) = [emit_position r; finished].
Proof.
  intros Hfs Hr Hsteps Hall.
  unfold call_run. rewrite exec_reset with (r := r) by assumption.
  rewrite (abort_observed_Steps _ Hall). reflexivity.
Qed.

(** [run] left alone, statement by statement. *)
Lemma exec_Step (sch : list action) (f : frame) :
  exec (Step :: sch) f = exec sch (step f).
Proof. reflexivity. Qed.

Lemma step_at_reset (s : t) (em : list Signal) (inv : list Arguments_) :
  step (mkFrame s at_reset em inv) = mkFrame (clear_abort s) at_times em inv.
Proof. reflexivity. Qed.

Lemma step_at_times (s : t) (em : list Signal) (inv : list Arguments_) :
  ~ rc.fs (record s) == 0 ->
  step (mkFrame s at_times em inv)
  = mkFrame s (at_checkpoint1 (start_time_in_secs s) (end_time_in_secs s)) em inv.
Proof.
  intro Hfs. unfold step. cbn [self pc emitted invoked].
  rewrite (times_nonzero s Hfs). reflexivity.
Qed.

Lemma step_at_times_zero (s : t) (em : list Signal) (inv : list Arguments_) :
  rc.fs (record s) == 0 ->
  step (mkFrame s at_times em inv) = mkFrame s (raised Py.ZeroDivisionError) em inv.
Proof.
  intro Hfs. unfold step, times. cbn [self pc emitted invoked].
  rewrite (div_zero _ Hfs). reflexivity.
Qed.

Lemma step_at_checkpoint1 (s : t) (ts te : Q) (em : list Signal)
    (inv : list Arguments_) :
  step (mkFrame (clear_abort s) (at_checkpoint1 ts te) em inv)
  = mkFrame (clear_abort s) (at_algorithm ts te) em inv.
Proof. reflexivity. Qed.

Lemma step_at_algorithm (s : t) (em : list Signal) (inv : list Arguments_) :
  step (mkFrame (clear_abort s)
          (at_algorithm (start_time_in_secs s) (end_time_in_secs s)) em inv)
  = match algorithm s (run_arguments s) with
    | inl e => mkFrame (clear_abort s) (raised e) em (inv ++ [run_arguments s])
    | inr r => mkFrame (clear_abort s) (at_checkpoint2 r) em (inv ++ [run_arguments s])
    end.
Proof. reflexivity. Qed.

Lemma run_reaches_times (s : t) :
  run s = exec (repeat Step 6) (mkFrame (clear_abort s) at_times [] []).
Proof.
  unfold run, call_run.
  change (repeat Step 7) with (Step :: repeat Step 6).
  rewrite exec_Step, step_at_reset. reflexivity.
Qed.

(** [run] left alone reaches the call of the algorithm, with
    [run_arguments]; what follows depends on what the algorithm does. *)
Lemma run_unfold (s : t) :
  ~ rc.fs (record s) == 0 ->
  run s
  = exec (repeat Step 3)
      match algorithm s (run_arguments s) with
      | inl e => mkFrame (clear_abort s) (raised e) [] [run_arguments s]
      | inr r => mkFrame (clear_abort s) (at_checkpoint2 r) [] [run_arguments s]
      end.
Proof.
  intro Hfs. rewrite run_reaches_times.
  change (repeat Step 6) with (Step :: Step :: Step :: repeat Step 3).
  rewrite exec_Step, (step_at_times (clear_abort s) [] [] Hfs).
  change (start_time_in_secs (clear_abort s)) with (start_time_in_secs s).
  change (end_time_in_secs (clear_abort s)) with (end_time_in_secs s).
  rewrite exec_Step, step_at_checkpoint1.
  rewrite exec_Step, step_at_algorithm. reflexivity.
Qed.

(** With [fs = 0] the run ends at line 70, before any checkpoint. *)
Lemma run_zero_fs (s : t) :
  rc.fs (record s) == 0 ->
  pc (run s) = raised Py.ZeroDivisionError /\
  emitted (run s) = [] /\ invoked (run s) = [].
Proof.
  intro Hfs. rewrite run_reaches_times.
  change (repeat Step 6) with (Step :: repeat Step 5).
  rewrite exec_Step, (step_at_times_zero (clear_abort s) [] [] Hfs).
  repeat split.
Qed.

Lemma run_invoked (s : t) :
  ~ rc.fs (record s) == 0 -> invoked (run s) = [run_arguments s].
Proof.
  intro Hfs. rewrite (@run_unfold s Hfs).
  destruct (algorithm s (run_arguments s)); reflexivity.
Qed.

Lemma raise_inv_call_run (s : t) (e : Py.exn) : raise_inv s e (call_run s).
Proof.
  split; [apply same_task_refl|]. simpl. repeat split.
Qed.

(** C9.  Suppose the algorithm raises [e] on the arguments [run] gives it.
    Then [run] left alone (on a record with [fs <> 0], so that the algorithm
    is reached) ends by raising [e] and emits nothing; and under every
    interleaving of [abort()] calls nothing is ever emitted, and as soon as
    the algorithm has been called the run has ended by raising [e]. *)
Theorem run_algorithm_raises (s : t) (e : Py.exn) :
  algorithm s (run_arguments s) = inl e ->
  (~ rc.fs (record s) == 0 -> pc (run s) = raised e /\ emitted (run s) = []) /\
  (forall sch,
      emitted (exec sch (call_run s)) = [] /\
      (invoked (exec sch (call_run s)) <> [] ->
       pc (exec sch (call_run s)) = raised e)).
Proof.
  intro Hraise.
  assert (Hall : forall sch,
             emitted (exec sch (call_run s)) = [] /\
             (invoked (exec sch (call_run s)) <> [] ->
              pc (exec sch (call_run s)) = raised e)).
  { intro sch.
    destruct (raise_inv_exec sch Hraise (raise_inv_call_run s e))
      as (_ & _ & Hem & Hpc).
    split; [exact Hem|]. intro Hinv.
    destruct (pc (exec sch (call_run s))); try contradiction;
      try (exfalso; apply Hinv; exact Hpc).
    destruct Hpc as [Hpc| ->]; [contradiction | reflexivity]. }
  split; [|exact Hall].
  intro Hfs. destruct (Hall (repeat Step 7)) as [Hem Hpc].
  split; [|exact Hem].
  rewrite (@run_unfold s Hfs), Hraise. reflexivity.
Qed.

Lemma run_algorithm_raises_witness :
  pc (run Examples.task_raises) = raised (Py.AlgorithmError "singular matrix") /\
  emitted (run Examples.task_raises) = [].
Proof.
  apply (@run_algorithm_raises Examples.task_raises
           (Py.AlgorithmError "singular matrix")).
  - reflexivity.
  - by_evaluation.
Defined.

Lemma args_inv_call_run (s : t) : args_inv s (call_run s).
Proof.
  split; [apply same_task_refl|]. simpl. split; [exact I | constructor].
Qed.

(** C10, as amended.  Under every schedule, every call [run] makes to the
    algorithm has the arguments
    [(signal, fs, max(0, start)/fs, min(N, end)/fs)], and [run] left alone
    makes exactly one such call.  With [fs > 0] the start time is at least 0
    and the end time at most [N/fs]; the start time is at most [N/fs] when
    the stored start is at most [N], and the end time is at least 0 when the
    stored end is at least 0. *)
Theorem run_clamps_each_bound_on_one_side (s : t) :
  0 < rc.fs (record s) ->
  (forall sch a, In a (invoked (exec sch (call_run s))) -> a = run_arguments s) /\
  invoked (run s) = [run_arguments s] /\
  start_time_in_secs s == Qmax 0 (start s) / rc.fs (record s) /\
  end_time_in_secs s == Qmin (inject_Z (len (record s))) (end_ s) / rc.fs (record s) /\
  0 <= start_time_in_secs s /\
  end_time_in_secs s <= inject_Z (len (record s)) / rc.fs (record s) /\
  (start s <= inject_Z (len (record s)) ->
   start_time_in_secs s <= inject_Z (len (record s)) / rc.fs (record s)) /\
  (0 <= end_ s -> 0 <= end_time_in_secs s).
Proof.
  intro Hfs.
  assert (Hinv : 0 <= / rc.fs (record s))
    by (apply Qinv_le_0_compat, Qlt_le_weak, Hfs).
  assert (Hnz : ~ rc.fs (record s) == 0) by lra.
  split; [|split; [apply (@run_invoked s Hnz)|]].
  { intros sch a Hin.
    destruct (args_inv_exec sch (args_inv_call_run s)) as (_ & _ & Hall).
    rewrite Forall_forall in Hall. symmetry. apply Hall, Hin. }
  unfold start_time_in_secs, end_time_in_secs, Qdiv.
  split; [rewrite max_Qmax; reflexivity|].
  split; [rewrite min_Qmin; reflexivity|].
  pose proof (len_nonneg (record s)) as HN.
  destruct (max_cases 0 (start s)) as [[Hs ->]|[Hs ->]];
    destruct (min_cases (inject_Z (len (record s))) (end_ s)) as [[He ->]|[He ->]];
    repeat split; intros;
      try (apply Qmult_le_0_compat; [lra | exact Hinv]);
      try (apply Qmult_le_compat_r; [lra | exact Hinv]).
Qed.

Lemma run_clamps_each_bound_on_one_side_witness :
  invoked (run Examples.task_ok) = [run_arguments Examples.task_ok] /\
  0 <= start_time_in_secs Examples.task_ok /\
  end_time_in_secs Examples.task_ok
  <= inject_Z (len (record Examples.task_ok)) / rc.fs (record Examples.task_ok).
Proof.
  assert (Hfs : 0 < rc.fs (record Examples.task_ok)) by reflexivity.
  pose proof (@run_clamps_each_bound_on_one_side Examples.task_ok Hfs)
    as (_ & Hone & _ & _ & Hlo & Hhi & _).
  exact (conj Hone (conj Hlo Hhi)).
Defined.

(** C10, as stated, fails: a stored start beyond the end of the signal
    (10100 on 10000 samples at 100 Hz) is handed over as 101 seconds, while
    the signal lasts [N/fs = 100] seconds. *)
Lemma start_beyond_signal_is_not_clamped :
  invoked (run Examples.task_beyond) = [run_arguments Examples.task_beyond] /\
  start_time_in_secs Examples.task_beyond == 101 /\
  inject_Z (len (record Examples.task_beyond))
  / rc.fs (record Examples.task_beyond) == 100.
Proof. repeat split; vm_compute; reflexivity. Qed.

End TaskClaims.

(** ** Facts about [TakanamiDialog] *)

Section DialogFacts.

Import TakanamiDialog.

Open Scope Q_scope.

Lemma Qle_bool_false (a b : Q) : Qle_bool a b = false <-> b < a.
Proof.
  split; intro H.
  - apply Qnot_le_lt. intro Hle. apply Qle_bool_iff in Hle. congruence.
  - destruct (Qle_bool a b) eqn:E; [|reflexivity].
    apply Qle_bool_iff in E. exfalso. apply (Qlt_not_le _ _ H E).
Qed.

(** What [set_margin] returns on a positive margin, written out. *)
Lemma set_margin_positive (m : Q) (d : t) :
  0 < m -> ~ rc.fs (record d) == 0 ->
  exists d',
    set_margin m d = inr d' /\
    _start d' = Py.max 0 (inject_Z (event_time d)
                          - Py.max (MINIMUM_MARGIN_IN_SECS * rc.fs (record d)) m) /\
    _end d' = Py.min (inject_Z (len (record d)))
                     (inject_Z (event_time d)
                      + Py.max (MINIMUM_MARGIN_IN_SECS * rc.fs (record d)) m) /\
    event_time d' = event_time d /\
    document d' = document d /\
    seismic_event d' = seismic_event d /\
    _task d' = _task d /\
    wait_dialog d' = wait_dialog d.
Proof.
  intros Hm Hfs. unfold set_margin.
  apply Qle_bool_false in Hm. rewrite Hm. cbv zeta.
  rewrite !(div_nonzero _ Hfs). cbn [Py.bind].
  rewrite !(div_nonzero _ Hfs). cbn [Py.bind].
  eexists. split; [reflexivity|]. simpl. repeat split.
Qed.

(** The same window, by value, in terms of the library's [Qmax] and
    [Qmin]. *)
Lemma set_margin_values (m : Q) (d : t) :
  0 < m -> ~ rc.fs (record d) == 0 ->
  exists d',
    set_margin m d = inr d' /\
    _start d' == Qmax 0 (inject_Z (event_time d)
                         - Qmax ((1 # 2) * rc.fs (record d)) m) /\
    _end d' == Qmin (inject_Z (len (record d)))
                    (inject_Z (event_time d)
                     + Qmax ((1 # 2) * rc.fs (record d)) m) /\
    event_time d' = event_time d.
Proof.
  intros Hm Hfs.
  destruct (set_margin_positive d Hm Hfs) as (d' & E & Hs & He & Hev & _).
  exists d'. split; [exact E|].
  rewrite Hs, He. unfold MINIMUM_MARGIN_IN_SECS.
  split; [|split; [|exact Hev]].
  - rewrite max_Qmax. apply Q.max_compat; [reflexivity|].
    apply Qplus_comp; [reflexivity|]. apply Qopp_comp, max_Qmax.
  - rewrite min_Qmin. apply Q.min_compat; [reflexivity|].
    apply Qplus_comp; [reflexivity|]. apply max_Qmax.
Qed.

Lemma set_margin_nonpositive (m : Q) (d : t) :
  m <= 0 ->
  set_margin m d = inl (Py.ValueError "margin must be a positive value").
Proof.
  intro Hm. unfold set_margin.
  apply Qle_bool_iff in Hm. rewrite Hm. reflexivity.
Qed.

(** With a positive margin and [fs = 0], line 260 raises. *)
Lemma set_margin_zero_fs (m : Q) (d : t) :
  0 < m -> rc.fs (record d) == 0 ->
  set_margin m d = inl Py.ZeroDivisionError.
Proof.
  intros Hm Hfs. unfold set_margin.
  apply Qle_bool_false in Hm. rewrite Hm. cbv zeta.
  rewrite (div_zero _ Hfs). reflexivity.
Qed.

Lemma set_margin_inversion (m : Q) (d d' : t) :
  set_margin m d = inr d' -> 0 < m /\ ~ rc.fs (record d) == 0.
Proof.
  intro E. assert (Hm : 0 < m).
  { unfold set_margin in E. destruct (Qle_bool m 0) eqn:Eb; [discriminate|].
    apply Qle_bool_false, Eb. }
  split; [exact Hm|]. intro Hfs.
  rewrite (set_margin_zero_fs d Hm Hfs) in E. discriminate.
Qed.

(** The effective margin is positive whenever the requested one is. *)
Lemma effective_margin_positive (fs m : Q) :
  0 < m -> 0 < Py.max (MINIMUM_MARGIN_IN_SECS * fs) m.
Proof.
  intro Hm. destruct (max_cases (MINIMUM_MARGIN_IN_SECS * fs) m)
    as [[H ->]|[H ->]]; lra.
Qed.

Lemma effective_margin_ge (fs m : Q) :
  MINIMUM_MARGIN_IN_SECS * fs <= Py.max (MINIMUM_MARGIN_IN_SECS * fs) m.
Proof.
  destruct (max_cases (MINIMUM_MARGIN_IN_SECS * fs) m) as [[H ->]|[H ->]]; lra.
Qed.

(** The milliseconds handed to the other spin box. *)
Lemma int_plus_margin (ms : Z) :
  Py.int (inject_Z ms + margin_msecs) = (ms + 500)%Z.
Proof.
  rewrite <- (int_inject_Z (ms + 500)). apply int_comp.
  unfold margin_msecs, MINIMUM_MARGIN_IN_SECS. rewrite inject_Z_plus.
  change (inject_Z 500) with 500. lra.
Qed.

Lemma int_minus_margin (ms : Z) :
  Py.int (inject_Z ms - margin_msecs) = (ms - 500)%Z.
Proof.
  rewrite <- (int_inject_Z (ms - 500)). apply int_comp.
  unfold margin_msecs, MINIMUM_MARGIN_IN_SECS, Z.sub.
  rewrite inject_Z_plus, inject_Z_opp. change (inject_Z 500) with 500. lra.
Qed.

(** The midpoint is the floor of half the width. *)
Lemma half_div (w : Z) : (0 <= w)%Z -> half w = (w / 2)%Z.
Proof.
  intro H. unfold half.
  assert (Hq : 0 <= inject_Z w / 2).
  { apply Qle_shift_div_l; [reflexivity|].
    rewrite Qmult_0_l. change 0 with (inject_Z 0). rewrite <- Zle_Qle. exact H. }
  rewrite (int_floor Hq). symmetry. apply (Zdiv_Qdiv w 2).
Qed.

(** The checks of [__init__] as booleans. *)
Lemma valid_checks (r : rc.Record_) (start end_ ev : Z) :
  valid r start end_ ev <->
  ((0 <=? start)%Z && (start <? len r)%Z = true /\
   (0 <=? end_)%Z && (end_ <? len r)%Z = true /\
   Py.Qltb (inject_Z (end_ - start)) (MINIMUM_MARGIN_IN_SECS * rc.fs r) = false /\
   (start <? ev)%Z && (ev <? end_)%Z = true).
Proof.
  unfold valid.
  rewrite !andb_true_iff, !Z.leb_le, !Z.ltb_lt, Qltb_ge.
  intuition lia.
Qed.

Lemma not_valid_checks (r : rc.Record_) (start end_ ev : Z) :
  ~ valid r start end_ ev ->
  (0 <=? start)%Z && (start <? len r)%Z = false \/
  (0 <=? end_)%Z && (end_ <? len r)%Z = false \/
  Py.Qltb (inject_Z (end_ - start)) (MINIMUM_MARGIN_IN_SECS * rc.fs r) = true \/
  (start <? ev)%Z && (ev <? end_)%Z = false.
Proof.
  intro H. rewrite valid_checks in H.
  destruct ((0 <=? start)%Z && (start <? len r)%Z); [|auto].
  destruct ((0 <=? end_)%Z && (end_ <? len r)%Z); [|auto].
  destruct (Py.Qltb _ _); [auto|].
  destruct ((start <? ev)%Z && (ev <? end_)%Z); [|auto].
  exfalso. apply H. repeat split.
Qed.

(** The checks are decidable. *)
Lemma classic_valid (r : rc.Record_) (start end_ ev : Z) :
  valid r start end_ ev \/ ~ valid r start end_ ev.
Proof.
  rewrite valid_checks.
  destruct ((0 <=? start)%Z && (start <? len r)%Z);
    [|right; intros (H & _); discriminate].
  destruct ((0 <=? end_)%Z && (end_ <? len r)%Z);
    [|right; intros (_ & H & _); discriminate].
  destruct (Py.Qltb _ _); [right; intros (_ & _ & H & _); discriminate|].
  destruct ((start <? ev)%Z && (ev <? end_)%Z);
    [|right; intros (_ & _ & _ & H); discriminate].
  left. repeat split.
Qed.

Lemma init_ui_nonzero (r : rc.Record_) :
  ~ rc.fs r == 0 -> exists spinboxes, _init_ui r = inr spinboxes.
Proof.
  intro Hfs. unfold _init_ui. rewrite (div_nonzero _ Hfs).
  eexists. reflexivity.
Qed.

Lemma init_ui_zero (r : rc.Record_) :
  rc.fs r == 0 -> _init_ui r = inl Py.ZeroDivisionError.
Proof.
  intro Hfs. unfold _init_ui. rewrite (div_zero _ Hfs). reflexivity.
Qed.

Lemma init_accepts (Takanami : TakanamiTask.Algorithm) (settings : QSettings)
    (document : Document.t) (t_start t_end : Q) (seismic_event : option rc.Event) :
  let start := Py.int (t_start * rc.fs (Document.record document)) in
  let end_ := Py.int (t_end * rc.fs (Document.record document)) in
  valid (Document.record document) start end_
        (initial_event_time start end_ seismic_event) ->
  __init__ Takanami settings document t_start t_end seismic_event
  = Py.bind (_init_ui (Document.record document))
      (fun spinboxes =>
         Py.bind (load_settings settings
                    (after_init_ui document start end_ seismic_event spinboxes))
                 (fun self => Py.ret (submit_task Takanami self))).
Proof.
  intros start end_ Hv. apply valid_checks in Hv.
  destruct Hv as (H1 & H2 & H3 & H4).
  unfold initial_event_time in H4.
  unfold __init__. cbv zeta. fold start end_.
  rewrite H1, H2, H3, H4. reflexivity.
Qed.

Lemma init_rejects (Takanami : TakanamiTask.Algorithm) (settings : QSettings)
    (document : Document.t) (t_start t_end : Q) (seismic_event : option rc.Event) :
  let start := Py.int (t_start * rc.fs (Document.record document)) in
  let end_ := Py.int (t_end * rc.fs (Document.record document)) in
  ~ valid (Document.record document) start end_
          (initial_event_time start end_ seismic_event) ->
  exists msg,
    __init__ Takanami settings document t_start t_end seismic_event
    = inl (Py.ValueError msg).
Proof.
  intros start end_ Hv. apply not_valid_checks in Hv.
  unfold initial_event_time in Hv.
  unfold __init__. cbv zeta. fold start end_.
  destruct ((0 <=? start)%Z && (start <? len (Document.record document))%Z);
    [|eexists; reflexivity].
  destruct ((0 <=? end_)%Z && (end_ <? len (Document.record document))%Z);
    [|eexists; reflexivity].
  destruct (Py.Qltb _ _); [eexists; reflexivity|].
  destruct Hv as [Hv|[Hv|[Hv|Hv]]]; try discriminate.
  rewrite Hv. eexists; reflexivity.
Qed.

(** *** The two bound handlers, case by case *)

Lemma on_start_point_changed_same (value : QtCore.QTime) (d : t) :
  _start d == inject_Z (t_start value d) ->
  on_start_point_changed value d = d.
Proof.
  intro H. unfold on_start_point_changed. cbv zeta.
  apply Qeq_bool_iff in H. rewrite H. reflexivity.
Qed.

Lemma on_start_point_changed_other (value : QtCore.QTime) (d : t) :
  ~ _start d == inject_Z (t_start value d) ->
  on_start_point_changed value d
  = set_end_point_spinbox
      (QtGui.setMinimumTime (end_point_spinbox d)
         (QtCore.addMSecs QtCore.QTime_
            (QtCore.msecsTo QtCore.QTime_ value + 500)))
      (set__start (inject_Z (t_start value d)) d).
Proof.
  intro H. unfold on_start_point_changed. cbv zeta.
  destruct (Qeq_bool (_start d) (inject_Z (t_start value d))) eqn:E.
  - exfalso. apply H. apply Qeq_bool_iff, E.
  - simpl. rewrite int_plus_margin. reflexivity.
Qed.

Lemma on_end_point_changed_same (value : QtCore.QTime) (d : t) :
  _end d == inject_Z (t_end value d) ->
  on_end_point_changed value d = d.
Proof.
  intro H. unfold on_end_point_changed. cbv zeta.
  apply Qeq_bool_iff in H. rewrite H. reflexivity.
Qed.

Lemma on_end_point_changed_other (value : QtCore.QTime) (d : t) :
  ~ _end d == inject_Z (t_end value d) ->
  on_end_point_changed value d
  = set_start_point_spinbox
      (QtGui.setMaximumTime (start_point_spinbox d)
         (QtCore.addMSecs QtCore.QTime_
            (QtCore.msecsTo QtCore.QTime_ value - 500)))
      (set__end (inject_Z (t_end value d)) d).
Proof.
  intro H. unfold on_end_point_changed. cbv zeta.
  destruct (Qeq_bool (_end d) (inject_Z (t_end value d))) eqn:E.
  - exfalso. apply H. apply Qeq_bool_iff, E.
  - simpl. rewrite int_minus_margin. reflexivity.
Qed.

Lemma Qeq_dec_prop (a b : Q) : a == b \/ ~ a == b.
Proof. destruct (Qeq_dec a b); [left | right]; assumption. Qed.

(** A handler writes its own bound, by value, and nothing of the other. *)
Lemma on_start_point_changed_fields (value : QtCore.QTime) (d : t) :
  _start (on_start_point_changed value d) == inject_Z (t_start value d) /\
  _end (on_start_point_changed value d) = _end d /\
  event_time (on_start_point_changed value d) = event_time d /\
  document (on_start_point_changed value d) = document d /\
  start_point_spinbox (on_start_point_changed value d) = start_point_spinbox d /\
  QtGui.time (end_point_spinbox (on_start_point_changed value d))
  = QtGui.time (end_point_spinbox d).
Proof.
  destruct (Qeq_dec_prop (_start d) (inject_Z (t_start value d))) as [H|H].
  - rewrite (on_start_point_changed_same value d H).
    split; [exact H | repeat split].
  - rewrite (on_start_point_changed_other value d H).
    split; [reflexivity | repeat split].
Qed.

Lemma on_end_point_changed_fields (value : QtCore.QTime) (d : t) :
  _end (on_end_point_changed value d) == inject_Z (t_end value d) /\
  _start (on_end_point_changed value d) = _start d /\
  event_time (on_end_point_changed value d) = event_time d /\
  document (on_end_point_changed value d) = document d /\
  end_point_spinbox (on_end_point_changed value d) = end_point_spinbox d /\
  QtGui.time (start_point_spinbox (on_end_point_changed value d))
  = QtGui.time (start_point_spinbox d).
Proof.
  destruct (Qeq_dec_prop (_end d) (inject_Z (t_end value d))) as [H|H].
  - rewrite (on_end_point_changed_same value d H).
    split; [exact H | repeat split].
  - rewrite (on_end_point_changed_other value d H).
    split; [reflexivity | repeat split].
Qed.

Lemma t_start_nonneg (value : QtCore.QTime) (d : t) :
  0 <= inject_Z (t_start value d).
Proof.
  unfold t_start. cbv zeta.
  change 0 with (inject_Z 0). rewrite <- Zle_Qle. apply int_nonneg.
  match goal with |- _ <= Py.max ?a ?b =>
    destruct (max_cases a b) as [[H ->]|[H ->]] end;
    [apply Qlt_le_weak; exact H | apply Qle_refl].
Qed.

Lemma int_nonpos (x : Q) : x <= 0 -> (Py.int x <= 0)%Z.
Proof.
  intro H. assert (Hx : 0 <= - x) by lra.
  pose proof (int_nonneg Hx) as Hn.
  unfold Py.int in *. simpl in Hn.
  rewrite Z.quot_opp_l in Hn by discriminate. lia.
Qed.

Lemma t_end_le_len (value : QtCore.QTime) (d : t) :
  inject_Z (t_end value d) <= inject_Z (len (record d)).
Proof.
  unfold t_end. cbv zeta.
  pose proof (len_nonneg (record d)) as HN.
  match goal with |- inject_Z (Py.int (Py.min ?a ?b)) <= _ =>
    assert (Hle : Py.min a b <= a)
      by (destruct (min_cases a b) as [[H ->]|[H ->]];
          [apply Qlt_le_weak; exact H | apply Qle_refl]);
    destruct (Qlt_le_dec (Py.min a b) 0) as [Hneg|Hpos] end.
  - apply Qle_trans with 0; [|exact HN].
    change 0 with (inject_Z 0). rewrite <- Zle_Qle.
    apply int_nonpos. apply Qlt_le_weak, Hneg.
  - eapply Qle_trans; [apply int_le, Hpos | exact Hle].
Qed.

(** *** [set_margin] and the two invariants *)

Lemma set_margin_window (m : Q) (d d' : t) :
  set_margin m d = inr d' ->
  0 <= inject_Z (event_time d) <= inject_Z (len (record d)) ->
  0 < inject_Z (len (record d)) ->
  MINIMUM_MARGIN_IN_SECS * rc.fs (record d) <= inject_Z (len (record d)) ->
  window_ok d'.
Proof.
  intros E [He0 HeN] HN Hmin.
  destruct (set_margin_inversion _ _ E) as [Hm Hfs].
  destruct (set_margin_positive d Hm Hfs) as (d'' & E' & Hs & Hen & _ & Hdoc & _).
  rewrite E in E'. injection E' as <-.
  unfold window_ok, TakanamiDialog.record. rewrite Hdoc, Hs, Hen.
  fold (TakanamiDialog.record d).
  pose proof (effective_margin_positive (rc.fs (record d)) Hm) as HM.
  pose proof (effective_margin_ge (rc.fs (record d)) m) as HMge.
  set (M := Py.max (MINIMUM_MARGIN_IN_SECS * rc.fs (record d)) m) in *.
  destruct (max_cases 0 (inject_Z (event_time d) - M)) as [[H1 ->]|[H1 ->]];
    destruct (min_cases (inject_Z (len (record d))) (inject_Z (event_time d) + M))
      as [[H2 ->]|[H2 ->]];
    repeat split; lra.
Qed.

Lemma set_margin_event_time (m : Q) (d d' : t) :
  set_margin m d = inr d' ->
  0 < inject_Z (event_time d) < inject_Z (len (record d)) ->
  EventTime_invariant d'.
Proof.
  intros E [He0 HeN].
  destruct (set_margin_inversion _ _ E) as [Hm Hfs].
  destruct (set_margin_positive d Hm Hfs) as (d'' & E' & Hs & Hen & Hev & _).
  rewrite E in E'. injection E' as <-.
  unfold EventTime_invariant. rewrite Hev, Hs, Hen.
  pose proof (effective_margin_positive (rc.fs (record d)) Hm) as HM.
  set (M := Py.max (MINIMUM_MARGIN_IN_SECS * rc.fs (record d)) m) in *.
  destruct (max_cases 0 (inject_Z (event_time d) - M)) as [[H1 ->]|[H1 ->]];
    destruct (min_cases (inject_Z (len (record d))) (inject_Z (event_time d) + M))
      as [[H2 ->]|[H2 ->]];
    split; lra.
Qed.

(** What an accepted construction went through. *)
Lemma init_inversion (Takanami : TakanamiTask.Algorithm) (settings : QSettings)
    (document : Document.t) (t_start t_end : Q) (event : option rc.Event) (d : t) :
  __init__ Takanami settings document t_start t_end event = inr d ->
  let start := Py.int (t_start * rc.fs (Document.record document)) in
  let end_ := Py.int (t_end * rc.fs (Document.record document)) in
  exists spinboxes d',
    valid (Document.record document) start end_
          (initial_event_time start end_ event) /\
    _init_ui (Document.record document) = inr spinboxes /\
    load_settings settings (after_init_ui document start end_ event spinboxes)
    = inr d' /\
    d = submit_task Takanami d'.
Proof.
  intros E start end_.
  destruct (classic_valid (Document.record document) start end_
              (initial_event_time start end_ event)) as [Hv|Hv].
  - rewrite (init_accepts Takanami settings document t_start t_end event Hv) in E.
    fold start end_ in E.
    destruct (_init_ui (Document.record document)) as [e|sp]; [discriminate|].
    cbn [Py.bind] in E.
    destruct (load_settings settings _) as [e|d'] eqn:El; [discriminate|].
    cbn [Py.bind] in E. injection E as <-.
    exists sp, d'. repeat split; try apply Hv. exact El.
  - destruct (init_rejects Takanami settings document t_start t_end event Hv)
      as [msg Hmsg].
    rewrite Hmsg in E. discriminate.
Qed.

(** A positive default margin, in samples, needs a non-zero [fs]. *)
Lemma margin_positive_fs (v fs : Q) :
  0 < inject_Z (Py.int (v * fs)) -> ~ fs == 0.
Proof.
  intros Hm Hfs.
  assert (E : v * fs == inject_Z 0) by (rewrite Hfs; ring).
  rewrite (int_comp E), int_inject_Z in Hm.
  revert Hm. apply Qlt_irrefl.
Qed.

(** What [on_position_estimated] returns, written out. *)
Lemma on_position_estimated_nonzero (time : Z) (aic : list Q) (n0_aic : Z) (d : t) :
  ~ rc.fs (record d) == 0 ->
  exists d',
    on_position_estimated time aic n0_aic d = inr d' /\
    event_time d' = time /\
    _start d' = _start d /\
    _end d' = _end d /\
    start_point_spinbox d' = start_point_spinbox d /\
    end_point_spinbox d' = end_point_spinbox d /\
    document d' = document d /\
    plotted d' = plotted d ++ [(time, aic, n0_aic)].
Proof.
  intro Hfs. unfold on_position_estimated. cbv zeta.
  change (rc.fs (record (set_event_time time d))) with (rc.fs (record d)).
  rewrite (div_nonzero _ Hfs). cbn [Py.bind].
  eexists. split; [reflexivity|]. repeat split.
Qed.

Lemma on_position_estimated_zero (time : Z) (aic : list Q) (n0_aic : Z) (d : t) :
  rc.fs (record d) == 0 ->
  on_position_estimated time aic n0_aic d = inl Py.ZeroDivisionError.
Proof.
  intro Hfs. unfold on_position_estimated. cbv zeta.
  change (rc.fs (record (set_event_time time d))) with (rc.fs (record d)).
  rewrite (div_zero _ Hfs). reflexivity.
Qed.

Lemma on_position_estimated_inversion (time : Z) (aic : list Q) (n0_aic : Z)
    (d d' : t) :
  on_position_estimated time aic n0_aic d = inr d' ->
  event_time d' = time /\ _start d' = _start d /\ _end d' = _end d.
Proof.
  intro E. destruct (Qeq_dec (rc.fs (record d)) 0) as [Hfs|Hfs].
  - rewrite (on_position_estimated_zero time aic n0_aic d Hfs) in E. discriminate.
  - destruct (on_position_estimated_nonzero time aic n0_aic d Hfs)
      as (d'' & E' & Hev & Hs & He & _).
    rewrite E in E'. injection E' as <-. repeat split; assumption.
Qed.

(** An accepted construction leaves a window computed by [set_margin]
    around an event time strictly inside the signal. *)
Lemma init_set_margin (Takanami : TakanamiTask.Algorithm) (settings : QSettings)
    (document : Document.t) (t_start t_end : Q) (event : option rc.Event) (d : t) :
  __init__ Takanami settings document t_start t_end event = inr d ->
  exists m d0 d',
    set_margin m d0 = inr d' /\ d = submit_task Takanami d' /\
    0 < inject_Z (event_time d0) < inject_Z (len (record d0)) /\
    MINIMUM_MARGIN_IN_SECS * rc.fs (record d0) <= inject_Z (len (record d0)).
Proof.
  intro E. destruct (init_inversion _ _ _ _ _ _ E) as (sp & d' & Hv & _ & El & ->).
  unfold load_settings in El.
  eexists _, _, d'. split; [exact El|]. split; [reflexivity|].
  destruct Hv as ((H0 & Hse) & HeN & Hmin & (Hs & He)).
  change (record (after_init_ui document _ _ event sp))
    with (Document.record document).
  change (event_time (after_init_ui document ?a ?b event sp))
    with (initial_event_time a b event).
  repeat split.
  - change 0 with (inject_Z 0). rewrite <- Zlt_Qlt. lia.
  - rewrite <- Zlt_Qlt. lia.
  - eapply Qle_trans; [exact Hmin|]. rewrite <- Zle_Qle. lia.
Qed.

(** Every constructed session has a non-zero sample rate. *)
Lemma init_fs_nonzero (Takanami : TakanamiTask.Algorithm) (settings : QSettings)
    (document : Document.t) (t_start t_end : Q) (event : option rc.Event) (d : t) :
  __init__ Takanami settings document t_start t_end event = inr d ->
  ~ rc.fs (record d) == 0.
Proof.
  intro E.
  destruct (init_set_margin _ _ _ _ _ _ E) as (m & d0 & d' & Em & -> & _).
  destruct (set_margin_inversion _ _ Em) as [Hm Hfs].
  destruct (set_margin_positive d0 Hm Hfs) as (d'' & E' & _ & _ & _ & Hdoc & _).
  rewrite Em in E'. injection E' as <-.
  unfold submit_task, record. simpl. rewrite Hdoc. exact Hfs.
Qed.

End DialogFacts.

(** ** Claims about [TakanamiDialog] *)

Section DialogClaims.

Import TakanamiDialog.

Open Scope Q_scope.

(** Solves a closed comparison by evaluation. *)
Ltac evaluate :=
  vm_compute;
  first [ reflexivity | discriminate | intro; discriminate
        | let H := fresh in intro H; apply H; reflexivity ].

(** C2.  [set_margin(m)] raises [ValueError] when [m <= 0].  When [m > 0]
    (on a session, whose [fs] is not zero) it returns, and with
    [M = max(0.5 * fs, m)] the window has become
    [start = max(0, event_time - M)], [end = min(N, event_time + M)], while
    [event_time] is unchanged. *)
Theorem set_margin_spec (m : Q) (d : t) :
  (m <= 0 ->
   set_margin m d = inl (Py.ValueError "margin must be a positive value")) /\
  (0 < m -> ~ rc.fs (record d) == 0 ->
   exists d',
     set_margin m d = inr d' /\
     _start d' == Qmax 0 (inject_Z (event_time d)
                          - Qmax ((1 # 2) * rc.fs (record d)) m) /\
     _end d' == Qmin (inject_Z (len (record d)))
                     (inject_Z (event_time d)
                      + Qmax ((1 # 2) * rc.fs (record d)) m) /\
     event_time d' = event_time d).
Proof.
  split.
  - apply set_margin_nonpositive.
  - apply set_margin_values.
Qed.

Lemma set_margin_spec_witness :
  exists d',
    set_margin 50 Examples.dialog_1s = inr d' /\
    _start d' == 450 /\ _end d' == 550 /\ event_time d' = 500%Z.
Proof.
  destruct (proj2 (set_margin_spec 50 Examples.dialog_1s) eq_refl)
    as (d' & E & Hs & He & Hev); [evaluate|].
  exists d'. split; [exact E|]. split; [|split; [|exact Hev]].
  - apply (Qeq_trans _ _ _ Hs). evaluate.
  - apply (Qeq_trans _ _ _ He). evaluate.
Defined.

(** C4.  [save_event]: when an event is being refined and its time equals
    the estimate, nothing is written and the dialog is unchanged; when its
    time differs, the document receives exactly one more call,
    [editEvent(event, time=event_time, method_takanami, mode_automatic,
    status_reported)]; when there is no event, it receives exactly one more
    call, [createEvent(event_time, ...)], with the same tags. *)
Theorem save_event_spec (d : t) :
  (forall ev,
      seismic_event d = Some ev -> rc.time ev = event_time d ->
      save_event d = d) /\
  (forall ev,
      seismic_event d = Some ev -> rc.time ev <> event_time d ->
      Document.calls (document (save_event d))
      = Document.calls (document d)
        ++ [Document.editEvent ev (event_time d) rc.method_takanami
              rc.mode_automatic rc.status_reported]) /\
  (seismic_event d = None ->
   Document.calls (document (save_event d))
   = Document.calls (document d)
     ++ [Document.createEvent (event_time d) rc.method_takanami
           rc.mode_automatic rc.status_reported]).
Proof.
  unfold save_event. repeat split.
  - intros ev -> Heq. apply Z.eqb_eq in Heq. rewrite Heq. reflexivity.
  - intros ev -> Hne. apply Z.eqb_neq in Hne. rewrite Hne. reflexivity.
  - intros ->. reflexivity.
Qed.

Lemma save_event_spec_witness :
  Document.calls (document (save_event Examples.dialog_refining))
  = [Document.editEvent Examples.event_480 500 rc.method_takanami
       rc.mode_automatic rc.status_reported] /\
  Document.calls (document (save_event Examples.dialog_1s))
  = [Document.createEvent 500 rc.method_takanami
       rc.mode_automatic rc.status_reported] /\
  save_event Examples.dialog_unchanged = Examples.dialog_unchanged.
Proof.
  destruct (save_event_spec Examples.dialog_refining) as (_ & Hedit & _).
  destruct (save_event_spec Examples.dialog_1s) as (_ & _ & Hcreate).
  destruct (save_event_spec Examples.dialog_unchanged) as (Hsame & _).
  split; [|split].
  - apply (Hedit Examples.event_480 eq_refl). evaluate.
  - apply (Hcreate eq_refl).
  - apply (Hsame Examples.event_500 eq_refl). reflexivity.
Defined.

(** C6.  [on_position_estimated(time, aic, n0_aic)] (on a session, whose
    [fs] is not zero) replaces [event_time] by [time] and leaves the window,
    [_start] and [_end], as it was; the spin boxes and the document are
    untouched as well. *)
Theorem on_position_estimated_spec (time : Z) (aic : list Q) (n0_aic : Z) (d : t) :
  ~ rc.fs (record d) == 0 ->
  exists d',
    on_position_estimated time aic n0_aic d = inr d' /\
    event_time d' = time /\
    _start d' = _start d /\
    _end d' = _end d /\
    start_point_spinbox d' = start_point_spinbox d /\
    end_point_spinbox d' = end_point_spinbox d /\
    document d' = document d.
Proof.
  intro Hfs.
  destruct (on_position_estimated_nonzero time aic n0_aic d Hfs)
    as (d' & E & Hev & Hs & He & Hss & Hes & Hdoc & _).
  exists d'. repeat split; assumption.
Qed.

Lemma on_position_estimated_spec_witness :
  exists d',
    on_position_estimated 520 [] 0 Examples.dialog_1s = inr d' /\
    event_time d' = 520%Z /\ _start d' = 400 /\ _end d' = 600.
Proof.
  destruct (@on_position_estimated_spec 520 [] 0 Examples.dialog_1s)
    as (d' & E & Hev & Hs & He & _); [evaluate|].
  exists d'. repeat split; assumption.
Defined.

(** C3, as amended.  Let [start] and [end] be the sample indices of
    [t_start] and [t_end], and [eventTime] the given event's time or, with
    no event, [start + int((end - start) / 2)].  If
    [0 <= start < end < N], [end - start >= 0.5 * fs] and
    [start < eventTime < end], and the stored default margin is positive in
    samples, construction succeeds with [event_time = eventTime]; the window
    it leaves is not the input one but the one [set_margin] computes from the
    default margin, [max(0, eventTime - M)] to [min(N, eventTime + M)], and
    the first task is created over that window and handed to the wait
    dialog.  If the default margin is not positive, construction raises.  If
    any of the conditions on [(start, end, eventTime)] fails, construction
    raises [ValueError] and returns no dialog. *)
Theorem init_spec (Takanami : TakanamiTask.Algorithm) (settings : QSettings)
    (document : Document.t) (t_start t_end : Q) (event : option rc.Event) :
  let record := Document.record document in
  let start := Py.int (t_start * rc.fs record) in
  let end_ := Py.int (t_end * rc.fs record) in
  let eventTime := initial_event_time start end_ event in
  let margin := inject_Z (Py.int (value settings 5 * rc.fs record)) in
  let M := Qmax ((1 # 2) * rc.fs record) margin in
  (valid record start end_ eventTime -> 0 < margin ->
   exists d,
     __init__ Takanami settings document t_start t_end event = inr d /\
     event_time d = eventTime /\
     seismic_event d = event /\
     _start d == Qmax 0 (inject_Z eventTime - M) /\
     _end d == Qmin (inject_Z (len record)) (inject_Z eventTime + M) /\
     _task d = Some (TakanamiTask.__init__ Takanami record (_start d) (_end d)) /\
     wait_dialog d = [TakanamiTask.__init__ Takanami record (_start d) (_end d)]) /\
  (valid record start end_ eventTime -> margin <= 0 ->
   exists e,
     __init__ Takanami settings document t_start t_end event = inl e) /\
  (~ valid record start end_ eventTime ->
   exists msg,
     __init__ Takanami settings document t_start t_end event
     = inl (Py.ValueError msg)) /\
  (event = None -> (0 <= end_ - start)%Z ->
   eventTime = (start + (end_ - start) / 2)%Z).
Proof.
  intros record start end_ eventTime margin M.
  split; [|split; [|split]].
  - intros Hv Hm.
    pose proof (@margin_positive_fs _ _ Hm) as Hfs.
    rewrite (init_accepts Takanami settings document t_start t_end event Hv).
    destruct (@init_ui_nonzero (Document.record document) Hfs) as [sp Esp].
      rewrite Esp. cbn [Py.bind].
    set (d0 := after_init_ui _ _ _ _ _).
    change (load_settings settings d0) with (set_margin margin d0).
    destruct (set_margin_values d0 Hm Hfs) as (d' & E & Hs & He & Hev).
    destruct (set_margin_positive d0 Hm Hfs)
      as (d'' & E' & _ & _ & _ & Hdoc & Hse & _ & Hwd).
    rewrite E in E'. injection E' as <-.
    rewrite E. cbn [Py.bind].
    exists (submit_task Takanami d').
    split; [reflexivity|].
    split; [exact Hev|]. split; [exact Hse|].
    split; [exact Hs|]. split; [exact He|].
    unfold submit_task, TakanamiDialog.record. simpl.
    rewrite Hwd, Hdoc. split; reflexivity.
  - intros Hv Hm.
    rewrite (init_accepts Takanami settings document t_start t_end event Hv).
    destruct (Qeq_dec (rc.fs record) 0) as [Hfs|Hfs].
    + rewrite (@init_ui_zero (Document.record document) Hfs). eexists. reflexivity.
    + destruct (@init_ui_nonzero (Document.record document) Hfs) as [sp Esp].
      rewrite Esp. cbn [Py.bind].
      set (d0 := after_init_ui _ _ _ _ _).
      change (load_settings settings d0) with (set_margin margin d0).
      rewrite (set_margin_nonpositive d0 Hm). eexists. reflexivity.
  - apply init_rejects.
  - intros -> Hw. unfold eventTime, initial_event_time.
    rewrite (half_div Hw). reflexivity.
Qed.

Lemma init_1s :
  __init__ Examples.returns_500 Examples.settings_1s Examples.document_100Hz
           4 6 None
  = inr Examples.dialog_1s.
Proof. vm_compute. reflexivity. Qed.

Lemma init_spec_witness :
  (exists d,
      __init__ Examples.returns_500 Examples.settings_1s Examples.document_100Hz
               4 6 None = inr d /\
      event_time d = 500%Z /\ _start d == 400 /\ _end d == 600) /\
  (exists msg,
      __init__ Examples.returns_500 Examples.settings_1s Examples.document_100Hz
               4 (42 # 10) None = inl (Py.ValueError msg)).
Proof.
  split.
  - destruct (proj1 (init_spec Examples.returns_500 Examples.settings_1s
                       Examples.document_100Hz 4 6 None))
      as (d & E & Hev & _ & Hs & He & _).
    + unfold valid. repeat split; evaluate.
    + evaluate.
    + exists d. split; [exact E|]. split; [|split].
      * rewrite Hev. evaluate.
      * apply (Qeq_trans _ _ _ Hs). evaluate.
      * apply (Qeq_trans _ _ _ He). evaluate.
  - apply (init_spec Examples.returns_500 Examples.settings_1s
             Examples.document_100Hz 4 (42 # 10) None).
    intros (_ & _ & H & _). revert H. evaluate.
Defined.

(** C3, as stated, fails: with 10000 samples at 100 Hz and no stored margin,
    the valid window from 4 s to 6 s (samples 400 to 600, midpoint 500) is
    accepted, and the dialog's window is then samples 0 to 1000, not the
    input. *)
Lemma init_recentres_window :
  exists d,
    __init__ Examples.returns_500 Examples.no_settings Examples.document_100Hz
             4 6 None = inr d /\
    Py.int (4 * rc.fs Examples.record_100Hz) = 400%Z /\
    Py.int (6 * rc.fs Examples.record_100Hz) = 600%Z /\
    valid Examples.record_100Hz 400 600 500 /\
    event_time d = 500%Z /\
    _start d == 0 /\ _end d == 1000 /\
    ~ _start d == 400 /\ ~ _end d == 600.
Proof.
  eexists. split; [vm_compute; reflexivity|].
  unfold valid. repeat split; evaluate.
Qed.

(** C5, as amended.  An edit of the start bound to the time [value] whose
    sample index [t_start] differs from the stored start stores [t_start]
    and sets the end spin box's minimum to the time [value + 500 ms]; an
    edit whose sample index equals the stored start changes nothing at all,
    so the end spin box's minimum stays what it was.  Symmetrically an edit
    of the end bound whose sample index [t_end] differs from the stored end
    stores [t_end] and sets the start spin box's maximum to the time
    [value - 500 ms], and one whose index equals the stored end changes
    nothing.  Neither handler writes the other stored bound, and a second
    identical edit changes nothing. *)
Theorem window_edit_coupling (value : QtCore.QTime) (d : t) :
  let ms := QtCore.msecsTo QtCore.QTime_ value in
  let ds := on_start_point_changed value d in
  let de := on_end_point_changed value d in
  ((~ _start d == inject_Z (t_start value d) ->
    _start ds = inject_Z (t_start value d) /\
    QtGui.minimumTime (end_point_spinbox ds)
    = QtCore.addMSecs QtCore.QTime_ (ms + 500)) /\
   (_start d == inject_Z (t_start value d) -> ds = d) /\
   _end ds = _end d /\
   on_start_point_changed value ds = ds) /\
  ((~ _end d == inject_Z (t_end value d) ->
    _end de = inject_Z (t_end value d) /\
    QtGui.maximumTime (start_point_spinbox de)
    = QtCore.addMSecs QtCore.QTime_ (ms - 500)) /\
   (_end d == inject_Z (t_end value d) -> de = d) /\
   _start de = _start d /\
   on_end_point_changed value de = de).
Proof.
  intros ms ds de. split.
  - split; [|split; [|split]].
    + intro H. unfold ds. rewrite (on_start_point_changed_other value d H).
      split; reflexivity.
    + apply on_start_point_changed_same.
    + apply on_start_point_changed_fields.
    + unfold ds.
      destruct (Qeq_dec_prop (_start d) (inject_Z (t_start value d))) as [H|H].
      * rewrite !(on_start_point_changed_same value d H). reflexivity.
      * rewrite (on_start_point_changed_other value d H).
        apply on_start_point_changed_same. reflexivity.
  - split; [|split; [|split]].
    + intro H. unfold de. rewrite (on_end_point_changed_other value d H).
      split; reflexivity.
    + apply on_end_point_changed_same.
    + apply on_end_point_changed_fields.
    + unfold de.
      destruct (Qeq_dec_prop (_end d) (inject_Z (t_end value d))) as [H|H].
      * rewrite !(on_end_point_changed_same value d H). reflexivity.
      * rewrite (on_end_point_changed_other value d H).
        apply on_end_point_changed_same. reflexivity.
Qed.

Lemma window_edit_coupling_witness :
  (_start (on_start_point_changed 4500%Z Examples.dialog_1s) = 450 /\
   QtGui.minimumTime
     (end_point_spinbox (on_start_point_changed 4500%Z Examples.dialog_1s))
   = 5000%Z) /\
  (_end (on_end_point_changed 5500%Z Examples.dialog_1s) = 550 /\
   QtGui.maximumTime
     (start_point_spinbox (on_end_point_changed 5500%Z Examples.dialog_1s))
   = 5000%Z).
Proof.
  split.
  - destruct (window_edit_coupling 4500%Z Examples.dialog_1s) as ((H & _) & _).
    apply H. evaluate.
  - destruct (window_edit_coupling 5500%Z Examples.dialog_1s) as (_ & (H & _)).
    apply H. evaluate.
Defined.

(** C5, as stated, fails: on the dialog that [__init__] builds with window
    400 to 600, where the end spin box's minimum is 0.5 s, editing the start
    bound from 4.000 s to 4.005 s (a time within the start spin box's
    limits) gives sample index 400 again, so the handler does nothing: the
    end's minimum stays 500 ms instead of becoming 4505 ms.  Likewise
    editing the end bound to 6.005 s leaves the start's maximum at 99500 ms
    instead of 5505 ms. *)
Lemma edit_within_a_sample_updates_nothing :
  __init__ Examples.returns_500 Examples.settings_1s Examples.document_100Hz
           4 6 None = inr Examples.dialog_1s /\
  (within_limits 4005%Z (start_point_spinbox Examples.dialog_1s) /\
   t_start 4005%Z Examples.dialog_1s = 400%Z /\
   QtGui.minimumTime
     (end_point_spinbox (on_start_point_changed 4005%Z Examples.dialog_1s))
   = 500%Z /\
   QtCore.addMSecs QtCore.QTime_
     (QtCore.msecsTo QtCore.QTime_ 4005 + 500)%Z = 4505%Z) /\
  (within_limits 6005%Z (end_point_spinbox Examples.dialog_1s) /\
   t_end 6005%Z Examples.dialog_1s = 600%Z /\
   QtGui.maximumTime
     (start_point_spinbox (on_end_point_changed 6005%Z Examples.dialog_1s))
   = 99500%Z /\
   QtCore.addMSecs QtCore.QTime_
     (QtCore.msecsTo QtCore.QTime_ 6005 - 500)%Z = 5505%Z).
Proof.
  split; [exact init_1s|]. unfold within_limits. repeat split; evaluate.
Qed.

(** C7, as amended.  The window the code keeps is [0 <= start < end <= N]
    with [end - start >= 0.5 * fs]: [end] may equal [N], and the bounds need
    not be integers.  It holds after construction; [set_margin] preserves it
    on a session whose event time is inside the window; an edit of the start
    bound preserves it when the new start index leaves the minimum margin
    before the stored end, and an edit of the end bound when the new end
    index leaves the minimum margin after the stored start (the handlers
    themselves do not check this). *)
Theorem window_ok_spec (Takanami : TakanamiTask.Algorithm) :
  (forall settings document t_start t_end event d,
      __init__ Takanami settings document t_start t_end event = inr d ->
      window_ok d) /\
  (forall m d d',
      window_ok d -> EventTime_invariant d ->
      set_margin m d = inr d' -> window_ok d') /\
  (forall value d,
      0 < rc.fs (record d) -> window_ok d ->
      inject_Z (t_start value d) + MINIMUM_MARGIN_IN_SECS * rc.fs (record d)
      <= _end d ->
      window_ok (on_start_point_changed value d)) /\
  (forall value d,
      0 < rc.fs (record d) -> window_ok d ->
      _start d + MINIMUM_MARGIN_IN_SECS * rc.fs (record d)
      <= inject_Z (t_end value d) ->
      window_ok (on_end_point_changed value d)).
Proof.
  split; [|split; [|split]].
  - intros settings document ts te event d E.
    destruct (init_set_margin _ _ _ _ _ _ E) as (m & d0 & d' & Em & -> & He & Hmin).
    assert (Hw : window_ok d').
    { apply (set_margin_window _ _ Em); [split|..]; lra. }
    exact Hw.
  - intros m d d' (H0 & Hlt & HN & Hmin) (Hs & He) Em.
    apply (set_margin_window _ _ Em); [split|..]; lra.
  - intros value d Hfs (H0 & Hlt & HN & Hmin) Hnew.
    destruct (on_start_point_changed_fields value d) as (Hs & He & _ & Hdoc & _).
    pose proof (t_start_nonneg value d) as Hpos.
    unfold window_ok, TakanamiDialog.record, MINIMUM_MARGIN_IN_SECS in *.
    rewrite Hdoc, He. repeat split; lra.
  - intros value d Hfs (H0 & Hlt & HN & Hmin) Hnew.
    destruct (on_end_point_changed_fields value d) as (He & Hs & _ & Hdoc & _).
    pose proof (t_end_le_len value d) as Hle.
    unfold window_ok, TakanamiDialog.record, MINIMUM_MARGIN_IN_SECS in *.
    rewrite Hdoc, Hs. repeat split; lra.
Qed.

Lemma window_ok_1s : window_ok Examples.dialog_1s.
Proof. unfold window_ok. repeat split; evaluate. Qed.

Lemma event_time_1s : EventTime_invariant Examples.dialog_1s.
Proof. split; evaluate. Qed.

Lemma set_margin_50 :
  set_margin 50 Examples.dialog_1s = inr Examples.dialog_50.
Proof. vm_compute. reflexivity. Qed.

Lemma window_ok_spec_witness :
  window_ok Examples.dialog_1s /\
  window_ok Examples.dialog_50 /\
  window_ok (on_start_point_changed 4500%Z Examples.dialog_1s) /\
  window_ok (on_end_point_changed 5500%Z Examples.dialog_1s).
Proof.
  destruct (window_ok_spec Examples.returns_500) as (Hinit & Hmargin & Hs & He).
  split; [|split; [|split]].
  - apply (Hinit Examples.settings_1s Examples.document_100Hz 4 6 None).
    exact init_1s.
  - apply (Hmargin 50 Examples.dialog_1s);
      [exact window_ok_1s | exact event_time_1s | exact set_margin_50].
  - apply Hs; [evaluate | exact window_ok_1s | evaluate].
  - apply He; [evaluate | exact window_ok_1s | evaluate].
Defined.

Lemma init_at_end :
  __init__ Examples.returns_500 Examples.no_settings Examples.document_100Hz
           98 (999 # 10) None
  = inr Examples.dialog_at_end.
Proof. vm_compute. reflexivity. Qed.

Lemma init_25Hz :
  __init__ Examples.returns_500 Examples.settings_200ms Examples.document_25Hz
           4 6 None
  = inr Examples.dialog_25Hz.
Proof. vm_compute. reflexivity. Qed.

(** C7, as stated, fails in three ways.  Construction on 10000 samples for
    the window 98 s to 99.9 s leaves [end = 10000 = N], not [end < N].  On
    the dialog that [__init__] builds with window 400 to 600, which
    satisfies the stated invariant, editing the start bound to 7 s (a time
    within the start spin box's limits) stores start 700 above end 600.  At
    25 Hz with a stored margin of 0.2 s, construction leaves the window
    112.5 to 137.5, which are not integers. *)
Lemma signal_window_invariant_broken :
  (__init__ Examples.returns_500 Examples.no_settings Examples.document_100Hz
            98 (999 # 10) None = inr Examples.dialog_at_end /\
   _end Examples.dialog_at_end
   == inject_Z (len (record Examples.dialog_at_end)) /\
   ~ SignalWindow_invariant Examples.dialog_at_end) /\
  (__init__ Examples.returns_500 Examples.settings_1s Examples.document_100Hz
            4 6 None = inr Examples.dialog_1s /\
   SignalWindow_invariant Examples.dialog_1s /\
   within_limits 7000%Z (start_point_spinbox Examples.dialog_1s) /\
   _start (on_start_point_changed 7000%Z Examples.dialog_1s) == 700 /\
   _end (on_start_point_changed 7000%Z Examples.dialog_1s) == 600 /\
   ~ SignalWindow_invariant (on_start_point_changed 7000%Z Examples.dialog_1s)) /\
  (__init__ Examples.returns_500 Examples.settings_200ms Examples.document_25Hz
            4 6 None = inr Examples.dialog_25Hz /\
   _start Examples.dialog_25Hz == 225 # 2 /\
   ~ SignalWindow_invariant Examples.dialog_25Hz).
Proof.
  split; [|split].
  - split; [exact init_at_end|]. split; [evaluate|].
    intros (_ & _ & _ & (_ & H) & _). revert H. evaluate.
  - split; [exact init_1s|].
    split; [unfold SignalWindow_invariant, is_integer; repeat split; evaluate|].
    split; [unfold within_limits; split; evaluate|].
    split; [evaluate|]. split; [evaluate|].
    intros (_ & _ & _ & _ & H & _). revert H. evaluate.
  - split; [exact init_25Hz|]. split; [evaluate|].
    intros (H & _). revert H. unfold is_integer. evaluate.
Qed.

(** C8, as amended.  [start < event_time < end] holds after construction
    and is preserved by [set_margin] (on a session whose window lies inside
    [[0, N]]).  The other operations assign their field without comparing it
    with the rest: an edit of the start bound preserves the invariant when
    the new start index is below the event time, an edit of the end bound
    when the new end index is above it, and the arrival of a result when the
    new time lies strictly inside the stored window. *)
Theorem event_time_invariant_spec (Takanami : TakanamiTask.Algorithm) :
  (forall settings document t_start t_end event d,
      __init__ Takanami settings document t_start t_end event = inr d ->
      EventTime_invariant d) /\
  (forall m d d',
      0 <= _start d -> _end d <= inject_Z (len (record d)) ->
      EventTime_invariant d ->
      set_margin m d = inr d' -> EventTime_invariant d') /\
  (forall value d,
      EventTime_invariant d ->
      inject_Z (t_start value d) < inject_Z (event_time d) ->
      EventTime_invariant (on_start_point_changed value d)) /\
  (forall value d,
      EventTime_invariant d ->
      inject_Z (event_time d) < inject_Z (t_end value d) ->
      EventTime_invariant (on_end_point_changed value d)) /\
  (forall time aic n0_aic d d',
      on_position_estimated time aic n0_aic d = inr d' ->
      _start d < inject_Z time /\ inject_Z time < _end d ->
      EventTime_invariant d').
Proof.
  split; [|split; [|split; [|split]]].
  - intros settings document ts te event d E.
    destruct (init_set_margin _ _ _ _ _ _ E) as (m & d0 & d' & Em & -> & He & _).
    exact (set_margin_event_time _ _ Em He).
  - intros m d d' H0 HN (Hs & He) Em.
    apply (set_margin_event_time _ _ Em). split; lra.
  - intros value d (Hs & He) Hnew.
    destruct (on_start_point_changed_fields value d) as (Hs' & He' & Hev & _).
    unfold EventTime_invariant. rewrite Hev, He'. split; lra.
  - intros value d (Hs & He) Hnew.
    destruct (on_end_point_changed_fields value d) as (He' & Hs' & Hev & _).
    unfold EventTime_invariant. rewrite Hev, Hs'. split; lra.
  - intros time aic n0_aic d d' E H.
    destruct (on_position_estimated_inversion _ _ _ _ E) as (Hev & Hs & He).
    unfold EventTime_invariant. rewrite Hev, Hs, He. exact H.
Qed.

Lemma on_position_estimated_520 :
  on_position_estimated 520 [] 0 Examples.dialog_1s = inr Examples.dialog_520.
Proof. vm_compute. reflexivity. Qed.

Lemma event_time_invariant_spec_witness :
  EventTime_invariant Examples.dialog_1s /\
  EventTime_invariant Examples.dialog_50 /\
  EventTime_invariant (on_start_point_changed 4500%Z Examples.dialog_1s) /\
  EventTime_invariant (on_end_point_changed 5500%Z Examples.dialog_1s) /\
  EventTime_invariant Examples.dialog_520.
Proof.
  destruct (event_time_invariant_spec Examples.returns_500)
    as (Hinit & Hmargin & Hs & He & Hresult).
  split; [|split; [|split; [|split]]].
  - apply (Hinit Examples.settings_1s Examples.document_100Hz 4 6 None).
    exact init_1s.
  - apply (Hmargin 50 Examples.dialog_1s);
      [evaluate | evaluate | exact event_time_1s | exact set_margin_50].
  - apply Hs; [exact event_time_1s | evaluate].
  - apply He; [exact event_time_1s | evaluate].
  - apply (Hresult 520%Z [] 0%Z Examples.dialog_1s);
      [exact on_position_estimated_520 | split; evaluate].
Defined.

Lemma on_position_estimated_700 :
  on_position_estimated 700 [] 0 Examples.dialog_1s = inr Examples.dialog_700.
Proof. vm_compute. reflexivity. Qed.

(** C8, as stated, fails.  On the dialog that [__init__] builds with
    window 400 to 600 and event time 500, which satisfies the invariant,
    editing the start bound to 5.5 s (a time within the start spin box's
    limits) stores start 550, above the event time; and a result with time
    700 is stored as the event time although the window ends at 600. *)
Lemma event_time_invariant_broken :
  __init__ Examples.returns_500 Examples.settings_1s Examples.document_100Hz
           4 6 None = inr Examples.dialog_1s /\
  EventTime_invariant Examples.dialog_1s /\
  (within_limits 5500%Z (start_point_spinbox Examples.dialog_1s) /\
   _start (on_start_point_changed 5500%Z Examples.dialog_1s) == 550 /\
   event_time (on_start_point_changed 5500%Z Examples.dialog_1s) = 500%Z /\
   ~ EventTime_invariant (on_start_point_changed 5500%Z Examples.dialog_1s)) /\
  (on_position_estimated 700 [] 0 Examples.dialog_1s = inr Examples.dialog_700 /\
   event_time Examples.dialog_700 = 700%Z /\
   _end Examples.dialog_700 == 600 /\
   ~ EventTime_invariant Examples.dialog_700).
Proof.
  split; [exact init_1s|]. split; [exact event_time_1s|]. split.
  - split; [unfold within_limits; split; evaluate|].
    split; [evaluate|]. split; [evaluate|].
    intros (H & _). revert H. evaluate.
  - split; [exact on_position_estimated_700|].
    split; [evaluate|]. split; [evaluate|].
    intros (_ & H). revert H. evaluate.
Qed.

End DialogClaims.

(* ================================================================== *)
(** * Part III: further properties of the module *)
(* ================================================================== *)

(** ** [TakanamiTask.run]: what every activation keeps *)

Section TaskExtras.

Import TakanamiTask Activation.

Open Scope Q_scope.

Lemma same_task_arguments (s0 s : t) :
  same_task s0 s ->
  run_arguments s = run_arguments s0 /\ algorithm s = algorithm s0 /\
  record s = record s0.
Proof.
  intros Hs. destruct (same_task_times Hs) as [Ets Ete].
  destruct Hs as (Hr & _ & _ & Ha).
  unfold run_arguments. rewrite Ets, Ete, Hr. repeat split; assumption.
Qed.

Lemma times_error (s : t) (e : Py.exn) :
  times s = inl e -> e = Py.ZeroDivisionError.
Proof.
  unfold times, Py.div.
  destruct (Qeq_bool (rc.fs (record s)) 0); simpl; intro H;
    [injection H as <-; reflexivity | discriminate].
Qed.

Ltac close_progress Hs :=
  split; [exact Hs | simpl; intuition (eauto; congruence)].

Lemma progress_inv_perform (s0 : t) (f : frame) (a : action) :
  progress_inv s0 f -> progress_inv s0 (perform f a).
Proof.
  destruct f as [s l em inv]. intros (Hs & Hl & Hp). simpl in *.
  destruct a; [|close_progress Hs].
  destruct (same_task_arguments Hs) as (Hargs & Halg & Hrec).
  destruct l; unfold perform, step; simpl in *; try solve [close_progress Hs].
  - destruct (times s) as [e|[ts te]] eqn:E.
    + rewrite (times_error _ E). close_progress Hs.
    + destruct (times_inversion _ E) as [-> ->].
      destruct (same_task_times Hs) as [-> ->]. close_progress Hs.
  - destruct (_abort s); close_progress Hs.
  - destruct Hl as [-> ->]. destruct Hp as [-> ->].
    replace (rc.signal (record s), rc.fs (record s),
             start_time_in_secs s0, end_time_in_secs s0)
      with (run_arguments s0)
      by (unfold run_arguments; rewrite Hrec; reflexivity).
    rewrite Halg.
    destruct (algorithm s0 (run_arguments s0)) eqn:E; close_progress Hs.
  - destruct (_abort s); close_progress Hs.
  - destruct Hp as (-> & Hinv & Hr).
    split; [exact Hs|]. simpl. split; [exact I|]. split; [exact Hinv|].
    exists r. split; [exact Hr | reflexivity].
  - destruct Hp as (Hinv & r & Hr & Hem). subst em.
    split; [exact Hs|]. simpl. split; [exact I|]. right.
    split; [exact Hinv|]. exists r. split; [exact Hr | reflexivity].
Qed.

Lemma progress_inv_exec (s0 : t) (sch : list action) :
  forall f, progress_inv s0 f -> progress_inv s0 (exec sch f).
Proof.
  induction sch as [|a sch IH]; intros f H; [exact H|].
  simpl. apply IH, progress_inv_perform, H.
Qed.

Lemma progress_inv_call_run (s : t) : progress_inv s (call_run s).
Proof.
  split; [apply same_task_refl|]. simpl. repeat split.
Qed.

(** X1.  At every moment of every activation, under every interleaving of
    [abort()] calls, what [run] has emitted is nothing, or
    [position_estimated] alone, or [position_estimated] followed by
    [finished]: [finished] never comes first or alone, nothing is emitted
    twice, and the values in [position_estimated] are those the algorithm
    returned on the arguments of lines 70 to 78. *)
Theorem emitted_is_a_prefix (s : t) (sch : list action) :
  emitted (exec sch (call_run s)) = [] \/
  exists r,
    algorithm s (run_arguments s) = inr r /\
    (emitted (exec sch (call_run s)) = [emit_position r] \/
     emitted (exec sch (call_run s)) = [emit_position r; finished]).
Proof.
  destruct (progress_inv_exec sch (progress_inv_call_run s)) as (_ & _ & Hp).
  destruct (pc (exec sch (call_run s)));
    try (left; apply Hp).
  - destruct Hp as (_ & r & Hr & Hem). right. exists r. auto.
  - destruct Hp as [[Hem _]|(_ & r & Hr & Hem)]; [left; exact Hem|].
    right. exists r. auto.
Qed.

(** X2.  Under every interleaving, [run] calls the algorithm at most once,
    and only with the arguments of lines 70 to 78; and it emits a signal
    only after having made that call. *)
Theorem algorithm_called_at_most_once (s : t) (sch : list action) :
  (invoked (exec sch (call_run s)) = [] /\
   emitted (exec sch (call_run s)) = []) \/
  invoked (exec sch (call_run s)) = [run_arguments s].
Proof.
  destruct (progress_inv_exec sch (progress_inv_call_run s)) as (_ & _ & Hp).
  destruct (pc (exec sch (call_run s)));
    try (left; split; apply Hp); try (right; apply Hp).
  - destruct Hp as [[Hem [Hinv|Hinv]]|(Hinv & _)]; auto.
  - destruct Hp as [Hem [[Hinv _]|[Hinv _]]]; auto.
Qed.

(** *** Activations that stop early *)

Lemma abort_before_mono (n m : nat) (sch : list action) :
  (n <= m)%nat -> abort_before n sch = true -> abort_before m sch = true.
Proof.
  revert n m. induction sch as [|a sch IH]; intros n m Hle H.
  - destruct n; discriminate.
  - destruct n as [|n]; [discriminate|].
    destruct m as [|m]; [lia|].
    destruct a; simpl in *; [apply (IH n m); [lia | exact H] | reflexivity].
Qed.

Lemma exec_terminal (sch : list action) :
  forall s l em inv,
    l = returned \/ (exists e, l = raised e) ->
    pc (exec sch (mkFrame s l em inv)) = l /\
    emitted (exec sch (mkFrame s l em inv)) = em /\
    invoked (exec sch (mkFrame s l em inv)) = inv.
Proof.
  induction sch as [|a sch IH]; intros s l em inv Hl; [repeat split|].
  destruct a; simpl.
  - destruct Hl as [->|[e ->]]; unfold step; simpl; apply IH; eauto.
  - apply IH, Hl.
Qed.

Lemma stop_checkpoint2 (r : Estimation) (sch : list action) :
  forall s em inv,
    _abort s || abort_before 1 sch = true ->
    emitted (exec sch (mkFrame s (at_checkpoint2 r) em inv)) = em /\
    invoked (exec sch (mkFrame s (at_checkpoint2 r) em inv)) = inv.
Proof.
  induction sch as [|a sch IH]; intros s em inv H; [split; reflexivity|].
  destruct a; simpl in *.
  - rewrite orb_false_r in H. unfold step; simpl. rewrite H.
    apply exec_terminal. left. reflexivity.
  - apply IH. reflexivity.
Qed.

Lemma stop_algorithm (sch : list action) :
  forall s ts te em inv,
    _abort s || abort_before 2 sch = true ->
    emitted (exec sch (mkFrame s (at_algorithm ts te) em inv)) = em.
Proof.
  induction sch as [|a sch IH]; intros s ts te em inv H; [reflexivity|].
  destruct a; simpl in *.
  - unfold step; simpl. destruct (algorithm s _) as [e|r].
    + apply exec_terminal. right. eauto.
    + apply (stop_checkpoint2 r sch s em _ H).
  - apply IH. reflexivity.
Qed.

Lemma stop_checkpoint1 (sch : list action) :
  forall s ts te em inv,
    (_abort s || abort_before 3 sch = true ->
     emitted (exec sch (mkFrame s (at_checkpoint1 ts te) em inv)) = em) /\
    (_abort s || abort_before 1 sch = true ->
     invoked (exec sch (mkFrame s (at_checkpoint1 ts te) em inv)) = inv).
Proof.
  induction sch as [|a sch IH]; intros s ts te em inv; [split; reflexivity|].
  destruct a; simpl in *.
  - unfold step; simpl. destruct (_abort s) eqn:E; simpl.
    + split; intros _; apply exec_terminal; left; reflexivity.
    + split; [|discriminate]. intro H.
      apply stop_algorithm. rewrite E. exact H.
  - split; intros _; apply IH; reflexivity.
Qed.

Lemma stop_times (sch : list action) :
  forall s em inv,
    (_abort s || abort_before 4 sch = true ->
     emitted (exec sch (mkFrame s at_times em inv)) = em) /\
    (_abort s || abort_before 2 sch = true ->
     invoked (exec sch (mkFrame s at_times em inv)) = inv).
Proof.
  induction sch as [|a sch IH]; intros s em inv; [split; reflexivity|].
  destruct a; simpl in *.
  - unfold step; simpl. destruct (times s) as [e|[ts te]].
    + split; intros _; apply exec_terminal; right; eauto.
    + apply stop_checkpoint1.
  - split; intros _; apply IH; reflexivity.
Qed.

Lemma stop_reset (sch : list action) :
  forall s em inv,
    (abort_observed sch = true ->
     emitted (exec sch (mkFrame s at_reset em inv)) = em) /\
    (abort_before 2 (after_first_step sch) = true ->
     invoked (exec sch (mkFrame s at_reset em inv)) = inv).
Proof.
  induction sch as [|a sch IH]; intros s em inv; [split; reflexivity|].
  destruct a; simpl in *.
  - unfold step; simpl. apply (stop_times sch (clear_abort s) em inv).
  - apply IH.
Qed.

(** X3.  If [abort()] is called after [run] has cleared the flag and before
    the first checkpoint reads it, the algorithm is never called and nothing
    is emitted, however the run goes on. *)
Theorem abort_before_checkpoint1_skips_algorithm (s : t) (sch : list action) :
  abort_before 2 (after_first_step sch) = true ->
  invoked (exec sch (call_run s)) = [] /\
  emitted (exec sch (call_run s)) = [].
Proof.
  intro H. unfold call_run. split.
  - apply (stop_reset sch s [] []), H.
  - apply (stop_reset sch s [] []).
    apply (@abort_before_mono 2 4); [lia | exact H].
Qed.

Lemma abort_before_checkpoint1_skips_algorithm_witness :
  invoked (exec MoreExamples.abort_before_checkpoint1 (call_run Examples.task_ok))
  = [] /\
  emitted (exec MoreExamples.abort_before_checkpoint1 (call_run Examples.task_ok))
  = [].
Proof.
  apply (@abort_before_checkpoint1_skips_algorithm Examples.task_ok
           MoreExamples.abort_before_checkpoint1).
  reflexivity.
Defined.

(** *** Activations that reach the algorithm *)

Lemma invoked_after_call (sch : list action) :
  forall f,
    match pc f with
    | at_checkpoint2 _ | at_emit_position _ | at_emit_finished
    | returned | raised _ => True
    | _ => False
    end ->
    invoked (exec sch f) = invoked f.
Proof.
  induction sch as [|a sch IH]; intros [s l em inv] H; [reflexivity|].
  destruct a; simpl in *.
  - destruct l; try contradiction; unfold step; simpl;
      try (rewrite IH; [reflexivity | exact I]).
    destruct (_abort s); rewrite IH; simpl; auto.
  - rewrite IH; [reflexivity | exact H].
Qed.

Lemma reach_algorithm (sch : list action) :
  forall s ts te em inv,
    (1 <= steps sch)%nat ->
    invoked (exec sch (mkFrame s (at_algorithm ts te) em inv))
    = inv ++ [(rc.signal (record s), rc.fs (record s), ts, te)].
Proof.
  induction sch as [|a sch IH]; intros s ts te em inv H; [simpl in H; lia|].
  destruct a; simpl in *.
  - unfold step; simpl.
    destruct (algorithm s _); rewrite invoked_after_call; simpl; auto.
  - apply (IH (abort s)), H.
Qed.

Lemma reach_checkpoint1 (sch : list action) :
  forall s ts te em inv,
    _abort s = false -> abort_before 1 sch = false ->
    (2 <= steps sch)%nat ->
    invoked (exec sch (mkFrame s (at_checkpoint1 ts te) em inv))
    = inv ++ [(rc.signal (record s), rc.fs (record s), ts, te)].
Proof.
  induction sch as [|a sch IH]; intros s ts te em inv Hf Hb H; [simpl in H; lia|].
  destruct a; simpl in *; [|discriminate].
  unfold step; simpl. rewrite Hf. apply reach_algorithm. lia.
Qed.

Lemma reach_times (sch : list action) :
  forall s em inv,
    ~ rc.fs (record s) == 0 ->
    _abort s = false -> abort_before 2 sch = false ->
    (3 <= steps sch)%nat ->
    invoked (exec sch (mkFrame s at_times em inv)) = inv ++ [run_arguments s].
Proof.
  induction sch as [|a sch IH]; intros s em inv Hfs Hf Hb H; [simpl in H; lia|].
  destruct a; simpl in *; [|discriminate].
  rewrite (step_at_times s em inv Hfs).
  apply reach_checkpoint1; [assumption | assumption | lia].
Qed.

Lemma reach_reset (sch : list action) :
  forall s em inv,
    ~ rc.fs (record s) == 0 ->
    abort_before 2 (after_first_step sch) = false ->
    (4 <= steps sch)%nat ->
    invoked (exec sch (mkFrame s at_reset em inv)) = inv ++ [run_arguments s].
Proof.
  induction sch as [|a sch IH]; intros s em inv Hfs Hb H; [simpl in H; lia|].
  destruct a; simpl in *.
  - rewrite step_at_reset.
    apply (reach_times sch (clear_abort s) em inv); [exact Hfs | reflexivity | exact Hb | lia].
  - apply (IH (abort s)); assumption.
Qed.

(** X4.  If no [abort()] comes before the first checkpoint but one comes
    before the second, that is while the algorithm is at work, the algorithm
    is called all the same, once, and its result is thrown away: nothing is
    emitted. *)
Theorem abort_during_algorithm_discards_result (s : t) (sch : list action) :
  ~ rc.fs (record s) == 0 ->
  (4 <= steps sch)%nat ->
  abort_before 2 (after_first_step sch) = false ->
  abort_observed sch = true ->
  invoked (exec sch (call_run s)) = [run_arguments s] /\
  emitted (exec sch (call_run s)) = [].
Proof.
  intros Hfs Hsteps Hb Ho. unfold call_run. split.
  - apply (reach_reset sch s [] [] Hfs Hb Hsteps).
  - apply (stop_reset sch s [] []), Ho.
Qed.

Lemma abort_during_algorithm_discards_result_witness :
  invoked (exec Examples.abort_during_algorithm (call_run Examples.task_ok))
  = [run_arguments Examples.task_ok] /\
  emitted (exec Examples.abort_during_algorithm (call_run Examples.task_ok))
  = [].
Proof.
  apply (@abort_during_algorithm_discards_result Examples.task_ok
           Examples.abort_during_algorithm).
  - vm_compute. intro H. discriminate H.
  - simpl. lia.
  - reflexivity.
  - reflexivity.
Defined.

(** *** A zero sample rate *)

Lemma zero_times (sch : list action) :
  forall s em inv,
    rc.fs (record s) == 0 -> (1 <= steps sch)%nat ->
    pc (exec sch (mkFrame s at_times em inv)) = raised Py.ZeroDivisionError /\
    emitted (exec sch (mkFrame s at_times em inv)) = em /\
    invoked (exec sch (mkFrame s at_times em inv)) = inv.
Proof.
  induction sch as [|a sch IH]; intros s em inv Hfs H; [simpl in H; lia|].
  destruct a; simpl in *.
  - rewrite (step_at_times_zero s em inv Hfs).
    apply exec_terminal. right. eauto.
  - apply (IH (abort s)); assumption.
Qed.

(** X5.  On a record whose sample rate is zero, [run] raises
    [ZeroDivisionError] at line 70, whatever the interleaving: the algorithm
    is not called and nothing is emitted. *)
Theorem run_zero_sample_rate (s : t) (sch : list action) :
  rc.fs (record s) == 0 ->
  (2 <= steps sch)%nat ->
  pc (exec sch (call_run s)) = raised Py.ZeroDivisionError /\
  emitted (exec sch (call_run s)) = [] /\
  invoked (exec sch (call_run s)) = [].
Proof.
  intros Hfs. unfold call_run. generalize s Hfs. clear s Hfs.
  induction sch as [|a sch IH]; intros s Hfs H; [simpl in H; lia|].
  destruct a; simpl in *.
  - rewrite step_at_reset. apply zero_times; [exact Hfs | lia].
  - apply (IH (abort s)); assumption.
Qed.

Lemma run_zero_sample_rate_witness :
  pc (run MoreExamples.task_0Hz) = raised Py.ZeroDivisionError /\
  emitted (run MoreExamples.task_0Hz) = [] /\
  invoked (run MoreExamples.task_0Hz) = [].
Proof.
  apply (@run_zero_sample_rate MoreExamples.task_0Hz (repeat Step 7)).
  - reflexivity.
  - simpl. lia.
Defined.

(** *** Running a task again *)

Lemma same_task_flag (s0 s : t) :
  same_task s0 s -> clear_abort s = clear_abort s0 /\ abort s = abort s0.
Proof.
  destruct s0, s. intros (Hr & Hs & He & Ha). simpl in *. subst.
  split; reflexivity.
Qed.

(** Two activations on tasks that differ in the flag only are the same
    activation once the first thing has happened, be it line 69 or an
    [abort()]. *)
Lemma exec_forgets_flag (sch : list action) (s0 s : t)
    (em : list Signal) (inv : list Arguments_) :
  same_task s0 s -> sch <> [] ->
  exec sch (mkFrame s at_reset em inv) = exec sch (mkFrame s0 at_reset em inv).
Proof.
  intros Hs Hsch. destruct (same_task_flag Hs) as [Hclear Habort].
  destruct sch as [|a sch]; [contradiction Hsch; reflexivity|].
  destruct a; simpl.
  - rewrite !step_at_reset, Hclear. reflexivity.
  - rewrite Habort. reflexivity.
Qed.

(** X6.  A task object can be run again, whatever happened to its previous
    activation, be it completed, aborted, or ended by an exception: [run]
    starts by clearing the flag and writes nothing else of the task, so a new
    activation on the task left behind goes, under every interleaving of
    [abort()] calls, exactly as that activation goes on the original task:
    same program point, same calls of the algorithm, same signals.  In
    particular, when the algorithm returns [r] (and [fs] is not zero), the
    task left behind, run again and left alone, emits [position_estimated]
    and then [finished], also after an abort. *)
Theorem run_again_like_the_first_run (s : t) (sch sch' : list action) :
  (pc (exec sch' (call_run (task_after sch s))) = pc (exec sch' (call_run s)) /\
   emitted (exec sch' (call_run (task_after sch s)))
   = emitted (exec sch' (call_run s)) /\
   invoked (exec sch' (call_run (task_after sch s)))
   = invoked (exec sch' (call_run s))) /\
  (forall r,
      ~ rc.fs (record s) == 0 ->
      algorithm s (run_arguments s) = inr r ->
      emitted (run (task_after sch s)) = [emit_position r; finished]).
Proof.
  destruct (args_inv_exec sch (args_inv_call_run s)) as (Hs & _).
  fold (task_after sch s) in Hs.
  split.
  - destruct sch' as [|a sch']; [repeat split|].
    unfold call_run.
    rewrite (@exec_forgets_flag (a :: sch') s (task_after sch s) [] [] Hs)
      by discriminate.
    repeat split.
  - intros r Hfs Hr.
    destruct (same_task_arguments Hs) as (Hargs & Halg & Hrec).
    unfold run. apply run_without_abort.
    + rewrite Hrec. exact Hfs.
    + rewrite Halg, Hargs. exact Hr.
    + simpl. lia.
    + intros a Ha. apply repeat_spec in Ha. exact Ha.
Qed.

Lemma run_again_like_the_first_run_witness :
  (emitted (exec Examples.abort_during_algorithm (call_run Examples.task_ok)) = [] /\
   _abort (task_after Examples.abort_during_algorithm Examples.task_ok) = true /\
   emitted (run (task_after Examples.abort_during_algorithm Examples.task_ok))
   = [position_estimated 500 [] 0; finished]) /\
  (pc (run Examples.task_raises)
   = raised (Py.AlgorithmError "singular matrix") /\
   pc (run (task_after (repeat Step 7) Examples.task_raises))
   = pc (run Examples.task_raises)).
Proof.
  split.
  - split; [reflexivity|]. split; [reflexivity|].
    apply (proj2 (@run_again_like_the_first_run Examples.task_ok
                    Examples.abort_during_algorithm [])
                 (500%Z, [], 0%Z)).
    + vm_compute. intro H. discriminate H.
    + reflexivity.
  - split; [reflexivity|].
    apply (proj1 (@run_again_like_the_first_run Examples.task_raises
                    (repeat Step 7) (repeat Step 7))).
Defined.

End TaskExtras.

(** ** [TakanamiDialog]: construction *)

Section InitExtras.

Import TakanamiDialog.

Open Scope Q_scope.

Ltac compute_it :=
  vm_compute;
  first [ reflexivity | discriminate | intro; discriminate
        | let H := fresh in intro H; apply H; reflexivity ].

Lemma andb_range (a b x : Z) :
  (a <=? x)%Z && (x <? b)%Z = true <-> (a <= x < b)%Z.
Proof. rewrite andb_true_iff, Z.leb_le, Z.ltb_lt. reflexivity. Qed.

Lemma andb_open_range (a b x : Z) :
  (a <? x)%Z && (x <? b)%Z = true <-> (a < x < b)%Z.
Proof. rewrite andb_true_iff, !Z.ltb_lt. reflexivity. Qed.

Lemma not_true_false (b : bool) : b <> true -> b = false.
Proof. destruct b; [intro H; exfalso; apply H; reflexivity | reflexivity]. Qed.

(** X7.  The errors of [__init__], in the order of its checks: a start
    index outside [[0, N)] gives "Invalid t_start value"; otherwise an end
    index outside [[0, N)] gives "Invalid t_end value"; otherwise a window
    narrower than [0.5 * fs] samples gives the distance error; otherwise an
    event time not strictly inside the window gives the event time error. *)
Theorem init_errors (Takanami : TakanamiTask.Algorithm) (settings : QSettings)
    (document : Document.t) (t_start t_end : Q) (event : option rc.Event) :
  let record := Document.record document in
  let start := Py.int (t_start * rc.fs record) in
  let end_ := Py.int (t_end * rc.fs record) in
  let eventTime := initial_event_time start end_ event in
  (~ (0 <= start < len record)%Z ->
   __init__ Takanami settings document t_start t_end event
   = inl (Py.ValueError "Invalid t_start value")) /\
  ((0 <= start < len record)%Z -> ~ (0 <= end_ < len record)%Z ->
   __init__ Takanami settings document t_start t_end event
   = inl (Py.ValueError "Invalid t_end value")) /\
  ((0 <= start < len record)%Z -> (0 <= end_ < len record)%Z ->
   inject_Z (end_ - start) < MINIMUM_MARGIN_IN_SECS * rc.fs record ->
   __init__ Takanami settings document t_start t_end event
   = inl (Py.ValueError
            "Distance between t_start and t_end must be at least of 0.5 seconds")) /\
  ((0 <= start < len record)%Z -> (0 <= end_ < len record)%Z ->
   MINIMUM_MARGIN_IN_SECS * rc.fs record <= inject_Z (end_ - start) ->
   ~ (start < eventTime < end_)%Z ->
   __init__ Takanami settings document t_start t_end event
   = inl (Py.ValueError "Event time must be a value between t-start and t_end")).
Proof.
  intros record start end_ eventTime.
  unfold __init__. cbv zeta. fold record. fold start end_.
  split; [|split; [|split]].
  - intro H1. rewrite <- andb_range in H1. apply not_true_false in H1.
    rewrite H1. reflexivity.
  - intros H1 H2. apply andb_range in H1.
    rewrite <- andb_range in H2. apply not_true_false in H2.
    rewrite H1, H2. reflexivity.
  - intros H1 H2 H3. apply andb_range in H1. apply andb_range in H2.
    apply Qltb_lt in H3. rewrite H1, H2, H3. reflexivity.
  - intros H1 H2 H3 H4. apply andb_range in H1. apply andb_range in H2.
    apply Qltb_ge in H3.
    unfold eventTime, initial_event_time in H4.
    rewrite <- andb_open_range in H4. apply not_true_false in H4.
    rewrite H1, H2, H3. simpl negb. cbv iota. rewrite H4. reflexivity.
Qed.

Lemma init_errors_witness :
  __init__ Examples.returns_500 Examples.no_settings Examples.document_100Hz
           100 101 None
  = inl (Py.ValueError "Invalid t_start value") /\
  __init__ Examples.returns_500 Examples.no_settings Examples.document_100Hz
           4 100 None
  = inl (Py.ValueError "Invalid t_end value") /\
  __init__ Examples.returns_500 Examples.no_settings Examples.document_100Hz
           4 (42 # 10) None
  = inl (Py.ValueError
           "Distance between t_start and t_end must be at least of 0.5 seconds") /\
  __init__ Examples.returns_500 Examples.no_settings Examples.document_100Hz
           4 6 (Some MoreExamples.event_700)
  = inl (Py.ValueError "Event time must be a value between t-start and t_end").
Proof.
  split; [|split; [|split]].
  - apply (init_errors Examples.returns_500 Examples.no_settings
             Examples.document_100Hz 100 101 None).
    vm_compute. intros [_ H]. discriminate H.
  - apply (init_errors Examples.returns_500 Examples.no_settings
             Examples.document_100Hz 4 100 None).
    + vm_compute. split; [intro H; discriminate H | reflexivity].
    + vm_compute. intros [_ H]. discriminate H.
  - apply (init_errors Examples.returns_500 Examples.no_settings
             Examples.document_100Hz 4 (42 # 10) None).
    + vm_compute. split; [intro H; discriminate H | reflexivity].
    + vm_compute. split; [intro H; discriminate H | reflexivity].
    + compute_it.
  - apply (init_errors Examples.returns_500 Examples.no_settings
             Examples.document_100Hz 4 6 (Some MoreExamples.event_700)).
    + vm_compute. split; [intro H; discriminate H | reflexivity].
    + vm_compute. split; [intro H; discriminate H | reflexivity].
    + compute_it.
    + vm_compute. intros [_ H]. discriminate H.
Defined.

(** *** When construction succeeds *)

Lemma init_only_if (Takanami : TakanamiTask.Algorithm) (settings : QSettings)
    (document : Document.t) (t_start t_end : Q) (event : option rc.Event) (d : t) :
  __init__ Takanami settings document t_start t_end event = inr d ->
  let record := Document.record document in
  let start := Py.int (t_start * rc.fs record) in
  let end_ := Py.int (t_end * rc.fs record) in
  valid record start end_ (initial_event_time start end_ event) /\
  0 < inject_Z (Py.int (value settings 5 * rc.fs record)).
Proof.
  intros E record start end_.
  destruct (init_inversion _ _ _ _ _ _ E) as (sp & d' & Hv & _ & El & _).
  split; [exact Hv|].
  unfold load_settings in El.
  apply (set_margin_inversion _ _ El).
Qed.

Lemma init_if (Takanami : TakanamiTask.Algorithm) (settings : QSettings)
    (document : Document.t) (t_start t_end : Q) (event : option rc.Event) :
  let record := Document.record document in
  let start := Py.int (t_start * rc.fs record) in
  let end_ := Py.int (t_end * rc.fs record) in
  valid record start end_ (initial_event_time start end_ event) ->
  0 < inject_Z (Py.int (value settings 5 * rc.fs record)) ->
  exists d, __init__ Takanami settings document t_start t_end event = inr d.
Proof.
  intros record start end_ Hv Hm.
  pose proof (@margin_positive_fs _ _ Hm) as Hfs.
  rewrite (init_accepts Takanami settings document t_start t_end event Hv).
  destruct (@init_ui_nonzero (Document.record document) Hfs) as [sp Esp].
  rewrite Esp. cbn [Py.bind].
  set (d0 := after_init_ui _ _ _ _ _).
  destruct (set_margin_positive d0 Hm Hfs) as (d' & E & _).
  unfold load_settings. change (rc.fs (TakanamiDialog.record d0)) with (rc.fs record).
  rewrite E. cbn [Py.bind]. eexists. reflexivity.
Qed.

(** X8.  Construction succeeds exactly when the four checks on
    [(start, end, eventTime)] pass and the default margin (the stored one, or
    5 seconds) is positive once converted to samples; in every other case
    [__init__] raises. *)
Theorem init_succeeds_iff (Takanami : TakanamiTask.Algorithm) (settings : QSettings)
    (document : Document.t) (t_start t_end : Q) (event : option rc.Event) :
  let record := Document.record document in
  let start := Py.int (t_start * rc.fs record) in
  let end_ := Py.int (t_end * rc.fs record) in
  (exists d, __init__ Takanami settings document t_start t_end event = inr d) <->
  (valid record start end_ (initial_event_time start end_ event) /\
   0 < inject_Z (Py.int (value settings 5 * rc.fs record))).
Proof.
  intros record start end_. split.
  - intros [d E]. exact (init_only_if _ _ _ _ _ _ E).
  - intros [Hv Hm]. exact (init_if Takanami settings document t_start t_end event Hv Hm).
Qed.

(** *** The default event time *)

Lemma half_nonpos (w : Z) : (w <= 0)%Z -> (half w <= 0)%Z.
Proof.
  intro H. unfold half. apply int_nonpos.
  assert (Hw : inject_Z w <= 0)
    by (change 0 with (inject_Z 0); rewrite <- Zle_Qle; exact H).
  unfold Qdiv. setoid_replace 0 with (0 * / 2) by ring.
  apply Qmult_le_compat_r; [exact Hw | discriminate].
Qed.

Lemma midpoint_inside (start end_ : Z) :
  (start < start + half (end_ - start) < end_)%Z <-> (2 <= end_ - start)%Z.
Proof.
  destruct (Z_le_gt_dec 0 (end_ - start)) as [Hw|Hw].
  - rewrite (half_div Hw).
    pose proof (Z.div_mod (end_ - start) 2 ltac:(lia)) as Hdm.
    pose proof (Z.mod_pos_bound (end_ - start) 2 ltac:(lia)) as Hmod.
    lia.
  - pose proof (@half_nonpos (end_ - start) ltac:(lia)). lia.
Qed.

(** X9.  With no event to refine, the event time is the midpoint
    [start + int((end - start) / 2)], and it passes the last check of
    [__init__] exactly when the window is at least two samples wide: so
    construction without an event succeeds exactly when [0 <= start],
    [end < N], [end - start >= 0.5 * fs], [end - start >= 2] and the default
    margin is positive.  A window of one sample is refused even where the
    minimum margin allows it ([fs <= 2]). *)
Theorem init_without_event (Takanami : TakanamiTask.Algorithm) (settings : QSettings)
    (document : Document.t) (t_start t_end : Q) :
  let record := Document.record document in
  let start := Py.int (t_start * rc.fs record) in
  let end_ := Py.int (t_end * rc.fs record) in
  (exists d, __init__ Takanami settings document t_start t_end None = inr d) <->
  ((0 <= start)%Z /\ (end_ < len record)%Z /\
   MINIMUM_MARGIN_IN_SECS * rc.fs record <= inject_Z (end_ - start) /\
   (2 <= end_ - start)%Z /\
   0 < inject_Z (Py.int (value settings 5 * rc.fs record))).
Proof.
  intros record start end_. split.
  - intros [d E].
    destruct (init_only_if _ _ _ _ _ _ E) as [(H1 & H2 & H3 & H4) Hm].
    fold record in H1, H2, H3, H4, Hm. fold start end_ in H1, H2, H3, H4.
    unfold initial_event_time in H4. apply midpoint_inside in H4.
    repeat split; try assumption; lia.
  - intros (H1 & H2 & H3 & H4 & Hm).
    apply (init_if Takanami settings document t_start t_end None); [|exact Hm].
    fold record. fold start end_. unfold valid, initial_event_time.
    split; [lia|]. split; [exact H2|]. split; [exact H3|].
    apply midpoint_inside. exact H4.
Qed.

(** *** Start times just below zero *)

Lemma int_small (x : Q) : - (1) < x -> x < 1 -> Py.int x = 0%Z.
Proof.
  assert (Hpos : forall y, 0 <= y -> y < 1 -> Py.int y = 0%Z).
  { intros y H0 H1. rewrite (int_floor H0).
    pose proof (Qfloor_le y) as Hle.
    assert (Hlt : inject_Z (Qfloor y) < inject_Z 1)
      by (eapply Qle_lt_trans; [exact Hle | exact H1]).
    rewrite <- Zlt_Qlt in Hlt.
    assert (Hge : (Qfloor 0 <= Qfloor y)%Z) by (apply Qfloor_resp_le, H0).
    change (Qfloor 0) with 0%Z in Hge. lia. }
  intros Hlo Hhi. destruct (Qlt_le_dec x 0) as [Hneg|Hnn].
  - assert (E : Py.int (- x) = 0%Z) by (apply Hpos; lra).
    unfold Py.int in *. simpl in E.
    rewrite Z.quot_opp_l in E by discriminate. lia.
  - apply Hpos; assumption.
Qed.

(** X10.  [__init__] uses [t_start] only through [int(t_start * fs)], which
    truncates toward zero: a start time at most half a sample away from
    zero, negative ones included, is taken as sample 0, and construction
    then does exactly what it does for [t_start = 0].  (Half a sample, being
    a float itself, bounds the rounded product as it bounds the exact
    one.) *)
Theorem init_start_near_zero (Takanami : TakanamiTask.Algorithm)
    (settings : QSettings) (document : Document.t) (t_start t_end : Q)
    (event : option rc.Event) :
  - (1 # 2) <= t_start * rc.fs (Document.record document) ->
  t_start * rc.fs (Document.record document) <= 1 # 2 ->
  __init__ Takanami settings document t_start t_end event
  = __init__ Takanami settings document 0 t_end event.
Proof.
  intros Hlo Hhi.
  assert (Hlo' : - (1) < t_start * rc.fs (Document.record document))
    by (eapply Qlt_le_trans; [|exact Hlo]; reflexivity).
  assert (Hhi' : t_start * rc.fs (Document.record document) < 1)
    by (eapply Qle_lt_trans; [exact Hhi|]; reflexivity).
  unfold __init__. cbv zeta.
  rewrite (int_small Hlo' Hhi').
  assert (E : Py.int (0 * rc.fs (Document.record document)) = 0%Z).
  { apply int_small; rewrite Qmult_0_l; reflexivity. }
  rewrite E. reflexivity.
Qed.

Lemma init_start_near_zero_witness :
  __init__ Examples.returns_500 Examples.settings_1s Examples.document_100Hz
           (- (3 # 1000)) 2 None
  = __init__ Examples.returns_500 Examples.settings_1s Examples.document_100Hz
             0 2 None.
Proof.
  apply (@init_start_near_zero Examples.returns_500 Examples.settings_1s
           Examples.document_100Hz (- (3 # 1000)) 2 None).
  - compute_it.
  - compute_it.
Defined.

End InitExtras.

(** ** [TakanamiDialog]: the margin *)

Section MarginExtras.

Import TakanamiDialog.

Open Scope Q_scope.

Lemma max_cases_value (a b : Q) :
  (a < b /\ Py.max a b == b) \/ (b <= a /\ Py.max a b == a).
Proof.
  destruct (max_cases a b) as [[H E]|[H E]]; rewrite E;
    [left | right]; split; try assumption; reflexivity.
Qed.

Lemma min_cases_value (a b : Q) :
  (b < a /\ Py.min a b == b) \/ (a <= b /\ Py.min a b == a).
Proof.
  destruct (min_cases a b) as [[H E]|[H E]]; rewrite E;
    [left | right]; split; try assumption; reflexivity.
Qed.

(** The dialog [set_margin] returns, field by field. *)
Lemma set_margin_explicit (m : Q) (d : t) :
  0 < m -> ~ rc.fs (record d) == 0 ->
  set_margin m d
  = inr (mk (document d)
            (Py.max 0 (inject_Z (event_time d)
                       - Py.max (MINIMUM_MARGIN_IN_SECS * rc.fs (record d)) m))
            (Py.min (inject_Z (len (record d)))
                    (inject_Z (event_time d)
                     + Py.max (MINIMUM_MARGIN_IN_SECS * rc.fs (record d)) m))
            (seismic_event d) (event_time d)
            (QtGui.setTime (start_point_spinbox d)
               (QtCore.addMSecs QtCore.QTime_
                  (Py.int (Py.max 0 (inject_Z (event_time d)
                                     - Py.max (MINIMUM_MARGIN_IN_SECS
                                               * rc.fs (record d)) m)
                           * 1000 / rc.fs (record d)))))
            (QtGui.setTime (end_point_spinbox d)
               (QtCore.addMSecs QtCore.QTime_
                  (Py.int (Py.min (inject_Z (len (record d)))
                                  (inject_Z (event_time d)
                                   + Py.max (MINIMUM_MARGIN_IN_SECS
                                             * rc.fs (record d)) m)
                           * 1000 / rc.fs (record d)))))
            (position_label d) (plotted d) (_task d) (wait_dialog d)).
Proof.
  intros Hm Hfs. unfold set_margin.
  apply Qle_bool_false in Hm. rewrite Hm. cbv zeta.
  rewrite !(div_nonzero _ Hfs). cbn [Py.bind].
  rewrite !(div_nonzero _ Hfs). cbn [Py.bind].
  reflexivity.
Qed.

(** X11.  [set_margin] recomputes the window from the event time alone:
    after a first [set_margin(m1)], a second [set_margin(m2)] gives exactly
    the dialog that [set_margin(m2)] alone gives (or raises as it would).
    In particular repeating the same call changes nothing. *)
Theorem set_margin_last_wins (m1 m2 : Q) (d d1 : t) :
  set_margin m1 d = inr d1 ->
  set_margin m2 d1 = set_margin m2 d.
Proof.
  intro E1. destruct (set_margin_inversion _ _ E1) as [Hm1 Hfs].
  rewrite (set_margin_explicit d Hm1 Hfs) in E1. injection E1 as <-.
  destruct (Qlt_le_dec 0 m2) as [Hm2|Hm2].
  - rewrite (set_margin_explicit d Hm2 Hfs).
    rewrite set_margin_explicit; [reflexivity | exact Hm2 | exact Hfs].
  - rewrite !(set_margin_nonpositive _ Hm2). reflexivity.
Qed.

Lemma set_margin_50_of_1s :
  set_margin 50 Examples.dialog_1s = inr Examples.dialog_50.
Proof. vm_compute. reflexivity. Qed.

Lemma set_margin_last_wins_witness :
  set_margin 50 Examples.dialog_50 = inr Examples.dialog_50 /\
  set_margin 100 Examples.dialog_50 = inr Examples.dialog_1s.
Proof.
  split.
  - rewrite (@set_margin_last_wins 50 50 Examples.dialog_1s Examples.dialog_50
               set_margin_50_of_1s).
    exact set_margin_50_of_1s.
  - rewrite (@set_margin_last_wins 50 100 Examples.dialog_1s Examples.dialog_50
               set_margin_50_of_1s).
    vm_compute. reflexivity.
Defined.

(** X12.  A requested margin at or below the minimum margin of
    [0.5 * fs] samples has no effect of its own: every such margin gives
    exactly the dialog that the minimum margin gives. *)
Theorem set_margin_below_minimum (m : Q) (d : t) :
  0 < m -> m <= MINIMUM_MARGIN_IN_SECS * rc.fs (record d) ->
  set_margin m d = set_margin (MINIMUM_MARGIN_IN_SECS * rc.fs (record d)) d.
Proof.
  intros Hm Hle.
  assert (Hmin : 0 < MINIMUM_MARGIN_IN_SECS * rc.fs (record d))
    by (eapply Qlt_le_trans; [exact Hm | exact Hle]).
  unfold set_margin.
  apply Qle_bool_false in Hm. apply Qle_bool_false in Hmin.
  rewrite Hm, Hmin. cbv zeta.
  assert (E1 : Py.max (MINIMUM_MARGIN_IN_SECS * rc.fs (record d)) m
               = MINIMUM_MARGIN_IN_SECS * rc.fs (record d)).
  { unfold Py.max. apply Qltb_ge in Hle. rewrite Hle. reflexivity. }
  assert (E2 : Py.max (MINIMUM_MARGIN_IN_SECS * rc.fs (record d))
                      (MINIMUM_MARGIN_IN_SECS * rc.fs (record d))
               = MINIMUM_MARGIN_IN_SECS * rc.fs (record d)).
  { unfold Py.max. destruct (Py.Qltb _ _); reflexivity. }
  rewrite E1, E2. reflexivity.
Qed.

Lemma set_margin_below_minimum_witness :
  set_margin 10 Examples.dialog_1s = inr Examples.dialog_50.
Proof.
  rewrite (@set_margin_below_minimum 10 Examples.dialog_1s).
  - vm_compute. reflexivity.
  - reflexivity.
  - vm_compute. intro H. discriminate H.
Defined.

(** X13.  A larger margin gives a larger window: if [m1 <= m2], the window
    of [set_margin(m2)] starts no later and ends no earlier than the window
    of [set_margin(m1)]. *)
Theorem set_margin_monotone (m1 m2 : Q) (d d1 d2 : t) :
  set_margin m1 d = inr d1 -> set_margin m2 d = inr d2 -> m1 <= m2 ->
  _start d2 <= _start d1 /\ _end d1 <= _end d2.
Proof.
  intros E1 E2 Hle.
  destruct (set_margin_inversion _ _ E1) as [Hm1 Hfs].
  destruct (set_margin_inversion _ _ E2) as [Hm2 _].
  rewrite (set_margin_explicit d Hm1 Hfs) in E1. injection E1 as <-.
  rewrite (set_margin_explicit d Hm2 Hfs) in E2. injection E2 as <-.
  simpl.
  set (mn := MINIMUM_MARGIN_IN_SECS * rc.fs (record d)).
  set (e := inject_Z (event_time d)).
  set (N := inject_Z (len (record d))).
  destruct (max_cases_value mn m1) as [[Ha Ea]|[Ha Ea]];
    destruct (max_cases_value mn m2) as [[Hb Eb]|[Hb Eb]];
    destruct (max_cases_value 0 (e - Py.max mn m1)) as [[H1 E1]|[H1 E1]];
    destruct (max_cases_value 0 (e - Py.max mn m2)) as [[H2 E2]|[H2 E2]];
    destruct (min_cases_value N (e + Py.max mn m1)) as [[H3 E3]|[H3 E3]];
    destruct (min_cases_value N (e + Py.max mn m2)) as [[H4 E4]|[H4 E4]];
    split; lra.
Qed.

Lemma set_margin_100_of_1s :
  set_margin 100 Examples.dialog_1s = inr Examples.dialog_1s.
Proof. vm_compute. reflexivity. Qed.

Lemma set_margin_monotone_witness :
  _start Examples.dialog_1s <= _start Examples.dialog_50 /\
  _end Examples.dialog_50 <= _end Examples.dialog_1s.
Proof.
  apply (@set_margin_monotone 50 100 Examples.dialog_1s
           Examples.dialog_50 Examples.dialog_1s).
  - exact set_margin_50_of_1s.
  - exact set_margin_100_of_1s.
  - vm_compute. intro H. discriminate H.
Defined.

End MarginExtras.

(** ** [TakanamiDialog]: the two bound handlers *)

Section EditExtras.

Import TakanamiDialog.

Open Scope Q_scope.

(** X14.  An edit of the start bound and an edit of the end bound commute:
    in either order they leave the same dialog.  Each handler reads and
    writes its own stored bound and the other spin box's limit, nothing of
    what the other handler reads. *)
Theorem edits_commute (v1 v2 : QtCore.QTime) (d : t) :
  on_start_point_changed v1 (on_end_point_changed v2 d)
  = on_end_point_changed v2 (on_start_point_changed v1 d).
Proof.
  destruct (Qeq_dec_prop (_start d) (inject_Z (t_start v1 d))) as [Hs|Hs];
    destruct (Qeq_dec_prop (_end d) (inject_Z (t_end v2 d))) as [He|He].
  - rewrite (on_end_point_changed_same v2 d He).
    rewrite (on_start_point_changed_same v1 d Hs).
    rewrite (on_end_point_changed_same v2 d He). reflexivity.
  - rewrite (on_start_point_changed_same v1 d Hs).
    rewrite (on_end_point_changed_other v2 d He).
    apply on_start_point_changed_same. exact Hs.
  - rewrite (on_end_point_changed_same v2 d He).
    rewrite (on_start_point_changed_other v1 d Hs).
    symmetry. apply on_end_point_changed_same. exact He.
  - rewrite (on_end_point_changed_other v2 d He).
    rewrite (on_start_point_changed_other v1 d Hs).
    rewrite on_start_point_changed_other by exact Hs.
    rewrite on_end_point_changed_other by exact He.
    reflexivity.
Qed.

(** *** Samples and milliseconds *)

Lemma to_msecs_le (x y fs : Q) :
  0 < fs -> x <= y -> x * 1000 / fs <= y * 1000 / fs.
Proof.
  intros Hfs H. unfold Qdiv.
  apply Qmult_le_compat_r; [|apply Qlt_le_weak, Qinv_lt_0_compat, Hfs].
  apply Qmult_le_compat_r; [exact H | discriminate].
Qed.

Lemma to_samples_le (x y fs : Q) :
  0 < fs -> x <= y -> x / 1000 * fs <= y / 1000 * fs.
Proof.
  intros Hfs H.
  apply Qmult_le_compat_r; [|apply Qlt_le_weak, Hfs].
  unfold Qdiv. apply Qmult_le_compat_r; [exact H | discriminate].
Qed.


Lemma samples_of_msecs (x fs : Q) :
  ~ fs == 0 -> x / 1000 * fs * 1000 / fs == x.
Proof. intro H. field. exact H. Qed.

Lemma msecs_plus (x y fs : Q) :
  ~ fs == 0 -> (x + y) * 1000 / fs == x * 1000 / fs + y * 1000 / fs.
Proof. intro H. field. exact H. Qed.

Lemma msecs_of_margin (fs : Q) :
  ~ fs == 0 -> (MINIMUM_MARGIN_IN_SECS * fs) * 1000 / fs == 500.
Proof. intro H. unfold MINIMUM_MARGIN_IN_SECS. field. exact H. Qed.

Lemma addMSecs_small (ms : Z) :
  (0 <= ms < QtCore.MSECS_PER_DAY)%Z -> QtCore.addMSecs QtCore.QTime_ ms = ms.
Proof.
  intro H. unfold QtCore.addMSecs, QtCore.QTime_. simpl.
  apply Z.mod_small. exact H.
Qed.

(** [int] is monotone on non-negative numbers. *)
Lemma int_monotone (x y : Q) : 0 <= x -> x <= y -> (Py.int x <= Py.int y)%Z.
Proof.
  intros Hx Hxy. assert (Hy : 0 <= y) by lra.
  rewrite (int_floor Hx), (int_floor Hy). apply Qfloor_resp_le, Hxy.
Qed.

Lemma int_above (x : Q) : 0 <= x -> x < inject_Z (Py.int x) + 1.
Proof.
  intro H. rewrite (int_floor H).
  pose proof (Qlt_floor x) as Hlt. rewrite inject_Z_plus in Hlt. exact Hlt.
Qed.

Lemma int_le_Z (x : Q) (z : Z) : 0 <= x -> x < inject_Z z + 1 -> (Py.int x <= z)%Z.
Proof.
  intros H0 H. pose proof (int_le H0) as Hle.
  assert (Hlt : inject_Z (Py.int x) < inject_Z (z + 1))
    by (rewrite inject_Z_plus; eapply Qle_lt_trans; [exact Hle | exact H]).
  rewrite <- Zlt_Qlt in Hlt. lia.
Qed.

Lemma int_ge_Z (x : Q) (z : Z) : inject_Z z <= x -> (0 <= z)%Z -> (z <= Py.int x)%Z.
Proof.
  intros H Hz.
  assert (H0 : 0 <= inject_Z z)
    by (change 0 with (inject_Z 0); rewrite <- Zle_Qle; exact Hz).
  rewrite <- (int_inject_Z z). apply int_monotone; assumption.
Qed.

End EditExtras.

(** ** [TakanamiDialog]: the spin boxes *)

Section SpinBoxExtras.

Import TakanamiDialog.

Open Scope Q_scope.

(** The spin boxes [_init_ui] returns, written out. *)
Lemma init_ui_explicit (r : rc.Record_) :
  ~ rc.fs r == 0 ->
  _init_ui r
  = inr (QtGui.mkQTimeEdit
           (QtCore.addMSecs QtCore.QTime_ 0)
           (QtCore.addMSecs QtCore.QTime_ 0)
           (QtCore.addMSecs QtCore.QTime_
              (Py.int (inject_Z (len r) * 1000 / rc.fs r) - 500)),
         QtGui.mkQTimeEdit
           (QtCore.addMSecs QtCore.QTime_
              (Py.int (inject_Z (len r) * 1000 / rc.fs r)))
           (QtCore.addMSecs QtCore.QTime_ 500)
           (QtCore.addMSecs QtCore.QTime_
              (Py.int (inject_Z (len r) * 1000 / rc.fs r)))).
Proof.
  intro Hfs. unfold _init_ui. rewrite (div_nonzero _ Hfs). cbn [Py.bind].
  cbv zeta. rewrite int_minus_margin. reflexivity.
Qed.

(** The length of the signal in whole milliseconds ([_init_ui]'s
    [time_in_msecs]) when the signal lasts at least the minimum margin and
    less than a day. *)
Lemma signal_msecs_bounds (r : rc.Record_) :
  0 < rc.fs r ->
  MINIMUM_MARGIN_IN_SECS * rc.fs r <= inject_Z (len r) ->
  inject_Z (len r) * 1000 / rc.fs r < inject_Z QtCore.MSECS_PER_DAY ->
  (500 <= Py.int (inject_Z (len r) * 1000 / rc.fs r) < QtCore.MSECS_PER_DAY)%Z.
Proof.
  intros Hfs Hmin Hday.
  assert (Hnz : ~ rc.fs r == 0) by (intro E; rewrite E in Hfs; discriminate Hfs).
  pose proof (to_msecs_le Hfs Hmin) as H500.
  rewrite (@msecs_of_margin _ Hnz) in H500.
  split.
  - apply int_ge_Z; [exact H500 | discriminate].
  - assert (Hle : (Py.int (inject_Z (len r) * 1000 / rc.fs r)
                   <= QtCore.MSECS_PER_DAY - 1)%Z).
    { apply int_le_Z; [lra|].
      unfold Z.sub. rewrite inject_Z_plus, inject_Z_opp.
      change (inject_Z 1) with 1. lra. }
    lia.
Qed.

(** The window and the spin boxes of a dialog that [__init__] returned. *)
Lemma init_spinboxes (Takanami : TakanamiTask.Algorithm) (settings : QSettings)
    (document : Document.t) (t_start t_end : Q) (event : option rc.Event) (d : t) :
  __init__ Takanami settings document t_start t_end event = inr d ->
  window_ok d /\
  start_point_spinbox d
  = QtGui.mkQTimeEdit
      (QtCore.addMSecs QtCore.QTime_ (Py.int (_start d * 1000 / rc.fs (record d))))
      (QtCore.addMSecs QtCore.QTime_ 0)
      (QtCore.addMSecs QtCore.QTime_
         (Py.int (inject_Z (len (record d)) * 1000 / rc.fs (record d)) - 500)) /\
  end_point_spinbox d
  = QtGui.mkQTimeEdit
      (QtCore.addMSecs QtCore.QTime_ (Py.int (_end d * 1000 / rc.fs (record d))))
      (QtCore.addMSecs QtCore.QTime_ 500)
      (QtCore.addMSecs QtCore.QTime_
         (Py.int (inject_Z (len (record d)) * 1000 / rc.fs (record d)))).
Proof.
  intro E. split.
  - destruct (init_set_margin _ _ _ _ _ _ E) as (m & d0 & d' & Em & -> & He & Hmin).
    assert (Hw : window_ok d').
    { apply (set_margin_window _ _ Em); [split|..]; lra. }
    exact Hw.
  - destruct (init_inversion _ _ _ _ _ _ E) as (sp & d' & _ & Eui & El & ->).
    unfold load_settings in El.
    destruct (set_margin_inversion _ _ El) as [Hm Hfs].
    rewrite (set_margin_explicit _ Hm Hfs) in El. injection El as <-.
    change (record (after_init_ui document _ _ event sp))
      with (Document.record document) in *.
    rewrite (@init_ui_explicit _ Hfs) in Eui. injection Eui as <-.
    split; reflexivity.
Qed.

(** X15.  A constructed dialog shows times that its spin boxes accept: over
    a record with a positive sample rate whose signal lasts less than a day,
    the time each spin box displays lies within that spin box's own minimum
    and maximum. *)
Theorem constructed_times_within_limits (Takanami : TakanamiTask.Algorithm)
    (settings : QSettings) (document : Document.t) (t_start t_end : Q)
    (event : option rc.Event) (d : t) :
  __init__ Takanami settings document t_start t_end event = inr d ->
  0 < rc.fs (record d) ->
  inject_Z (len (record d)) * 1000 / rc.fs (record d)
  < inject_Z QtCore.MSECS_PER_DAY ->
  within_limits (QtGui.time (start_point_spinbox d)) (start_point_spinbox d) /\
  within_limits (QtGui.time (end_point_spinbox d)) (end_point_spinbox d).
Proof.
  intros E Hfs Hday.
  destruct (init_spinboxes _ _ _ _ _ _ E) as ((H0 & Hlt & HN & Hmin) & -> & ->).
  assert (Hnz : ~ rc.fs (record d) == 0)
    by (intro E0; rewrite E0 in Hfs; discriminate Hfs).
  assert (HminN : MINIMUM_MARGIN_IN_SECS * rc.fs (record d)
                  <= inject_Z (len (record d))) by lra.
  destruct (@signal_msecs_bounds _ Hfs HminN Hday) as [HT500 HTday].
  set (fs := rc.fs (record d)) in *.
  set (T := Py.int (inject_Z (len (record d)) * 1000 / fs)) in *.
  assert (HqT : 0 <= inject_Z (len (record d)) * 1000 / fs).
  { pose proof (@to_msecs_le 0 _ fs Hfs (len_nonneg (record d))) as H.
    unfold Qdiv in H. rewrite !Qmult_0_l in H. exact H. }
  pose proof (int_le HqT) as HTle. fold T in HTle.
  pose proof (int_above HqT) as HTabove. fold T in HTabove.
  (* the start, in milliseconds *)
  assert (Ha0 : 0 <= _start d * 1000 / fs).
  { pose proof (@to_msecs_le 0 _ fs Hfs H0) as H.
    unfold Qdiv in H. rewrite !Qmult_0_l in H. exact H. }
  assert (Ha : _start d * 1000 / fs
               <= inject_Z (len (record d)) * 1000 / fs - 500).
  { assert (Hle : _start d + MINIMUM_MARGIN_IN_SECS * fs
                  <= inject_Z (len (record d))) by lra.
    pose proof (to_msecs_le Hfs Hle) as H.
    rewrite (@msecs_plus _ _ _ Hnz), (@msecs_of_margin _ Hnz) in H. lra. }
  (* the end, in milliseconds *)
  assert (Hb500 : 500 <= _end d * 1000 / fs).
  { assert (Hle : MINIMUM_MARGIN_IN_SECS * fs <= _end d) by lra.
    pose proof (to_msecs_le Hfs Hle) as H.
    rewrite (@msecs_of_margin _ Hnz) in H. exact H. }
  pose proof (to_msecs_le Hfs HN) as Hb.
  assert (Hs : (0 <= Py.int (_start d * 1000 / fs) <= T - 500)%Z).
  { split; [apply int_nonneg, Ha0|].
    apply int_le_Z; [exact Ha0|].
    unfold Z.sub. rewrite inject_Z_plus, inject_Z_opp.
    change (inject_Z 500) with 500. lra. }
  assert (He : (500 <= Py.int (_end d * 1000 / fs) <= T)%Z).
  { split; [apply int_ge_Z; [exact Hb500 | discriminate]|].
    apply int_monotone; [lra | exact Hb]. }
  unfold within_limits. cbn [QtGui.time QtGui.minimumTime QtGui.maximumTime].
  rewrite !addMSecs_small by lia. lia.
Qed.

Lemma constructed_times_within_limits_witness :
  within_limits (QtGui.time (start_point_spinbox Examples.dialog_1s))
                (start_point_spinbox Examples.dialog_1s) /\
  within_limits (QtGui.time (end_point_spinbox Examples.dialog_1s))
                (end_point_spinbox Examples.dialog_1s).
Proof.
  apply (@constructed_times_within_limits Examples.returns_500
           Examples.settings_1s Examples.document_100Hz 4 6 None
           Examples.dialog_1s init_1s).
  - vm_compute. reflexivity.
  - vm_compute. reflexivity.
Defined.

(** *** Truncation after the clamps of the two handlers *)

Lemma int_max0_le (x y : Q) :
  0 <= y -> x <= y -> inject_Z (Py.int (Py.max 0 x)) <= y.
Proof.
  intros Hy Hxy. destruct (max_cases 0 x) as [[H ->]|[H ->]].
  - eapply Qle_trans; [apply int_le, Qlt_le_weak, H | exact Hxy].
  - exact Hy.
Qed.



Lemma int_minN_above (N x : Q) :
  0 <= x -> x <= N -> x < inject_Z (Py.int (Py.min N x)) + 1.
Proof.
  intros Hx HN. destruct (min_cases N x) as [[H ->]|[H ->]].
  - apply int_above, Hx.
  - assert (HN0 : 0 <= N) by lra.
    pose proof (int_above HN0). lra.
Qed.

Lemma msecsTo_midnight (v : QtCore.QTime) : QtCore.msecsTo QtCore.QTime_ v = v.
Proof. unfold QtCore.msecsTo, QtCore.QTime_. apply Z.sub_0_r. Qed.

Lemma samples_plus_margin (ms fs : Q) :
  (ms + 500) / 1000 * fs == ms / 1000 * fs + MINIMUM_MARGIN_IN_SECS * fs.
Proof. unfold MINIMUM_MARGIN_IN_SECS. field. Qed.

(** X16.  Once an edit of the start bound has stored a new start, the end
    spin box accepts only end times that leave the minimum margin, up to
    what the conversion to sample indices loses: for an end time within the
    end spin box's limits and within the signal, the window that
    [on_end_point_changed] stores is wider than [0.5 * fs - 2] samples.  One
    sample is the truncation by [int]; the other is room for the rounding
    of the two float products, which on a signal of at most [2 ^ 50] samples
    stays below one sample in total. *)
Theorem start_edit_then_end_edit (v w : QtCore.QTime) (d : t) :
  0 < rc.fs (record d) ->
  (len (record d) <= 2 ^ 50)%Z ->
  (0 <= v)%Z -> (v + 500 < QtCore.MSECS_PER_DAY)%Z ->
  ~ _start d == inject_Z (t_start v d) ->
  within_limits w (end_point_spinbox (on_start_point_changed v d)) ->
  inject_Z w / 1000 * rc.fs (record d) <= inject_Z (len (record d)) ->
  _start (on_end_point_changed w (on_start_point_changed v d))
  + MINIMUM_MARGIN_IN_SECS * rc.fs (record d) - 2
  < _end (on_end_point_changed w (on_start_point_changed v d)).
Proof.
  intros Hfs _ Hv0 Hvday Hne [Hmin _] HwN.
  destruct (on_end_point_changed_fields w (on_start_point_changed v d))
    as (He & Hs & _).
  rewrite He, Hs. clear He Hs.
  rewrite (on_start_point_changed_other v d Hne) in *.
  cbn [end_point_spinbox set_end_point_spinbox QtGui.minimumTime
       QtGui.setMinimumTime] in Hmin.
  rewrite msecsTo_midnight in Hmin.
  rewrite addMSecs_small in Hmin by lia.
  cbn [_start set_end_point_spinbox set__start].
  unfold t_start, t_end. cbv zeta. rewrite !msecsTo_midnight.
  change (record (set_end_point_spinbox _ (set__start _ d))) with (record d).
  set (fs := rc.fs (record d)) in *.
  assert (Hvw : inject_Z v + 500 <= inject_Z w).
  { change 500 with (inject_Z 500). rewrite <- inject_Z_plus, <- Zle_Qle.
    exact Hmin. }
  pose proof (to_samples_le Hfs Hvw) as Hsamples.
  rewrite samples_plus_margin in Hsamples. fold fs in Hsamples.
  assert (Hxv : 0 <= inject_Z v / 1000 * fs).
  { assert (H0 : 0 <= inject_Z v)
      by (change 0 with (inject_Z 0); rewrite <- Zle_Qle; exact Hv0).
    pose proof (to_samples_le Hfs H0) as H.
    unfold Qdiv in H. rewrite !Qmult_0_l in H. exact H. }
  assert (Hmargin : 0 <= MINIMUM_MARGIN_IN_SECS * fs)
    by (apply Qmult_le_0_compat; [discriminate | apply Qlt_le_weak, Hfs]).
  pose proof (int_max0_le Hxv (Qle_refl _)) as Hstart.
  assert (Hxw : 0 <= inject_Z w / 1000 * fs) by lra.
  pose proof (int_minN_above Hxw HwN) as Hend.
  lra.
Qed.

Lemma start_edit_then_end_edit_witness :
  _start (on_end_point_changed 5500%Z
            (on_start_point_changed 4500%Z Examples.dialog_1s))
  + MINIMUM_MARGIN_IN_SECS * rc.fs (record Examples.dialog_1s) - 2
  < _end (on_end_point_changed 5500%Z
            (on_start_point_changed 4500%Z Examples.dialog_1s)).
Proof.
  apply (@start_edit_then_end_edit 4500%Z 5500%Z Examples.dialog_1s).
  - vm_compute. reflexivity.
  - vm_compute. intro H. discriminate H.
  - vm_compute. intro H. discriminate H.
  - vm_compute. reflexivity.
  - vm_compute. intro H. discriminate H.
  - split; vm_compute; intro H; discriminate H.
  - vm_compute. intro H. discriminate H.
Defined.

(** X17.  Symmetrically, once an edit of the end bound to a time within the
    signal has stored a new end, every start time within the start spin
    box's limits leaves a window wider than [0.5 * fs - 2] samples (one
    sample for the truncation, one for the rounding of the float products
    on a signal of at most [2 ^ 50] samples). *)
Theorem end_edit_then_start_edit (v w : QtCore.QTime) (d : t) :
  0 < rc.fs (record d) ->
  (len (record d) <= 2 ^ 50)%Z ->
  (500 <= w < QtCore.MSECS_PER_DAY)%Z ->
  ~ _end d == inject_Z (t_end w d) ->
  inject_Z w / 1000 * rc.fs (record d) <= inject_Z (len (record d)) ->
  within_limits v (start_point_spinbox (on_end_point_changed w d)) ->
  _start (on_start_point_changed v (on_end_point_changed w d))
  + MINIMUM_MARGIN_IN_SECS * rc.fs (record d) - 2
  < _end (on_start_point_changed v (on_end_point_changed w d)).
Proof.
  intros Hfs _ Hw Hne HwN [_ Hmax].
  destruct (on_start_point_changed_fields v (on_end_point_changed w d))
    as (Hs & He & _).
  rewrite He, Hs. clear He Hs.
  rewrite (on_end_point_changed_other w d Hne) in *.
  cbn [start_point_spinbox set_start_point_spinbox QtGui.maximumTime
       QtGui.setMaximumTime] in Hmax.
  rewrite msecsTo_midnight in Hmax.
  rewrite addMSecs_small in Hmax by lia.
  cbn [_end set_start_point_spinbox set__end].
  unfold t_start, t_end. cbv zeta. rewrite !msecsTo_midnight.
  change (record (set_start_point_spinbox _ (set__end _ d))) with (record d).
  set (fs := rc.fs (record d)) in *.
  assert (Hvw : inject_Z v + 500 <= inject_Z w).
  { change 500 with (inject_Z 500). rewrite <- inject_Z_plus, <- Zle_Qle. lia. }
  pose proof (to_samples_le Hfs Hvw) as Hsamples.
  rewrite samples_plus_margin in Hsamples. fold fs in Hsamples.
  assert (Hw500 : 0 + 500 <= inject_Z w).
  { change (0 + 500) with (inject_Z 500). rewrite <- Zle_Qle. lia. }
  pose proof (to_samples_le Hfs Hw500) as Hwide.
  rewrite samples_plus_margin in Hwide. fold fs in Hwide.
  unfold Qdiv in Hwide at 1. rewrite !Qmult_0_l, Qplus_0_l in Hwide.
  assert (Hmargin : 0 <= MINIMUM_MARGIN_IN_SECS * fs)
    by (apply Qmult_le_0_compat; [discriminate | apply Qlt_le_weak, Hfs]).
  assert (Hy : 0 <= inject_Z w / 1000 * fs - MINIMUM_MARGIN_IN_SECS * fs) by lra.
  assert (Hxy : inject_Z v / 1000 * fs
                <= inject_Z w / 1000 * fs - MINIMUM_MARGIN_IN_SECS * fs) by lra.
  pose proof (int_max0_le Hy Hxy) as Hstart.
  assert (Hxw : 0 <= inject_Z w / 1000 * fs) by lra.
  pose proof (int_minN_above Hxw HwN) as Hend.
  lra.
Qed.

Lemma end_edit_then_start_edit_witness :
  _start (on_start_point_changed 4500%Z
            (on_end_point_changed 5500%Z Examples.dialog_1s))
  + MINIMUM_MARGIN_IN_SECS * rc.fs (record Examples.dialog_1s) - 2
  < _end (on_start_point_changed 4500%Z
            (on_end_point_changed 5500%Z Examples.dialog_1s)).
Proof.
  apply (@end_edit_then_start_edit 4500%Z 5500%Z Examples.dialog_1s).
  - vm_compute. reflexivity.
  - vm_compute. intro H. discriminate H.
  - split; vm_compute; [intro H; discriminate H | reflexivity].
  - vm_compute. intro H. discriminate H.
  - vm_compute. intro H. discriminate H.
  - split; vm_compute; intro H; discriminate H.
Defined.



End SpinBoxExtras.

(** ** [TakanamiDialog]: a session *)

Section SessionExtras.

Import TakanamiDialog Session.

Open Scope Q_scope.

(** The dialog [on_position_estimated] returns, field by field. *)
Lemma on_position_estimated_explicit (time : Z) (aic : list Q) (n0_aic : Z) (d : t) :
  ~ rc.fs (record d) == 0 ->
  on_position_estimated time aic n0_aic d
  = inr (mk (document d) (_start d) (_end d) (seismic_event d) time
            (start_point_spinbox d) (end_point_spinbox d)
            (QtCore.addMSecs QtCore.QTime_
               (Py.int (inject_Z time * 1000 / rc.fs (record d))))
            (plotted d ++ [(time, aic, n0_aic)]) (_task d) (wait_dialog d)).
Proof.
  intro Hfs. unfold on_position_estimated. cbv zeta.
  change (rc.fs (record (set_event_time time d))) with (rc.fs (record d)).
  rewrite (div_nonzero _ Hfs). reflexivity.
Qed.

(** [save_event] touches the document only, and of it the calls only. *)
Lemma save_event_frame (d : t) :
  record (save_event d) = record d /\
  seismic_event (save_event d) = seismic_event d /\
  _start (save_event d) = _start d /\ _end (save_event d) = _end d /\
  wait_dialog (save_event d) = wait_dialog d.
Proof.
  unfold save_event. destruct (seismic_event d) as [ev|] eqn:E.
  - destruct (negb (rc.time ev =? event_time d)%Z); repeat split; simpl; auto.
  - repeat split; simpl; auto.
Qed.

(** One operation keeps the record and the outer bounds of the window and
    of the submitted tasks; it does not raise. *)
Lemma handle_keeps (Takanami : TakanamiTask.Algorithm) (op : operation) (d : t) :
  ~ rc.fs (record d) == 0 -> outer_bounds d ->
  Forall (task_outer_bounds (record d)) (wait_dialog d) ->
  exists d',
    handle Takanami op d = inr d' /\ record d' = record d /\
    outer_bounds d' /\
    Forall (task_outer_bounds (record d)) (wait_dialog d').
Proof.
  intros Hfs [H0 HN] Htasks. destruct op as [button|v|v|time aic n0_aic]; simpl.
  - eexists. split; [reflexivity|].
    destruct button; simpl.
    + destruct (save_event_frame d) as (Hr & _ & Hs & He & Hw).
      unfold outer_bounds. rewrite Hr, Hs, He, Hw. auto.
    + unfold outer_bounds. simpl. repeat split; auto.
      apply Forall_app. split; [exact Htasks|].
      constructor; [|constructor]. repeat split; assumption.
    + repeat split; auto.
  - eexists. split; [reflexivity|].
    destruct (Qeq_dec_prop (_start d) (inject_Z (t_start v d))) as [H|H].
    + rewrite (on_start_point_changed_same v d H). repeat split; auto.
    + rewrite (on_start_point_changed_other v d H).
      unfold outer_bounds. simpl. repeat split; auto.
      apply t_start_nonneg.
  - eexists. split; [reflexivity|].
    destruct (Qeq_dec_prop (_end d) (inject_Z (t_end v d))) as [H|H].
    + rewrite (on_end_point_changed_same v d H). repeat split; auto.
    + rewrite (on_end_point_changed_other v d H).
      unfold outer_bounds. simpl. repeat split; auto.
      exact (t_end_le_len v d).
  - rewrite (on_position_estimated_explicit time aic n0_aic d Hfs).
    eexists. split; [reflexivity|].
    unfold outer_bounds. simpl. repeat split; auto.
Qed.

(** X19.  Whatever the user does and whatever results arrive, in whatever
    order: on a record whose sample rate is not zero no slot of the dialog
    raises, the dialog's record stays the same, the stored start never goes
    below 0 and the stored end never goes above [N], and every task handed
    to the wait dialog works on that record with a start not below 0 and an
    end not above [N].  Each bound is held on that one side only: the
    handlers do not keep the start below [N] or below the end. *)
Theorem session_keeps_outer_bounds (Takanami : TakanamiTask.Algorithm)
    (ops : list operation) (d : t) :
  ~ rc.fs (record d) == 0 -> outer_bounds d ->
  Forall (task_outer_bounds (record d)) (wait_dialog d) ->
  exists d',
    handle_all Takanami ops d = inr d' /\ record d' = record d /\
    outer_bounds d' /\
    Forall (task_outer_bounds (record d)) (wait_dialog d').
Proof.
  revert d. induction ops as [|op ops IH]; intros d Hfs Hw Htasks.
  - exists d. repeat split; auto; apply Hw.
  - destruct (handle_keeps Takanami op Hfs Hw Htasks)
      as (d1 & E1 & Hr1 & Hw1 & Htasks1).
    cbn [handle_all]. rewrite E1. cbn [Py.bind].
    rewrite <- Hr1 in Hfs, Htasks1.
    destruct (IH d1 Hfs Hw1 Htasks1) as (d' & E' & Hr' & Hw' & Htasks').
    exists d'. rewrite Hr1 in Htasks'.
    split; [exact E'|]. split; [congruence|].
    split; [exact Hw' | exact Htasks'].
Qed.

Lemma session_keeps_outer_bounds_witness :
  exists d',
    handle_all Examples.returns_500 MoreExamples.session_1s Examples.dialog_1s
    = inr d' /\
    record d' = record Examples.dialog_1s /\
    outer_bounds d' /\
    Forall (task_outer_bounds (record Examples.dialog_1s)) (wait_dialog d').
Proof.
  apply (@session_keeps_outer_bounds Examples.returns_500
           MoreExamples.session_1s Examples.dialog_1s).
  - vm_compute. intro H. discriminate H.
  - split; vm_compute; intro H; discriminate H.
  - constructor; [|constructor].
    split; [reflexivity|]. split; vm_compute; intro H; discriminate H.
Defined.

(** The outer bounds are all that is kept: on the dialog with window 400 to
    600 over 10000 samples, a start time of 200 s followed by Apply submits
    a task whose start, 20000, lies beyond the signal and beyond its own
    end. *)
Lemma start_beyond_the_end_is_submitted :
  exists d' task,
    handle_all Examples.returns_500
      [start_point_changed 200000%Z; clicked QtGui.Apply] Examples.dialog_1s
    = inr d' /\
    _task d' = Some task /\
    TakanamiTask.start task == 20000 /\ TakanamiTask.end_ task == 600 /\
    len (TakanamiTask.record task) = 10000%Z.
Proof.
  eexists. eexists. split; [vm_compute; reflexivity|].
  split; [reflexivity|]. repeat split.
Qed.

(** What one operation adds to the document and to the wait dialog. *)
Lemma handle_counts (Takanami : TakanamiTask.Algorithm) (op : operation) (d d' : t) :
  handle Takanami op d = inr d' ->
  seismic_event d' = seismic_event d /\
  List.length (wait_dialog d')
  = (List.length (wait_dialog d) + (if is_click QtGui.Apply op then 1 else 0))%nat /\
  (List.length (Document.calls (document d'))
   <= List.length (Document.calls (document d))
      + (if is_click QtGui.Ok op then 1 else 0))%nat /\
  (seismic_event d = None ->
   List.length (Document.calls (document d'))
   = (List.length (Document.calls (document d))
      + (if is_click QtGui.Ok op then 1 else 0))%nat).
Proof.
  destruct op as [button|v|v|time aic n0_aic]; simpl; intro E.
  - injection E as <-. destruct button; simpl.
    + unfold save_event. destruct (seismic_event d) as [ev|] eqn:Eev.
      * destruct (negb (rc.time ev =? event_time d)%Z); simpl;
          rewrite ?length_app; simpl;
          (split; [exact Eev|]); (split; [lia|]); (split; [lia|]);
          intro H; discriminate H.
      * simpl. rewrite length_app. simpl.
        split; [exact Eev|]. split; [lia|]. split; [lia|]. intros _. lia.
    + rewrite length_app. simpl. repeat split; lia.
    + repeat split; lia.
  - injection E as <-.
    destruct (Qeq_dec_prop (_start d) (inject_Z (t_start v d))) as [H|H].
    + rewrite (on_start_point_changed_same v d H). repeat split; lia.
    + rewrite (on_start_point_changed_other v d H). simpl. repeat split; lia.
  - injection E as <-.
    destruct (Qeq_dec_prop (_end d) (inject_Z (t_end v d))) as [H|H].
    + rewrite (on_end_point_changed_same v d H). repeat split; lia.
    + rewrite (on_end_point_changed_other v d H). simpl. repeat split; lia.
  - destruct (Qeq_dec (rc.fs (record d)) 0) as [Hfs|Hfs].
    + rewrite (on_position_estimated_zero time aic n0_aic d Hfs) in E.
      discriminate E.
    + rewrite (on_position_estimated_explicit time aic n0_aic d Hfs) in E.
      injection E as <-. simpl. repeat split; lia.
Qed.

(** X20.  Only the buttons act on the outside: over any sequence of
    operations that the dialog handles, the number of tasks handed to the
    wait dialog is the number of Apply clicks, and the number of writes to
    the document is at most the number of Ok clicks; it is exactly that
    number when no event is being refined, since each Ok then creates an
    event.  Edits of the bounds, results and Cancel write nothing and
    submit nothing. *)
Theorem session_counts (Takanami : TakanamiTask.Algorithm)
    (ops : list operation) (d d' : t) :
  handle_all Takanami ops d = inr d' ->
  List.length (wait_dialog d')
  = (List.length (wait_dialog d) + clicks QtGui.Apply ops)%nat /\
  (List.length (Document.calls (document d'))
   <= List.length (Document.calls (document d)) + clicks QtGui.Ok ops)%nat /\
  (seismic_event d = None ->
   List.length (Document.calls (document d'))
   = (List.length (Document.calls (document d)) + clicks QtGui.Ok ops)%nat).
Proof.
  revert d. induction ops as [|op ops IH]; intros d E.
  - injection E as <-. unfold clicks. simpl. repeat split; lia.
  - cbn [handle_all] in E.
    destruct (handle Takanami op d) as [e|d1] eqn:E1; [discriminate E|].
    cbn [Py.bind] in E.
    destruct (handle_counts _ _ _ E1) as (Hev & Hw & Hle & Heq).
    destruct (IH d1 E) as (Hw' & Hle' & Heq').
    unfold clicks in *. cbn [filter].
    destruct (is_click QtGui.Apply op); destruct (is_click QtGui.Ok op);
      cbn [List.length];
      (split; [lia|]); (split; [lia|]);
      intro Hnone; rewrite Hev in Heq'; specialize (Heq Hnone);
      specialize (Heq' Hnone); lia.
Qed.

Lemma session_counts_witness :
  exists d',
    handle_all Examples.returns_500 MoreExamples.session_1s Examples.dialog_1s
    = inr d' /\
    List.length (wait_dialog d') = 2%nat /\
    List.length (Document.calls (document d')) = 1%nat.
Proof.
  eexists. split; [vm_compute; reflexivity|].
  match goal with
  | |- List.length (wait_dialog ?d') = _ /\ _ =>
      destruct (@session_counts Examples.returns_500 MoreExamples.session_1s
                  Examples.dialog_1s d' ltac:(vm_compute; reflexivity))
        as (Hw & _ & Hc)
  end.
  split; [exact Hw | exact (Hc eq_refl)].
Defined.

(** *** From construction to the accepted event *)

(** What [__init__] leaves in the fields that the window does not touch. *)
Lemma init_fields (Takanami : TakanamiTask.Algorithm) (settings : QSettings)
    (document : Document.t) (t_start t_end : Q) (event : option rc.Event) (d : t) :
  __init__ Takanami settings document t_start t_end event = inr d ->
  TakanamiDialog.document d = document /\ seismic_event d = event /\
  event_time d
  = initial_event_time (Py.int (t_start * rc.fs (Document.record document)))
      (Py.int (t_end * rc.fs (Document.record document))) event /\
  plotted d = [] /\
  _task d = Some (TakanamiTask.__init__ Takanami (record d) (_start d) (_end d)) /\
  wait_dialog d = [TakanamiTask.__init__ Takanami (record d) (_start d) (_end d)].
Proof.
  intro E.
  destruct (init_inversion _ _ _ _ _ _ E) as (sp & d' & _ & _ & El & ->).
  unfold load_settings in El.
  destruct (set_margin_inversion _ _ El) as [Hm Hfs].
  rewrite (set_margin_explicit _ Hm Hfs) in El. injection El as <-.
  repeat split.
Qed.

(** The signals of a task, delivered to the dialog. *)
Lemma deliver_outcome (aborted : bool) (et : Z) (aic : list Q) (n0_aic : Z) (d : t) :
  ~ rc.fs (record d) == 0 ->
  deliver_all (TakanamiTask.outcome aborted (et, aic, n0_aic)) d
  = if aborted then inr d else on_position_estimated et aic n0_aic d.
Proof.
  intro Hfs. destruct aborted; [reflexivity|].
  unfold TakanamiTask.outcome. cbn [deliver_all deliver TakanamiTask.emit_position].
  rewrite (on_position_estimated_explicit et aic n0_aic d Hfs). reflexivity.
Qed.

(** X21.  From construction to the accepted event.  The task that
    [__init__] hands to the wait dialog, run to its end under any
    interleaving in which no [abort()] is observed, delivers one result to
    the dialog; the dialog plots it, and a click on Ok then writes to the
    document exactly this: with no event to refine, one [createEvent] at the
    estimated time; with an event whose time differs from the estimate, one
    [editEvent] of that event to the estimated time; with an event already
    at the estimate, nothing. *)
Theorem accept_after_estimation (Takanami : TakanamiTask.Algorithm)
    (settings : QSettings) (document : Document.t) (t_start t_end : Q)
    (event : option rc.Event) (d : t) (sch : list TakanamiTask.action)
    (et : Z) (aic : list Q) (n0_aic : Z) :
  __init__ Takanami settings document t_start t_end event = inr d ->
  Takanami (TakanamiTask.run_arguments
              (TakanamiTask.__init__ Takanami (record d) (_start d) (_end d)))
  = inr (et, aic, n0_aic) ->
  (7 <= TakanamiTask.steps sch)%nat ->
  TakanamiTask.abort_observed sch = false ->
  exists task d2,
    wait_dialog d = [task] /\
    deliver_all (TakanamiTask.emitted
                   (TakanamiTask.exec sch (TakanamiTask.call_run task))) d
    = inr d2 /\
    plotted d2 = [(et, aic, n0_aic)] /\
    Document.calls (TakanamiDialog.document (on_click Takanami QtGui.Ok d2))
    = Document.calls document
      ++ match event with
         | None =>
             [Document.createEvent et rc.method_takanami rc.mode_automatic
                rc.status_reported]
         | Some ev =>
             if (rc.time ev =? et)%Z then []
             else [Document.editEvent ev et rc.method_takanami
                     rc.mode_automatic rc.status_reported]
         end.
Proof.
  intros E Hr Hsteps Hobs.
  pose proof (init_fs_nonzero _ _ _ _ _ _ E) as Hfs.
  destruct (init_fields _ _ _ _ _ _ E) as (Hdoc & Hev & _ & Hpl & _ & Hw).
  set (task := TakanamiTask.__init__ Takanami (record d) (_start d) (_end d)) in *.
  exists task. eexists. split; [exact Hw|].
  unfold TakanamiTask.call_run.
  rewrite (@exec_reset (et, aic, n0_aic) sch task [] [] Hfs Hr Hsteps).
  rewrite Hobs. cbn [app].
  rewrite (deliver_outcome false et aic n0_aic d Hfs).
  rewrite (on_position_estimated_explicit et aic n0_aic d Hfs).
  split; [reflexivity|]. cbn [plotted]. rewrite Hpl.
  split; [reflexivity|].
  unfold on_click, save_event. cbn [seismic_event event_time TakanamiDialog.document].
  rewrite Hev, Hdoc. destruct event as [ev|].
  - destruct (rc.time ev =? et)%Z; simpl; [rewrite app_nil_r|]; reflexivity.
  - reflexivity.
Qed.

Lemma accept_after_estimation_witness :
  exists task d2,
    wait_dialog Examples.dialog_1s = [task] /\
    deliver_all (TakanamiTask.emitted
                   (TakanamiTask.exec (repeat TakanamiTask.Step 7)
                      (TakanamiTask.call_run task))) Examples.dialog_1s
    = inr d2 /\
    plotted d2 = [(500%Z, [], 0%Z)] /\
    Document.calls (TakanamiDialog.document
                      (on_click Examples.returns_500 QtGui.Ok d2))
    = Document.calls Examples.document_100Hz
      ++ [Document.createEvent 500 rc.method_takanami rc.mode_automatic
            rc.status_reported].
Proof.
  apply (@accept_after_estimation Examples.returns_500 Examples.settings_1s
           Examples.document_100Hz 4 6 None Examples.dialog_1s
           (repeat TakanamiTask.Step 7) 500%Z [] 0%Z init_1s).
  - reflexivity.
  - simpl. lia.
  - reflexivity.
Defined.

(** X22.  Accepting without a result.  If the only run of the task that
    [__init__] submitted was aborted in time, nothing reaches the dialog,
    and a click on Ok writes the event time that construction chose: with
    no event to refine, one [createEvent] at the midpoint of the window
    that was passed in; with an event to refine, nothing. *)
Theorem accept_after_aborted_estimation (Takanami : TakanamiTask.Algorithm)
    (settings : QSettings) (document : Document.t) (t_start t_end : Q)
    (event : option rc.Event) (d : t) (sch : list TakanamiTask.action) :
  __init__ Takanami settings document t_start t_end event = inr d ->
  TakanamiTask.abort_observed sch = true ->
  exists task,
    wait_dialog d = [task] /\
    deliver_all (TakanamiTask.emitted
                   (TakanamiTask.exec sch (TakanamiTask.call_run task))) d
    = inr d /\
    Document.calls (TakanamiDialog.document (on_click Takanami QtGui.Ok d))
    = Document.calls document
      ++ match event with
         | None =>
             let start := Py.int (t_start * rc.fs (Document.record document)) in
             let end_ := Py.int (t_end * rc.fs (Document.record document)) in
             [Document.createEvent (start + half (end_ - start))
                rc.method_takanami rc.mode_automatic rc.status_reported]
         | Some _ => []
         end.
Proof.
  intros E Hobs.
  destruct (init_fields _ _ _ _ _ _ E) as (Hdoc & Hev & Het & _ & _ & Hw).
  eexists. split; [exact Hw|].
  unfold TakanamiTask.call_run.
  rewrite (proj1 (stop_reset sch _ [] []) Hobs).
  split; [reflexivity|].
  unfold on_click, save_event. rewrite Hev, Het. destruct event as [ev|].
  - unfold initial_event_time. rewrite Z.eqb_refl. simpl.
    rewrite Hdoc, app_nil_r. reflexivity.
  - simpl. rewrite Hdoc. reflexivity.
Qed.

Lemma accept_after_aborted_estimation_witness :
  exists task,
    wait_dialog Examples.dialog_1s = [task] /\
    deliver_all (TakanamiTask.emitted
                   (TakanamiTask.exec Examples.abort_during_algorithm
                      (TakanamiTask.call_run task))) Examples.dialog_1s
    = inr Examples.dialog_1s /\
    Document.calls (TakanamiDialog.document
                      (on_click Examples.returns_500 QtGui.Ok Examples.dialog_1s))
    = Document.calls Examples.document_100Hz
      ++ [Document.createEvent 500 rc.method_takanami rc.mode_automatic
            rc.status_reported].
Proof.
  apply (@accept_after_aborted_estimation Examples.returns_500
           Examples.settings_1s Examples.document_100Hz 4 6 None
           Examples.dialog_1s Examples.abort_during_algorithm init_1s).
  reflexivity.
Defined.

(** *** What Apply asks of the algorithm *)

Lemma div_comp (a b c : Q) : a == b -> a / c == b / c.
Proof. intro H. unfold Qdiv. rewrite H. reflexivity. Qed.

(** X23.  A click on Apply hands exactly one new task to the wait dialog
    and writes nothing to the document.  When the window is inside the
    signal and at least the minimum margin wide, the clamps of [run] have
    nothing to do on that task: the times it will pass to the algorithm are
    the window's bounds divided by [fs], they lie between 0 and the length
    of the signal in seconds, and they are in order.  (How far apart the two
    quotients are is not stated: divided as floats, the bounds of a window
    of exactly [0.5 * fs] samples can come out less than 0.5 apart.) *)
Theorem apply_submits_the_window (Takanami : TakanamiTask.Algorithm) (d : t) :
  0 < rc.fs (record d) -> window_ok d ->
  exists task,
    wait_dialog (on_click Takanami QtGui.Apply d) = wait_dialog d ++ [task] /\
    _task (on_click Takanami QtGui.Apply d) = Some task /\
    TakanamiDialog.document (on_click Takanami QtGui.Apply d)
    = TakanamiDialog.document d /\
    TakanamiTask.start_time_in_secs task == _start d / rc.fs (record d) /\
    TakanamiTask.end_time_in_secs task == _end d / rc.fs (record d) /\
    0 <= TakanamiTask.start_time_in_secs task /\
    TakanamiTask.end_time_in_secs task
    <= inject_Z (len (record d)) / rc.fs (record d) /\
    TakanamiTask.start_time_in_secs task <= TakanamiTask.end_time_in_secs task.
Proof.
  intros Hfs (H0 & Hlt & HN & Hmin).
  assert (Hnz : ~ rc.fs (record d) == 0)
    by (intro E0; rewrite E0 in Hfs; discriminate Hfs).
  eexists. split; [reflexivity|]. split; [reflexivity|]. split; [reflexivity|].
  unfold TakanamiTask.start_time_in_secs, TakanamiTask.end_time_in_secs.
  cbn [TakanamiTask.start TakanamiTask.end_ TakanamiTask.record
       TakanamiTask.__init__].
  set (fs := rc.fs (record d)) in *.
  set (N := inject_Z (len (record d))) in *.
  assert (Es : Py.max 0 (_start d) == _start d)
    by (destruct (max_cases_value 0 (_start d)) as [[H E]|[H E]]; lra).
  assert (Ee : Py.min N (_end d) == _end d)
    by (destruct (min_cases_value N (_end d)) as [[H E]|[H E]]; lra).
  rewrite (div_comp fs Es), (div_comp fs Ee).
  split; [reflexivity|]. split; [reflexivity|].
  split; [|split].
  - apply Qle_shift_div_l; [exact Hfs | lra].
  - unfold Qdiv. apply Qmult_le_compat_r;
      [exact HN | apply Qlt_le_weak, Qinv_lt_0_compat, Hfs].
  - unfold Qdiv. apply Qmult_le_compat_r;
      [apply Qlt_le_weak, Hlt | apply Qlt_le_weak, Qinv_lt_0_compat, Hfs].
Qed.

Lemma apply_submits_the_window_witness :
  exists task,
    wait_dialog (on_click Examples.returns_500 QtGui.Apply Examples.dialog_50)
    = wait_dialog Examples.dialog_50 ++ [task] /\
    _task (on_click Examples.returns_500 QtGui.Apply Examples.dialog_50)
    = Some task /\
    TakanamiDialog.document
      (on_click Examples.returns_500 QtGui.Apply Examples.dialog_50)
    = TakanamiDialog.document Examples.dialog_50 /\
    TakanamiTask.start_time_in_secs task
    == _start Examples.dialog_50 / rc.fs (record Examples.dialog_50) /\
    TakanamiTask.end_time_in_secs task
    == _end Examples.dialog_50 / rc.fs (record Examples.dialog_50) /\
    0 <= TakanamiTask.start_time_in_secs task /\
    TakanamiTask.end_time_in_secs task
    <= inject_Z (len (record Examples.dialog_50))
       / rc.fs (record Examples.dialog_50) /\
    TakanamiTask.start_time_in_secs task <= TakanamiTask.end_time_in_secs task.
Proof.
  apply (@apply_submits_the_window Examples.returns_500 Examples.dialog_50).
  - vm_compute. reflexivity.
  - unfold window_ok. repeat split; vm_compute;
      first [reflexivity | intro H; discriminate H].
Defined.

End SessionExtras.
